(** * SkinIQ: the ingredient-analysis relay

    A shallow embedding of the two handlers of the repository,
    [netlify/functions/analyze.js] (CommonJS, calls the completion service
    with [fetch]) and the ES-module handler that goes through the vendor's
    client library, together with the parts of the JavaScript platform they
    use: strings of UTF-16 code units, [String.prototype.trim], the regular
    expressions of the two files, [JSON.parse] and [JSON.stringify]. *)

From Stdlib Require Import List NArith Bool Ascii String Lia.
Import ListNotations.

Set Warnings "-register-all".

(** ** Strings

    A JavaScript string is a sequence of 16-bit code units. *)

Definition str := list N.

Definition lit (s : string) : str :=
  map N_of_ascii (list_ascii_of_string s).

(** The double quote, which a literal of this file cannot hold. *)
Definition dq : str := [34%N].

(** The code units of a text given in UTF-8.  [pending] counts the
    continuation bytes still to come, [acc] holds the bits read so far. *)
Fixpoint utf16_of_utf8 (pending : nat) (acc : N) (bs : list N) : str :=
  match bs with
  | [] => []
  | b :: bs' =>
      match pending with
      | O =>
          if N.ltb b 128 then b :: utf16_of_utf8 0 0 bs'
          else if N.ltb b 224 then utf16_of_utf8 1 (b - 192) bs'
          else if N.ltb b 240 then utf16_of_utf8 2 (b - 224) bs'
          else utf16_of_utf8 3 (b - 240) bs'
      | S k =>
          let cp := (64 * acc + (b - 128))%N in
          match k with
          | O =>
              (if N.ltb cp 65536 then [cp]
               else [(55296 + (cp - 65536) / 1024)%N;
                     (56320 + (cp - 65536) mod 1024)%N])
              ++ utf16_of_utf8 0 0 bs'
          | _ => utf16_of_utf8 k cp bs'
          end
      end
  end.

(** A literal of the source, written here in UTF-8 and with a [`] for
    every double quote of the source (a template literal holds no [`]). *)
Definition qlit (s : string) : str :=
  map (fun c => if N.eqb c 96 then 34%N else c) (utf16_of_utf8 0 0 (lit s)).

Definition nl : str := [10%N].

Fixpoint str_eqb (a b : str) : bool :=
  match a, b with
  | [], [] => true
  | x :: a', y :: b' => N.eqb x y && str_eqb a' b'
  | _, _ => false
  end.

Section Chars.
Open Scope N_scope.

(** [WhiteSpace] and [LineTerminator] of ECMAScript: what [trim] removes
    and what [\s] matches. *)
Definition is_ws (c : N) : bool :=
  ((9 <=? c) && (c <=? 13)) || (c =? 32) || (c =? 160) || (c =? 5760)
  || ((8192 <=? c) && (c <=? 8202)) || (c =? 8232) || (c =? 8233)
  || (c =? 8239) || (c =? 8287) || (c =? 12288) || (c =? 65279).

Definition is_digit (c : N) : bool := (48 <=? c) && (c <=? 57).

(** Canonicalisation of the [i] flag (no [u] flag): an ASCII letter and
    its other case are the same; a code unit of 128 or more never
    matches an ASCII one. *)
Definition upper (c : N) : N :=
  if (97 <=? c) && (c <=? 122) then c - 32 else c.

Definition ci_eqb (a b : N) : bool := upper a =? upper b.
End Chars.

Fixpoint drop_ws (s : str) : str :=
  match s with
  | c :: s' => if is_ws c then drop_ws s' else s
  | [] => []
  end.

Definition trimStart (s : str) : str := drop_ws s.
Definition trimEnd (s : str) : str := rev (drop_ws (rev s)).

(** [String.prototype.trim] *)
Definition trim (s : str) : str := trimEnd (trimStart s).

(** [strip_prefix eq p s]: the rest of [s] after the prefix [p], code units
    compared with [eq]. *)
Fixpoint strip_prefix (eq : N -> N -> bool) (p s : str) : option str :=
  match p, s with
  | [], _ => Some s
  | x :: p', y :: s' => if eq x y then strip_prefix eq p' s' else None
  | _ :: _, [] => None
  end.

(** [s.slice(0, n)] for [0 <= n] *)
Definition slice0 (n : nat) (s : str) : str := firstn n s.

(** [s.split(/[\n,]/)]: the segments between the separators; a string
    without one (the empty string too) is a single segment. *)
Fixpoint split_on (sep : N -> bool) (s : str) : list str :=
  match s with
  | [] => [[]]
  | c :: s' =>
      if sep c then [] :: split_on sep s'
      else match split_on sep s' with
           | seg :: segs => (c :: seg) :: segs
           | [] => [[c]]
           end
  end.

Definition is_newline_or_comma (c : N) : bool := N.eqb c 10 || N.eqb c 44.

Definition fence : str := lit "```".
Definition json_tag : str := lit "json".

(** *** The regular expressions of the two handlers *)

(** [s.replace(/^```(?:json)?\s*/i, '')] *)
Definition strip_leading_fence (s : str) : str :=
  match strip_prefix N.eqb fence s with
  | None => s
  | Some r =>
      match strip_prefix ci_eqb json_tag r with
      | Some r' => drop_ws r'
      | None => drop_ws r
      end
  end.

(** [s.replace(/\s*```$/i, '')]: the match is the closing fence at the very
    end of [s] with the white space before it. *)
Definition strip_trailing_fence (s : str) : str :=
  match strip_prefix N.eqb (rev fence) (rev s) with
  | None => s
  | Some r => rev (drop_ws r)
  end.

(** [s.replace(/m\s*/gi, "")] for a marker [m] that is not empty: every
    occurrence of [m], from the left, is removed with the white space that
    follows it.  [todo] counts the code units of the current occurrence
    still to skip, [in_ws] says that the white space after an occurrence
    is being skipped. *)
Fixpoint remove_marked (m : str) (todo : nat) (in_ws : bool) (s : str) : str :=
  match s with
  | [] => []
  | c :: s' =>
      match todo with
      | S k => remove_marked m k true s'
      | O =>
          if in_ws && is_ws c then remove_marked m 0 true s'
          else
            match strip_prefix ci_eqb m s with
            | Some _ => remove_marked m (List.length m - 1) true s'
            | None => c :: remove_marked m 0 false s'
            end
      end
  end.

Definition remove_all (m : str) (s : str) : str := remove_marked m 0 false s.

Fixpoint from_first (c : N) (s : str) : option str :=
  match s with
  | [] => None
  | x :: s' => if N.eqb x c then Some s else from_first c s'
  end.

Definition upto_last (c : N) (s : str) : option str :=
  option_map (@rev N) (from_first c (rev s)).

(** [s.match(/\{[\s\S]*\}/)]: the span from the first [{] to the last [}]
    after it, [None] for [null]. *)
Definition match_braces (s : str) : option str :=
  match from_first 123 s with
  | Some (b :: t) => option_map (cons b) (upto_last 125 t)
  | _ => None
  end.

(** ** The engine

    What the handlers see of the JavaScript engine and cannot be read off
    their source: the Number type (binary64) with its conversions, and the
    text of the messages of the errors the engine itself raises. *)

Class Engine := {
  Number : Type;
  (** the value of a numeric literal of the JSON grammar *)
  StringToNumber : str -> Number;
  (** [ToBoolean]: false for zero and NaN *)
  NumberToBoolean : Number -> bool;
  NumberIsFinite : Number -> bool;
  (** [Number::toString] *)
  NumberToString : Number -> str;
  (** [message] of the SyntaxError of [JSON.parse] on a text *)
  SyntaxErrorMessage : str -> str;
  (** [message] of a TypeError, by the operation that raised it *)
  TypeErrorMessage : str -> str
}.

(** ** JSON *)

Inductive token :=
| TLBrace | TRBrace | TLBracket | TRBracket | TColon | TComma
| TString (s : str) | TNumber (s : str) | TTrue | TFalse | TNull.

Section Lexer.
Open Scope N_scope.

(** A number of the JSON grammar: an optional minus sign; then 0, or a
    digit from 1 to 9 and any digits; then, optionally, a point and one
    digit or more; then, optionally, e or E, a sign and one digit or more. *)
Definition exponent_ok (s : str) : bool :=
  match s with
  | [] => true
  | c :: r =>
      if (c =? 101) || (c =? 69) then
        let r' := match r with
                  | x :: y => if (x =? 43) || (x =? 45) then y else r
                  | [] => r
                  end in
        match r' with
        | [] => false
        | _ => forallb is_digit r'
        end
      else false
  end.

Fixpoint drop_digits (s : str) : str :=
  match s with
  | c :: s' => if is_digit c then drop_digits s' else s
  | [] => []
  end.

Definition fraction_ok (s : str) : bool :=
  match s with
  | c :: r =>
      if c =? 46 then
        match r with
        | d :: r' => is_digit d && exponent_ok (drop_digits r')
        | [] => false
        end
      else exponent_ok s
  | [] => true
  end.

Definition integer_ok (s : str) : bool :=
  match s with
  | c :: r =>
      if c =? 48 then fraction_ok r
      else if is_digit c then fraction_ok (drop_digits r)
      else false
  | [] => false
  end.

Definition number_ok (s : str) : bool :=
  match s with
  | c :: r => if c =? 45 then integer_ok r else integer_ok s
  | [] => false
  end.

Definition is_number_char (c : N) : bool :=
  is_digit c || (c =? 45) || (c =? 43) || (c =? 46) || (c =? 101) || (c =? 69).

Definition is_lower (c : N) : bool := (97 <=? c) && (c <=? 122).

Definition hex_value (c : N) : option N :=
  if is_digit c then Some (c - 48)
  else if (97 <=? c) && (c <=? 102) then Some (c - 87)
  else if (65 <=? c) && (c <=? 70) then Some (c - 55)
  else None.

(** JSON white space: tab, line feed, carriage return, space. *)
Definition is_json_ws (c : N) : bool :=
  (c =? 9) || (c =? 10) || (c =? 13) || (c =? 32).

Definition escape_value (c : N) : option N :=
  if (c =? 34) || (c =? 92) || (c =? 47) then Some c
  else if c =? 98 then Some 8
  else if c =? 102 then Some 12
  else if c =? 110 then Some 10
  else if c =? 114 then Some 13
  else if c =? 116 then Some 9
  else None.

(** The lexer reads one code unit at a time.  Accumulators are kept in
    reverse. *)
Inductive lex_state :=
| LStart
| LString (acc : str)
| LEscape (acc : str)
| LHex (acc : str) (n : nat) (v : N)
| LNumber (acc : str)
| LWord (acc : str).

Definition word_token (w : str) : option token :=
  if str_eqb w (lit "true") then Some TTrue
  else if str_eqb w (lit "false") then Some TFalse
  else if str_eqb w (lit "null") then Some TNull
  else None.

Definition number_token (w : str) : option token :=
  if number_ok w then Some (TNumber w) else None.

(** What a code unit does between tokens: the tokens it completes and
    the next state. *)
Definition lex_start (c : N) : option (list token * lex_state) :=
  if is_json_ws c then Some ([], LStart)
  else if c =? 123 then Some ([TLBrace], LStart)
  else if c =? 125 then Some ([TRBrace], LStart)
  else if c =? 91 then Some ([TLBracket], LStart)
  else if c =? 93 then Some ([TRBracket], LStart)
  else if c =? 58 then Some ([TColon], LStart)
  else if c =? 44 then Some ([TComma], LStart)
  else if c =? 34 then Some ([], LString [])
  else if is_digit c || (c =? 45) then Some ([], LNumber [c])
  else if is_lower c then Some ([], LWord [c])
  else None.

Definition lex_step (st : lex_state) (c : N) : option (list token * lex_state) :=
  match st with
  | LStart => lex_start c
  | LString acc =>
      if c =? 34 then Some ([TString (rev acc)], LStart)
      else if c =? 92 then Some ([], LEscape acc)
      else if c <? 32 then None
      else Some ([], LString (c :: acc))
  | LEscape acc =>
      if c =? 117 then Some ([], LHex acc 0 0)
      else match escape_value c with
           | Some x => Some ([], LString (x :: acc))
           | None => None
           end
  | LHex acc n v =>
      match hex_value c with
      | Some d =>
          let v' := 16 * v + d in
          match n with
          | 3%nat => Some ([], LString (v' :: acc))
          | _ => Some ([], LHex acc (S n) v')
          end
      | None => None
      end
  | LNumber acc =>
      if is_number_char c then Some ([], LNumber (c :: acc))
      else match number_token (rev acc), lex_start c with
           | Some t, Some (ts, st') => Some (t :: ts, st')
           | _, _ => None
           end
  | LWord acc =>
      if is_lower c then Some ([], LWord (c :: acc))
      else match word_token (rev acc), lex_start c with
           | Some t, Some (ts, st') => Some (t :: ts, st')
           | _, _ => None
           end
  end.

Definition lex_end (st : lex_state) : option (list token) :=
  match st with
  | LStart => Some []
  | LNumber acc => option_map (fun t => [t]) (number_token (rev acc))
  | LWord acc => option_map (fun t => [t]) (word_token (rev acc))
  | _ => None
  end.

Fixpoint lex (st : lex_state) (s : str) : option (list token) :=
  match s with
  | [] => lex_end st
  | c :: s' =>
      match lex_step st c with
      | Some (ts, st') => option_map (app ts) (lex st' s')
      | None => None
      end
  end.
End Lexer.

Section JSON.
Context {E : Engine}.
Open Scope N_scope.

(** The values [JSON.parse] builds.  The properties of an object are kept
    in the order in which the engine enumerates them. *)
Inductive value :=
| Null
| Bool (b : bool)
| Num (n : Number)
| Str (s : str)
| Arr (l : list value)
| Obj (ps : list (str * value)).

Fixpoint digits_value (acc : N) (s : str) : N :=
  match s with
  | [] => acc
  | c :: s' => digits_value (10 * acc + (c - 48)) s'
  end.

(** An array index: the canonical decimal form of an integer below
    [2^32 - 1]. *)
Definition array_index (k : str) : option N :=
  match k with
  | [] => None
  | c :: r =>
      if forallb is_digit k
         && (negb (c =? 48) || match r with [] => true | _ => false end)
      then
        let v := digits_value 0 k in
        if v <? 4294967295 then Some v else None
      else None
  end.

Fixpoint lookup (k : str) (ps : list (str * value)) : option value :=
  match ps with
  | [] => None
  | (k', v) :: ps' => if str_eqb k k' then Some v else lookup k ps'
  end.

Fixpoint replace_property (k : str) (v : value) (ps : list (str * value)) :=
  match ps with
  | [] => []
  | (k', v') :: ps' =>
      if str_eqb k k' then (k', v) :: ps'
      else (k', v') :: replace_property k v ps'
  end.

Fixpoint insert_index (i : N) (k : str) (v : value) (ps : list (str * value)) :=
  match ps with
  | [] => [(k, v)]
  | (k', v') :: ps' =>
      match array_index k' with
      | Some j =>
          if j <? i then (k', v') :: insert_index i k v ps'
          else (k, v) :: ps
      | None => (k, v) :: ps
      end
  end.

(** [CreateDataProperty]: a key already there keeps its place and takes
    the new value; a new array index goes among the indices, in ascending
    order, ahead of the other keys; any other new key goes last. *)
Definition define_property (k : str) (v : value) (ps : list (str * value)) :=
  match lookup k ps with
  | Some _ => replace_property k v ps
  | None =>
      match array_index k with
      | Some i => insert_index i k v ps
      | None => ps ++ [(k, v)]
      end
  end.

(** *** The parser, over the tokens *)

Inductive frame :=
| FArr (acc : list value)
| FObj (ps : list (str * value)) (key : str).

Inductive parse_state :=
| PValue (stk : list frame)
| PArrFirst (stk : list frame)
| PObjFirst (stk : list frame)
| PKey (ps : list (str * value)) (stk : list frame)
| PColon (ps : list (str * value)) (key : str) (stk : list frame)
| PAfter (v : value) (stk : list frame).

Definition parse_value_token (t : token) (stk : list frame) : option parse_state :=
  match t with
  | TString s => Some (PAfter (Str s) stk)
  | TNumber s => Some (PAfter (Num (StringToNumber s)) stk)
  | TTrue => Some (PAfter (Bool true) stk)
  | TFalse => Some (PAfter (Bool false) stk)
  | TNull => Some (PAfter Null stk)
  | TLBracket => Some (PArrFirst stk)
  | TLBrace => Some (PObjFirst stk)
  | _ => None
  end.

Definition parse_step (st : parse_state) (t : token) : option parse_state :=
  match st with
  | PValue stk => parse_value_token t stk
  | PArrFirst stk =>
      match t with
      | TRBracket => Some (PAfter (Arr []) stk)
      | _ => parse_value_token t (FArr [] :: stk)
      end
  | PObjFirst stk =>
      match t with
      | TRBrace => Some (PAfter (Obj []) stk)
      | TString k => Some (PColon [] k stk)
      | _ => None
      end
  | PKey ps stk =>
      match t with
      | TString k => Some (PColon ps k stk)
      | _ => None
      end
  | PColon ps k stk =>
      match t with
      | TColon => Some (PValue (FObj ps k :: stk))
      | _ => None
      end
  | PAfter v (FArr acc :: stk) =>
      match t with
      | TComma => Some (PValue (FArr (v :: acc) :: stk))
      | TRBracket => Some (PAfter (Arr (rev (v :: acc))) stk)
      | _ => None
      end
  | PAfter v (FObj ps k :: stk) =>
      match t with
      | TComma => Some (PKey (define_property k v ps) stk)
      | TRBrace => Some (PAfter (Obj (define_property k v ps)) stk)
      | _ => None
      end
  | PAfter v [] => None
  end.

Fixpoint parse (st : parse_state) (ts : list token) : option value :=
  match ts with
  | [] => match st with
          | PAfter v [] => Some v
          | _ => None
          end
  | t :: ts' =>
      match parse_step st t with
      | Some st' => parse st' ts'
      | None => None
      end
  end.

(** [JSON.parse] of a string; [None] stands for the SyntaxError. *)
Definition JSON_parse (s : str) : option value :=
  match lex LStart s with
  | Some ts => parse (PValue []) ts
  | None => None
  end.

(** *** [JSON.stringify] *)

Definition hex_digit (d : N) : N := if d <? 10 then 48 + d else 87 + d.

Definition unicode_escape (c : N) : str :=
  [92; 117; hex_digit (c / 4096 mod 16); hex_digit (c / 256 mod 16);
   hex_digit (c / 16 mod 16); hex_digit (c mod 16)].

Definition is_lead (c : N) : bool := (55296 <=? c) && (c <=? 56319).
Definition is_trail (c : N) : bool := (56320 <=? c) && (c <=? 57343).

Definition quote_unit (c : N) : str :=
  if c =? 8 then lit "\b"
  else if c =? 9 then lit "\t"
  else if c =? 10 then lit "\n"
  else if c =? 12 then lit "\f"
  else if c =? 13 then lit "\r"
  else if c =? 34 then [92; 34]
  else if c =? 92 then [92; 92]
  else if (c <? 32) || is_lead c || is_trail c then unicode_escape c
  else [c].

(** The body of [QuoteJSONString]: a surrogate pair is kept, a lone
    surrogate is escaped. *)
Fixpoint quote_units (s : str) : str :=
  match s with
  | [] => []
  | c :: s' =>
      match s' with
      | d :: s'' =>
          if is_lead c && is_trail d then c :: d :: quote_units s''
          else quote_unit c ++ quote_units s'
      | [] => quote_unit c
      end
  end.

Definition quote (s : str) : str := dq ++ quote_units s ++ dq.

Fixpoint join (sep : str) (l : list str) : str :=
  match l with
  | [] => []
  | [x] => x
  | x :: l' => x ++ sep ++ join sep l'
  end.

(** [JSON.stringify(v)], no replacer and no indentation. *)
Fixpoint JSON_stringify (v : value) : str :=
  match v with
  | Null => lit "null"
  | Bool true => lit "true"
  | Bool false => lit "false"
  | Num n => if NumberIsFinite n then NumberToString n else lit "null"
  | Str s => quote s
  | Arr l => lit "[" ++ join (lit ",") (map JSON_stringify l) ++ lit "]"
  | Obj ps =>
      lit "{"
      ++ join (lit ",")
           (map (fun kv => quote (fst kv) ++ lit ":" ++ JSON_stringify (snd kv)) ps)
      ++ lit "}"
  end.

(** *** Conversions *)

(** [ToBoolean] *)
Definition truthy (v : value) : bool :=
  match v with
  | Null => false
  | Bool b => b
  | Num n => NumberToBoolean n
  | Str s => match s with [] => false | _ => true end
  | Arr _ | Obj _ => true
  end.

(** [!x] for a variable that may be [undefined] ([None]). *)
Definition falsy (x : option value) : bool :=
  match x with
  | Some v => negb (truthy v)
  | None => true
  end.
End JSON.

(** ** Effects

    A handler is an [async] function: it returns normally, or throws, and
    on the way it may call the completion service.  [M R A] threads the
    list of the calls made so far, each recorded with the request of type
    [R] that was sent. *)

Inductive exn := Exn (message : str).

Definition message (e : exn) : str := let 'Exn m := e in m.

Inductive completion (A : Type) :=
| Normal (a : A)
| Throw (e : exn).

Arguments Normal {A} a.
Arguments Throw {A} e.

Section Monad.
Variable R : Type.

Definition M (A : Type) : Type := list R -> completion A * list R.

Definition ret {A} (a : A) : M A := fun calls => (Normal a, calls).

Definition throw {A} (e : exn) : M A := fun calls => (Throw e, calls).

Definition bind {A B} (m : M A) (f : A -> M B) : M B :=
  fun calls =>
    match m calls with
    | (Normal a, calls') => f a calls'
    | (Throw e, calls') => (Throw e, calls')
    end.

(** [try { m } catch (err) { h err }] *)
Definition try_catch {A} (m : M A) (h : exn -> M A) : M A :=
  fun calls =>
    match m calls with
    | (Normal a, calls') => (Normal a, calls')
    | (Throw e, calls') => h e calls'
    end.

Definition lift {A} (c : completion A) : M A := fun calls => (c, calls).

(** [await service(r)]: the call is recorded, then its outcome is that
    of the service. *)
Definition await_call {A} (service : R -> completion A) (r : R) : M A :=
  fun calls => (service r, calls ++ [r]).

(** A handler run from an empty record of calls. *)
Definition run {A} (m : M A) : completion A * list R := m [].
End Monad.

Arguments ret {R A} a.
Arguments throw {R A} e.
Arguments lift {R A} c.
Arguments bind {R A B} m f.
Arguments try_catch {R A} m h.
Arguments await_call {R A} service r.
Arguments run {R A} m.

Notation "x <- m ;; k" := (bind m (fun x => k))
  (at level 61, m at next level, right associativity).

(** What a handler hands back to the host: the status, the headers the
    handler sets, the body. *)
Record response := {
  status : N;
  headers : list (str * str);
  body : str
}.

Section Access.
Context {E : Engine}.

Definition TypeError (what : string) : exn := Exn (TypeErrorMessage (lit what)).

(** [o[k]] for the property names the handlers read ([mode], [content],
    [mimeType], [text] and the index [0]); no built-in prototype defines
    one of them, so only own properties count.  Reading a property of
    [undefined] or [null] throws. *)
Definition Get (o : option value) (k : str) : completion (option value) :=
  match o with
  | None | Some Null => Throw (Exn (TypeErrorMessage k))
  | Some (Obj ps) => Normal (lookup k ps)
  | Some (Arr l) =>
      Normal match array_index k with
             | Some i => nth_error l (N.to_nat i)
             | None => None
             end
  | Some (Str s) =>
      Normal match array_index k with
             | Some i => option_map (fun c => Str [c]) (nth_error s (N.to_nat i))
             | None => None
             end
  | Some (Bool _) | Some (Num _) => Normal None
  end.

(** [x.content[0].text] *)
Definition first_block_text (x : value) : completion (option value) :=
  match Get (Some x) (lit "content") with
  | Throw e => Throw e
  | Normal content =>
      match Get content (lit "0") with
      | Throw e => Throw e
      | Normal block => Get block (lit "text")
      end
  end.

(** [x.trim()]: [trim] is a method of strings only; on anything else the
    call throws. *)
Definition call_trim (x : option value) : completion str :=
  match x with
  | Some (Str s) => Normal (trim s)
  | _ => Throw (TypeError "trim")
  end.

(** [const { mode, content, mimeType } = body] *)
Definition destructure (body : value)
  : completion (option value * option value * option value) :=
  match Get (Some body) (lit "mode") with
  | Throw e => Throw e
  | Normal mode =>
      match Get (Some body) (lit "content"), Get (Some body) (lit "mimeType") with
      | Normal content, Normal mimeType => Normal (mode, content, mimeType)
      | Throw e, _ | _, Throw e => Throw e
      end
  end.

(** [x === s] for a string literal [s] *)
Definition is_string (x : value) (s : str) : bool :=
  match x with
  | Str t => str_eqb t s
  | _ => false
  end.

(** [x || d] *)
Definition or_default (x : option value) (d : value) : value :=
  match x with
  | Some v => if truthy v then v else d
  | None => d
  end.

Definition number (digits : string) : value := Num (StringToNumber (lit digits)).

Definition error_body (msg : str) : str :=
  JSON_stringify (Obj [(lit "error", Str msg)]).
End Access.

(** ** [netlify/functions/analyze.js] *)

Module Analyze.
Section Handler.
Context {E : Engine}.

Record event := {
  httpMethod : str;
  (** [null] when the request carries no body *)
  event_body : option str
}.

(** [process.env] *)
Record process_env := { ANTHROPIC_API_KEY : option str }.

(** The argument of [fetch] and what it resolves to. *)
Record fetch_request := {
  url : str;
  method : str;
  request_headers : list (str * str);
  request_body : str
}.

Record fetch_response := {
  ok : bool;
  (** the outcome of reading the body, by [text()] or [json()] *)
  text : completion str
}.

Definition fetch_service := fetch_request -> completion fetch_response.

(** [JSON.parse] converts its argument to a string first, [null] to the
    text [null]. *)
Definition body_text (ev : event) : str :=
  match event_body ev with
  | Some b => b
  | None => lit "null"
  end.

(** [response.json()] *)
Definition json (r : fetch_response) : completion value :=
  match text r with
  | Throw e => Throw e
  | Normal t =>
      match JSON_parse t with
      | Some v => Normal v
      | None => Throw (Exn (SyntaxErrorMessage t))
      end
  end.

Definition systemPrompt : str := qlit "You are an expert skincare chemist and ingredient safety analyst. Analyze skincare ingredients and return ONLY a valid JSON object with no extra text, markdown, or code blocks.

Return this exact JSON structure:
{
  `productName`: `string or null`,
  `extractedIngredientText`: `raw ingredient list as string`,
  `ingredients`: [
    {
      `name`: `Common name`,
      `inci`: `INCI/scientific name`,
      `safety`: `safe|caution|flag`,
      `category`: [`array`, `of`, `categories`],
      `description`: `Brief description of what this ingredient is and does`,
      `benefits`: [`benefit 1`, `benefit 2`],
      `concerns`: [`concern 1`, `concern 2`],
      `comedogenic`: 0,
      `pregnancySafe`: true,
      `bannedRegions`: [],
      `ewgScore`: 1
    }
  ],
  `summary`: {
    `overallSafety`: `safe|caution|flag`,
    `safeCount`: 0,
    `cautionCount`: 0,
    `flagCount`: 0,
    `topConcerns`: [`concern 1`, `concern 2`],
    `skinTypeNotes`: `Notes about which skin types this is suitable for`,
    `pregnancyNote`: `Overall pregnancy safety note`
  }
}

Safety ratings:
- safe: Generally recognized as safe, well-studied
- caution: Some concerns, use with awareness (e.g. retinol, acids, fragrance)
- flag: Known irritants, allergens, banned in some regions, or controversial (e.g. parabens, oxybenzone, formaldehyde releasers)

comedogenic: 0-5 scale (0=non-comedogenic, 5=highly comedogenic)
ewgScore: 1-10 (1=safest, 10=highest concern)
pregnancySafe: true, false, or null if unknown

Return ONLY the JSON. No explanation, no markdown, no code fences.".

Definition image_instruction : str :=
  lit "Please read the ingredient list from this skincare product label image and analyze each ingredient. Extract all ingredients you can see, then analyze them.".

(** The two wordings of the text branch. *)
Definition product_message (content : str) : str :=
  qlit "Analyze the ingredients in this skincare product: `" ++ content
  ++ qlit "`. If you know this product, list and analyze its ingredients.".

Definition ingredients_message (content : str) : str :=
  lit "Analyze these skincare ingredients:" ++ nl ++ nl ++ content.

Definition isProductName (content : str) : bool :=
  Nat.leb (List.length (split_on is_newline_or_comma (trim content))) 3
  && Nat.ltb (List.length (trim content)) 80.

(** Lines 21-38: the content of the user message. *)
Definition build_userMessage (mode content : value) (mimeType : option value)
  : completion value :=
  if is_string mode (lit "image") then
    Normal (Arr [
      Obj [(lit "type", Str (lit "image"));
           (lit "source",
            Obj [(lit "type", Str (lit "base64"));
                 (lit "media_type", or_default mimeType (Str (lit "image/jpeg")));
                 (lit "data", content)])];
      Obj [(lit "type", Str (lit "text"));
           (lit "text", Str image_instruction)]])
  else
    match content with
    | Str c =>
        Normal (Str (if isProductName c then product_message c
                     else ingredients_message c))
    | _ => Throw (TypeError "trim")
    end.

Definition completion_request (apiKey : str) (userMessage : value) : fetch_request :=
  {| url := lit "https://api.anthropic.com/v1/messages";
     method := lit "POST";
     request_headers :=
       [(lit "Content-Type", lit "application/json");
        (lit "x-api-key", apiKey);
        (lit "anthropic-version", lit "2023-06-01")];
     request_body :=
       JSON_stringify
         (Obj [(lit "model", Str (lit "claude-opus-4-5"));
               (lit "max_tokens", number "8192");
               (lit "system", Str systemPrompt);
               (lit "messages",
                Arr [Obj [(lit "role", Str (lit "user"));
                          (lit "content", userMessage)]])]) |}.

(** Line 108 *)
Definition strip_fences (text : str) : str :=
  trim (strip_trailing_fence (strip_leading_fence text)).

Definition success_headers : list (str * str) :=
  [(lit "Content-Type", lit "application/json");
   (lit "Access-Control-Allow-Origin", lit "*")].

(** Lines 104-120: from the resolved response to the handler's answer. *)
Definition read_reply (r : fetch_response) : M fetch_request response :=
  data <- lift (json r) ;;
  raw <- lift (first_block_text data) ;;
  text <- lift (call_trim raw) ;;
  let clean := strip_fences text in
  match JSON_parse clean with
  | None =>
      ret {| status := 500; headers := [];
             body := JSON_stringify
                       (Obj [(lit "error", Str (lit "Failed to parse AI response as JSON"));
                             (lit "raw", Str (slice0 500 clean))]) |}
  | Some parsed =>
      ret {| status := 200; headers := success_headers;
             body := JSON_stringify parsed |}
  end.

(** Lines 83-124: the [try] block and its [catch]. *)
Definition call_service (fetch : fetch_service) (apiKey : str) (userMessage : value)
  : M fetch_request response :=
  try_catch
    (r <- await_call fetch (completion_request apiKey userMessage) ;;
     if negb (ok r) then
       err <- lift (text r) ;;
       ret {| status := 500; headers := [];
              body := error_body (lit "Anthropic API error: " ++ err) |}
     else read_reply r)
    (fun err =>
       ret {| status := 500; headers := [];
              body := error_body (message err) |}).

Definition handler (fetch : fetch_service) (env : process_env) (ev : event)
  : M fetch_request response :=
  if negb (str_eqb (httpMethod ev) (lit "POST")) then
    ret {| status := 405; headers := [];
           body := error_body (lit "Method not allowed") |}
  else
    match ANTHROPIC_API_KEY env with
    | None | Some [] =>
        ret {| status := 500; headers := [];
               body := error_body (lit "ANTHROPIC_API_KEY not set in environment variables") |}
    | Some apiKey =>
        match JSON_parse (body_text ev) with
        | None =>
            ret {| status := 400; headers := [];
                   body := error_body (lit "Invalid JSON body") |}
        | Some body =>
            fields <- lift (destructure body) ;;
            match fields with
            | (Some mode, Some content, mimeType) =>
                if negb (truthy mode) || negb (truthy content) then
                  ret {| status := 400; headers := [];
                         body := error_body (lit "Missing mode or content") |}
                else
                  userMessage <- lift (build_userMessage mode content mimeType) ;;
                  call_service fetch apiKey userMessage
            | _ =>
                ret {| status := 400; headers := [];
                       body := error_body (lit "Missing mode or content") |}
            end
        end
    end.
End Handler.
End Analyze.

(** ** The ES-module handler, served at [/api/analyze] *)

Module Api.
Section Handler.
Context {E : Engine}.

(** The request: its method and its body.  [request_text] is the body as
    it was sent, read as UTF-8, a leading byte order mark included when
    one was sent. *)
Record request := {
  method : str;
  request_text : str
}.

(** [Netlify.env] *)
Record netlify_env := { ANTHROPIC_API_KEY : option str }.

(** [new Anthropic({ apiKey }).messages.create(params)]: the call is
    settled by the client library, with the message the service returned
    or with the error the library throws.  The constructor is given a key
    that is not empty and does not throw. *)
Record create_request := {
  apiKey : str;
  params : value
}.

Definition create_service := create_request -> completion value.

(** The UTF-8 decoding that [req.json()] starts with drops one leading
    byte order mark, U+FEFF. *)
Definition drop_bom (s : str) : str :=
  match s with
  | c :: r => if N.eqb c 65279 then r else s
  | [] => []
  end.

(** The text [req.json()] hands to the JSON parser. *)
Definition body_text (req : request) : str := drop_bom (request_text req).

(** [req.json()] *)
Definition json (req : request) : completion value :=
  match JSON_parse (body_text req) with
  | Some v => Normal v
  | None => Throw (Exn (SyntaxErrorMessage (body_text req)))
  end.

Definition SYSTEM_PROMPT : str := qlit "You are a world-class skincare chemist and dermatology safety expert. Your job is to analyze skincare ingredient lists and provide accurate, science-backed safety assessments.

For every ingredient found, provide a thorough JSON analysis. Use the following safety tiers:
- `safe`: well-tolerated, low concern, backed by strong safety data
- `caution`: use with care — may irritate sensitive skin, potential sensitizer, some conflicting evidence, or requires certain precautions (e.g. use SPF)
- `flag`: significant concern — known allergen, endocrine disruptor, banned in major regions (EU/UK/Japan), carcinogen, or strong irritant

Return ONLY a valid JSON object — no markdown, no explanation, no code fences. Structure:
{
  `productName`: `string or null`,
  `extractedIngredientText`: `the raw ingredient list as extracted`,
  `ingredients`: [
    {
      `name`: `common name (string)`,
      `inci`: `INCI / scientific name (string)`,
      `safety`: `safe | caution | flag`,
      `category`: [`array of categories e.g. Humectant, Preservative, Sunscreen, Fragrance, Emollient, Exfoliant, Antioxidant, Retinoid, Surfactant, Emulsifier, Colorant, Occlusive, Anti-acne, Brightener, Soothing, Anti-aging, Vitamin, Mineral`],
      `description`: `2–3 sentence explanation of what this ingredient is and what it does in skincare`,
      `benefits`: [`array of specific benefits`],
      `concerns`: [`array of specific concerns, or empty array if none`],
      `comedogenic`: 0,
      `pregnancySafe`: true,
      `bannedRegions`: [`array of regions where restricted/banned e.g. EU, UK, Japan, Hawaii, California`],
      `ewgScore`: 1
    }
  ],
  `summary`: {
    `overallSafety`: `safe | caution | flag`,
    `safeCount`: 0,
    `cautionCount`: 0,
    `flagCount`: 0,
    `topConcerns`: [`top 2-3 concerns as short strings`],
    `skinTypeNotes`: `1–2 sentences about suitability across skin types`,
    `pregnancyNote`: `1 sentence about pregnancy safety`
  }
}

comedogenic scale: 0 = won't clog pores, 5 = highly comedogenic
ewgScore: 1 (low hazard) to 10 (high hazard) per EWG Skin Deep database norms
pregnancySafe: true / false / null (if unknown)".

Definition sequence (l : list (completion str)) : completion (list str) :=
  fold_right
    (fun c acc =>
       match c with
       | Throw e => Throw e
       | Normal s => match acc with
                     | Normal ss => Normal (s :: ss)
                     | Throw e => Throw e
                     end
       end)
    (Normal []) l.

(** [ToString], which a template literal applies to what it
    interpolates.  An array is joined with commas, [null] elements left
    empty; an object is [[object Object]] unless a property of its own
    hides [toString], in which case the conversion throws. *)
Fixpoint ToString (v : value) : completion str :=
  match v with
  | Null => Normal (lit "null")
  | Bool true => Normal (lit "true")
  | Bool false => Normal (lit "false")
  | Num n => Normal (NumberToString n)
  | Str s => Normal s
  | Arr l =>
      match sequence (map (fun e => match e with
                                    | Null => Normal []
                                    | _ => ToString e
                                    end) l) with
      | Normal ss => Normal (join (lit ",") ss)
      | Throw e => Throw e
      end
  | Obj ps =>
      match lookup (lit "toString") ps with
      | Some _ => Throw (TypeError "toString")
      | None => Normal (lit "[object Object]")
      end
  end.

Definition image_instruction : str := qlit "Extract the complete ingredient list from this product label image. 
Then analyze EVERY ingredient found for safety, benefits, and concerns.
If you can identify the product name/brand, include it.
Return the full structured JSON analysis as specified.".

Definition product_message (content : str) : str :=
  qlit "Analyze this skincare product: `" ++ content ++ qlit "`

If you recognize this as a specific product (e.g. `CeraVe Moisturizing Cream`), use its known ingredient list.
If it's a product type (e.g. `basic moisturizer`), analyze typical ingredients for that category.
Set `productName` to the product name if identifiable.
Return the full structured JSON analysis.".

Definition text_message (content : str) : str :=
  qlit "Analyze this skincare input: `" ++ content ++ qlit "`

IMPORTANT:
- If this looks like a product name or brand (e.g. `The Ordinary Niacinamide 10%`), identify it and use its known ingredient list. Set `productName` accordingly.
- If this is already an ingredient list (separated by commas, newlines, slashes, or bullets), parse and analyze those exact ingredients. Set `productName` to null.

Analyze EVERY ingredient found and return the full structured JSON analysis.".

Definition user (content : value) : value :=
  Arr [Obj [(lit "role", Str (lit "user")); (lit "content", content)]].

(** Lines 78-129: [messages]. *)
Definition build_messages (mode content : value) (mimeType : option value)
  : completion value :=
  if is_string mode (lit "image") then
    Normal (user (Arr [
      Obj [(lit "type", Str (lit "image"));
           (lit "source",
            Obj [(lit "type", Str (lit "base64"));
                 (lit "media_type", or_default mimeType (Str (lit "image/jpeg")));
                 (lit "data", content)])];
      Obj [(lit "type", Str (lit "text"));
           (lit "text", Str image_instruction)]]))
  else
    match ToString content with
    | Throw e => Throw e
    | Normal c =>
        if is_string mode (lit "product") then
          Normal (user (Str (product_message c)))
        else
          Normal (user (Str (text_message c)))
    end.

Definition create_params (messages : value) : value :=
  Obj [(lit "model", Str (lit "claude-sonnet-4-20250514"));
       (lit "max_tokens", number "8192");
       (lit "system", Str SYSTEM_PROMPT);
       (lit "messages", messages)].

(** Line 142 *)
Definition strip_fences (rawText : str) : str :=
  trim (remove_all fence (remove_all (fence ++ json_tag) rawText)).

(** [rawText.replace(...)]: [replace] is a method of strings only. *)
Definition as_string (x : option value) : completion str :=
  match x with
  | Some (Str s) => Normal s
  | _ => Throw (TypeError "replace")
  end.

Definition json_headers : list (str * str) :=
  [(lit "Content-Type", lit "application/json")].

(** Lines 139-153: from the message the library returned to the answer. *)
Definition read_reply (reply : value) : M create_request response :=
  raw <- lift (first_block_text reply) ;;
  rawText <- lift (as_string raw) ;;
  let cleaned := strip_fences rawText in
  match match_braces cleaned with
  | None => throw (Exn (lit "Could not extract JSON from Claude response"))
  | Some jsonMatch =>
      match JSON_parse jsonMatch with
      | None => throw (Exn (SyntaxErrorMessage jsonMatch))
      | Some analysis =>
          ret {| status := 200; headers := json_headers;
                 body := JSON_stringify analysis |}
      end
  end.

(** Lines 131-163: the [try] block and its [catch]; what [console.error]
    prints is not part of the answer. *)
Definition call_service (create : create_service) (key : str) (messages : value)
  : M create_request response :=
  try_catch
    (reply <- await_call create
                {| apiKey := key; params := create_params messages |} ;;
     read_reply reply)
    (fun err =>
       ret {| status := 500; headers := json_headers;
              body := JSON_stringify
                        (Obj [(lit "error", Str (lit "Analysis failed"));
                              (lit "details", Str (message err))]) |}).

Definition handler (create : create_service) (env : netlify_env) (req : request)
  : M create_request response :=
  if negb (str_eqb (method req) (lit "POST")) then
    ret {| status := 405; headers := []; body := lit "Method not allowed" |}
  else
    match json req with
    | Throw _ =>
        ret {| status := 400; headers := json_headers;
               body := error_body (lit "Invalid JSON body") |}
    | Normal body =>
        fields <- lift (destructure body) ;;
        match fields with
        | (Some mode, Some content, mimeType) =>
            if negb (truthy mode) || negb (truthy content) then
              ret {| status := 400; headers := json_headers;
                     body := error_body (lit "Missing required fields: mode, content") |}
            else
              match ANTHROPIC_API_KEY env with
              | None | Some [] =>
                  ret {| status := 500; headers := json_headers;
                         body := error_body (lit "API key not configured") |}
              | Some key =>
                  messages <- lift (build_messages mode content mimeType) ;;
                  call_service create key messages
              end
        | _ =>
            ret {| status := 400; headers := json_headers;
                   body := error_body (lit "Missing required fields: mode, content") |}
        end
    end.
End Handler.
End Api.


(** ** The vocabulary of the properties *)

Section Vocabulary.
Context {E : Engine}.

(** The own property [k] of a parsed body: [None] when the value is not
    an object or has no such key. *)
Definition own (v : value) (k : string) : option value :=
  match v with
  | Obj ps => lookup (lit k) ps
  | _ => None
  end.

(** The top level of an AnalysisResult: the text is JSON, an object, and
    its [ingredients], when there is one, is an array. *)
Definition top_level_shape (text : str) : bool :=
  match JSON_parse text with
  | Some (Obj ps) =>
      match lookup (lit "ingredients") ps with
      | Some (Arr _) | None => true
      | Some _ => false
      end
  | _ => false
  end.

Definition is_object (v : value) : bool :=
  match v with
  | Obj _ => true
  | _ => false
  end.

(** The heuristic as the specification words it, on [content] as it was
    sent: at most 3 segments between commas and line feeds, and fewer
    than 80 code units. *)
Definition short_product_name (content : str) : bool :=
  Nat.leb (List.length (split_on is_newline_or_comma content)) 3
  && Nat.ltb (List.length content) 80.

Definition count_separators (s : str) : nat :=
  List.length (filter is_newline_or_comma s).

Definition all_ws (s : str) : bool := forallb is_ws s.

(** A text from an opening brace to a closing one. *)
Definition braced (inner : str) : str := 123%N :: inner ++ [125%N].

(** No three backticks in a row. *)
Fixpoint fence_free (s : str) : bool :=
  match s with
  | [] => true
  | _ :: s' =>
      match strip_prefix N.eqb fence s with
      | Some _ => false
      | None => fence_free s'
      end
  end.

(** A reply wrapped in code fences that bound it: white space, the
    opening fence with its tag, white space, the text, white space, the
    closing fence, white space. *)
Definition fenced (w0 tag w1 inner w2 w3 : str) : str :=
  w0 ++ fence ++ tag ++ w1 ++ inner ++ w2 ++ fence ++ w3.

(** The tag [json], in any case. *)
Definition is_json_tag (tag : str) : bool :=
  match strip_prefix ci_eqb json_tag tag with
  | Some [] => true
  | _ => false
  end.

(** What may follow a fence that the marker [```json] does not match. *)
Definition no_tag_next (s : str) : bool :=
  match s with
  | [] => true
  | c :: _ => negb (N.eqb 96 c) && negb (ci_eqb 106 c)
  end.

(** [raw] is the object text [braced inner], bare or wrapped in fences
    with no tag or the tag [json], white space apart. *)
Inductive object_reply (inner : str) : str -> Prop :=
| bare_object w0 w3 :
    all_ws w0 = true -> all_ws w3 = true ->
    object_reply inner (w0 ++ braced inner ++ w3)
| fenced_object w0 tag w1 w2 w3 :
    all_ws w0 = true -> all_ws w1 = true -> all_ws w2 = true -> all_ws w3 = true ->
    tag = [] \/ is_json_tag tag = true ->
    object_reply inner (fenced w0 tag w1 (braced inner) w2 w3).

(** A body that does not start with a byte order mark. *)
Definition bom_free (s : str) : bool :=
  match s with
  | c :: _ => negb (N.eqb c 65279)
  | [] => true
  end.

(** The same request, as each host presents it to its handler:
    analyze.js is given the body as a string, byte order mark included. *)
Definition as_event (req : Api.request) : Analyze.event :=
  {| Analyze.httpMethod := Api.method req;
     Analyze.event_body := Some (Api.request_text req) |}.

(** One behaviour of the completion service, as each handler observes
    it.  The service fails to answer, answers with an error status, or
    answers with a body.  [fetch] rejects in the first case and resolves
    in the others; the client library throws in the first two cases and
    in the third returns the body parsed as JSON. *)
Inductive upstream :=
| Unreachable (e : exn)
| Refused (body : str) (e : exn)
| Answered (body : str).

Definition as_fetch (u : upstream) : Analyze.fetch_service :=
  fun _ =>
    match u with
    | Unreachable e => Throw e
    | Refused b _ => Normal {| Analyze.ok := false; Analyze.text := Normal b |}
    | Answered b => Normal {| Analyze.ok := true; Analyze.text := Normal b |}
    end.

Definition as_create (u : upstream) : Api.create_service :=
  fun _ =>
    match u with
    | Unreachable e | Refused _ e => Throw e
    | Answered b =>
        match JSON_parse b with
        | Some v => Normal v
        | None => Throw (Exn (SyntaxErrorMessage b))
        end
    end.

(** The message of the service whose only block holds [text]. *)
Definition message_with (text : str) : value :=
  Obj [(lit "content",
        Arr [Obj [(lit "type", Str (lit "text")); (lit "text", Str text)]])].

(** The outcome of the [try] block of analyze.js, case by case. *)
Inductive analyze_outcome (fetch : Analyze.fetch_service) (rq : Analyze.fetch_request)
  : response -> Prop :=
| analyze_caught e :
    (fetch rq = Throw e
     \/ (exists r, fetch rq = Normal r /\ Analyze.ok r = false /\ Analyze.text r = Throw e)
     \/ (exists r, fetch rq = Normal r /\ Analyze.ok r = true /\
           (Analyze.json r = Throw e
            \/ exists data, Analyze.json r = Normal data /\
                 (first_block_text data = Throw e
                  \/ exists raw, first_block_text data = Normal raw
                                 /\ call_trim raw = Throw e)))) ->
    analyze_outcome fetch rq
      {| status := 500; headers := []; body := error_body (message e) |}
| analyze_refused r err :
    fetch rq = Normal r -> Analyze.ok r = false -> Analyze.text r = Normal err ->
    analyze_outcome fetch rq
      {| status := 500; headers := [];
         body := error_body (lit "Anthropic API error: " ++ err) |}
| analyze_unparsed r data raw :
    fetch rq = Normal r -> Analyze.ok r = true -> Analyze.json r = Normal data ->
    first_block_text data = Normal (Some (Str raw)) ->
    JSON_parse (Analyze.strip_fences (trim raw)) = None ->
    analyze_outcome fetch rq
      {| status := 500; headers := [];
         body := JSON_stringify
                   (Obj [(lit "error", Str (lit "Failed to parse AI response as JSON"));
                         (lit "raw", Str (slice0 500 (Analyze.strip_fences (trim raw))))]) |}
| analyze_parsed r data raw parsed :
    fetch rq = Normal r -> Analyze.ok r = true -> Analyze.json r = Normal data ->
    first_block_text data = Normal (Some (Str raw)) ->
    JSON_parse (Analyze.strip_fences (trim raw)) = Some parsed ->
    analyze_outcome fetch rq
      {| status := 200; headers := Analyze.success_headers;
         body := JSON_stringify parsed |}.

(** The outcome of the [try] block of the second handler. *)
Inductive api_outcome (create : Api.create_service) (rq : Api.create_request)
  : response -> Prop :=
| api_caught e :
    (create rq = Throw e
     \/ exists reply, create rq = Normal reply /\
          (first_block_text reply = Throw e
           \/ exists raw, first_block_text reply = Normal raw /\
                (Api.as_string raw = Throw e
                 \/ exists rawText, raw = Some (Str rawText) /\
                      ((match_braces (Api.strip_fences rawText) = None
                        /\ e = Exn (lit "Could not extract JSON from Claude response"))
                       \/ exists span,
                            match_braces (Api.strip_fences rawText) = Some span
                            /\ JSON_parse span = None
                            /\ e = Exn (SyntaxErrorMessage span))))) ->
    api_outcome create rq
      {| status := 500; headers := Api.json_headers;
         body := JSON_stringify
                   (Obj [(lit "error", Str (lit "Analysis failed"));
                         (lit "details", Str (message e))]) |}
| api_parsed reply rawText span analysis :
    create rq = Normal reply ->
    first_block_text reply = Normal (Some (Str rawText)) ->
    match_braces (Api.strip_fences rawText) = Some span ->
    JSON_parse span = Some analysis ->
    api_outcome create rq
      {| status := 200; headers := Api.json_headers;
         body := JSON_stringify analysis |}.

(** The invariant of the parser while it reads a text that opens with a
    brace: the outermost value under construction is an object. *)
Fixpoint obj_rooted (stk : list frame) : bool :=
  match stk with
  | [] => false
  | f :: stk' =>
      match stk' with
      | [] => match f with FObj _ _ => true | FArr _ => false end
      | _ => obj_rooted stk'
      end
  end.

Definition empty_or_rooted (stk : list frame) : bool :=
  match stk with
  | [] => true
  | _ => obj_rooted stk
  end.

Definition rooted (st : parse_state) : bool :=
  match st with
  | PValue stk | PArrFirst stk => obj_rooted stk
  | PObjFirst stk | PKey _ stk | PColon _ _ stk => empty_or_rooted stk
  | PAfter v stk =>
      match stk with
      | [] => is_object v
      | _ => obj_rooted stk
      end
  end.

(** The request passes the checks of analyze.js and [rq] is what the
    handler sends for it. *)
Definition analyze_sends (env : Analyze.process_env) (ev : Analyze.event)
  (rq : Analyze.fetch_request) : Prop :=
  exists c key v mode content userMessage,
    Analyze.httpMethod ev = lit "POST"
    /\ Analyze.ANTHROPIC_API_KEY env = Some (c :: key)
    /\ JSON_parse (Analyze.body_text ev) = Some v
    /\ own v "mode" = Some mode /\ truthy mode = true
    /\ own v "content" = Some content /\ truthy content = true
    /\ Analyze.build_userMessage mode content (own v "mimeType") = Normal userMessage
    /\ rq = Analyze.completion_request (c :: key) userMessage.

(** The same for the second handler. *)
Definition api_sends (env : Api.netlify_env) (req : Api.request)
  (rq : Api.create_request) : Prop :=
  exists c key v mode content messages,
    Api.method req = lit "POST"
    /\ Api.ANTHROPIC_API_KEY env = Some (c :: key)
    /\ JSON_parse (Api.body_text req) = Some v
    /\ own v "mode" = Some mode /\ truthy mode = true
    /\ own v "content" = Some content /\ truthy content = true
    /\ Api.build_messages mode content (own v "mimeType") = Normal messages
    /\ rq = {| Api.apiKey := c :: key; Api.params := Api.create_params messages |}.

(** The status of the answer, when the handler gave one. *)
Definition status_of {R : Type} (out : completion response * list R) : option N :=
  match fst out with
  | Normal r => Some (status r)
  | Throw _ => None
  end.

Definition body_of {R : Type} (out : completion response * list R) : option str :=
  match fst out with
  | Normal r => Some (body r)
  | Throw _ => None
  end.

(** The answer of analyze.js to a reply that carries a text. *)
Definition analyze_answer (raw : str) : response :=
  match JSON_parse (Analyze.strip_fences (trim raw)) with
  | Some parsed =>
      {| status := 200; headers := Analyze.success_headers;
         body := JSON_stringify parsed |}
  | None =>
      {| status := 500; headers := [];
         body := JSON_stringify
                   (Obj [(lit "error", Str (lit "Failed to parse AI response as JSON"));
                         (lit "raw", Str (slice0 500 (Analyze.strip_fences (trim raw))))]) |}
  end.

(** The answer of the second handler to an error [e] caught. *)
Definition api_failure (e : exn) : response :=
  {| status := 500; headers := Api.json_headers;
     body := JSON_stringify
               (Obj [(lit "error", Str (lit "Analysis failed"));
                     (lit "details", Str (message e))]) |}.

(** The answer of the second handler to a reply that carries a text. *)
Definition api_answer (rawText : str) : response :=
  match match_braces (Api.strip_fences rawText) with
  | None => api_failure (Exn (lit "Could not extract JSON from Claude response"))
  | Some span =>
      match JSON_parse span with
      | None => api_failure (Exn (SyntaxErrorMessage span))
      | Some analysis =>
          {| status := 200; headers := Api.json_headers;
             body := JSON_stringify analysis |}
      end
  end.

(** Both handlers answer the request with status [st], under the same
    behaviour of the service. *)
Definition agree_on (u : upstream) (aenv : Analyze.process_env)
  (nenv : Api.netlify_env) (req : Api.request) (st : N) : Prop :=
  status_of (run (Analyze.handler (as_fetch u) aenv (as_event req))) = Some st
  /\ status_of (run (Api.handler (as_create u) nenv req)) = Some st.
End Vocabulary.

(** ** Further vocabulary *)

Section Postconditions.
Context {E : Engine}.

(** Every answer the computation gives satisfies [P], whatever calls were
    recorded before. *)
Definition ensures {R : Type} (P : response -> Prop) (m : M R response) : Prop :=
  forall calls r calls', m calls = (Normal r, calls') -> P r.

(** The answers of analyze.js: 200 with the two success headers, or 400,
    405 or 500 with no header at all. *)
Definition analyze_shape (r : response) : Prop :=
  (status r = 200%N /\ headers r = Analyze.success_headers)
  \/ ((status r = 400%N \/ status r = 405%N \/ status r = 500%N)
      /\ headers r = []).

(** The answers of the second handler: 405 with no header, or 200, 400 or
    500 with the JSON content type. *)
Definition api_shape (r : response) : Prop :=
  (status r = 405%N /\ headers r = [])
  \/ ((status r = 200%N \/ status r = 400%N \/ status r = 500%N)
      /\ headers r = Api.json_headers).

(** The value is an object with a property of its own named [toString],
    or an array that holds such a value. *)
Fixpoint hides_toString (v : value) : bool :=
  match v with
  | Obj ps =>
      match lookup (lit "toString") ps with
      | Some _ => true
      | None => false
      end
  | Arr l => existsb hides_toString l
  | _ => false
  end.

Definition is_str (v : value) : bool :=
  match v with
  | Str _ => true
  | _ => false
  end.

(** No code unit of [s] is [c]. *)
Definition lacks (c : N) (s : str) : bool := forallb (fun x => negb (N.eqb x c)) s.

(** Every element is a code unit: below [2^16]. *)
Definition code_units (s : str) : bool := forallb (fun c => N.ltb c 65536) s.

(** The code units of the markers [```] and [```json]: a backtick or a
    small letter. *)
Definition marker_units (m : str) : bool :=
  forallb (fun x => N.leb 96 x && N.leb x 122) m.

(** A body that is the serialisation of an object whose first property
    is [error], a string, followed by at most one more property, named
    [extra], a string as well. *)
Definition error_object (extra : str) (b : str) : Prop :=
  exists msg rest,
    b = JSON_stringify (Obj ((lit "error", Str msg) :: rest))
    /\ (rest = [] \/ exists x, rest = [(extra, Str x)]).

Definition analyze_error_answer (r : response) : Prop :=
  status r = 200%N \/ error_object (lit "raw") (body r).

Definition api_error_answer (r : response) : Prop :=
  status r = 200%N
  \/ (status r = 405%N /\ body r = lit "Method not allowed")
  \/ error_object (lit "details") (body r).
End Postconditions.
(** ** An engine for concrete runs

    To evaluate the handlers on explicit inputs an engine is needed.  This
    one keeps a number as the literal that denotes it, which is what the
    real engine prints back for an integer written without sign, fraction
    or exponent; the inputs evaluated below hold no other number.  The
    message texts are placeholders. *)

Definition literal_is_nonzero (s : str) : bool :=
  (fix mantissa (s : str) : bool :=
     match s with
     | [] => false
     | c :: s' =>
         if N.eqb c 101 || N.eqb c 69 then false
         else (N.leb 49 c && N.leb c 57) || mantissa s'
     end) s.

#[export] Instance literal_engine : Engine := {|
  Number := str;
  StringToNumber := fun s => s;
  NumberToBoolean := literal_is_nonzero;
  NumberIsFinite := fun _ => true;
  NumberToString := fun s => s;
  SyntaxErrorMessage := fun _ => lit "SyntaxError";
  TypeErrorMessage := fun what => lit "TypeError: " ++ what
|}.

(** *** Sample inputs *)

(** A literal in which every ['] stands for a double quote. *)
Definition alit (s : string) : str :=
  map (fun c => if N.eqb c 39 then 34%N else c) (lit s).

Definition sample_key : str := lit "sk-sample".

Definition with_key : Analyze.process_env :=
  {| Analyze.ANTHROPIC_API_KEY := Some sample_key |}.
Definition without_key : Analyze.process_env :=
  {| Analyze.ANTHROPIC_API_KEY := None |}.
Definition api_with_key : Api.netlify_env :=
  {| Api.ANTHROPIC_API_KEY := Some sample_key |}.
Definition api_without_key : Api.netlify_env :=
  {| Api.ANTHROPIC_API_KEY := None |}.

Definition post (text : str) : Api.request :=
  {| Api.method := lit "POST"; Api.request_text := text |}.

(** A well-formed request in text mode. *)
Definition text_request : Api.request :=
  post (alit "{'mode':'text','content':'Water, Glycerin'}").

(** [text_request] with a byte order mark before its body. *)
Definition marked_text_request : Api.request :=
  post (65279%N :: Api.request_text text_request).

(** The service answers with a message whose only block holds [text]. *)
Definition replies (text : str) : upstream :=
  Answered (JSON_stringify (message_with text)).

Definition silent : Api.create_service := fun _ => Throw (Exn []).
Definition no_fetch : Analyze.fetch_service := fun _ => Throw (Exn []).

Definition sample_event : Analyze.event := as_event text_request.

(** What each handler sends for [text_request]. *)
Definition sample_fetch_request : Analyze.fetch_request :=
  Analyze.completion_request sample_key
    (Str (Analyze.product_message (lit "Water, Glycerin"))).

Definition sample_create_request : Api.create_request :=
  {| Api.apiKey := sample_key;
     Api.params :=
       Api.create_params (Api.user (Str (Api.text_message (lit "Water, Glycerin")))) |}.

(** What [fetch] resolves to when the service answers with [text] in its
    only block. *)
Definition fetched (text : str) : Analyze.fetch_response :=
  {| Analyze.ok := true;
     Analyze.text := Normal (JSON_stringify (message_with text)) |}.

(** An object in [json] fences, each on a line of its own. *)
Definition in_json_fences (inner : str) : str :=
  fenced [] json_tag nl (braced inner) nl [].

(** *** Further sample inputs *)

(** A well-formed request in image mode, without a media type. *)
Definition image_request : Api.request :=
  post (alit "{'mode':'image','content':'aGVsbG8='}").

(** A request whose mode is none of the modes the client sends. *)
Definition list_request : Api.request :=
  post (alit "{'mode':'list','content':'Water, Glycerin'}").

Definition with_empty_key : Analyze.process_env :=
  {| Analyze.ANTHROPIC_API_KEY := Some [] |}.
Definition api_with_empty_key : Api.netlify_env :=
  {| Api.ANTHROPIC_API_KEY := Some [] |}.

Definition get_event : Analyze.event :=
  {| Analyze.httpMethod := lit "GET"; Analyze.event_body := None |}.

(** An object text with a sentence before it and one after it. *)
Definition in_prose (inner : str) : str :=
  lit "Here is the analysis: " ++ braced inner ++ lit " Let me know.".

(** ** Properties *)

Section Basics.
Lemma str_eqb_refl (a : str) : str_eqb a a = true.
Proof.
  induction a as [|x a IH]; simpl; [reflexivity|].
  now rewrite N.eqb_refl.
Qed.

Lemma str_eqb_eq (a b : str) : str_eqb a b = true <-> a = b.
Proof.
  split; [|intros ->; apply str_eqb_refl].
  revert b; induction a as [|x a IH]; intros [|y b]; simpl; try discriminate; auto.
  rewrite andb_true_iff, N.eqb_eq. intros [-> H]. f_equal. now apply IH.
Qed.

Lemma str_eqb_neq (a b : str) : a <> b -> str_eqb a b = false.
Proof.
  intros H. destruct (str_eqb a b) eqn:Heq; [|reflexivity].
  apply str_eqb_eq in Heq. contradiction.
Qed.
End Basics.

Section Validation.
Context {E : Engine}.

(** Reading one of the three fields never throws on a value other than
    [null]. *)
Lemma destructure_not_null (v : value) :
  v <> Null ->
  destructure v = Normal (own v "mode", own v "content", own v "mimeType").
Proof.
  intros Hv. destruct v; try reflexivity. contradiction.
Qed.

Lemma destructure_null :
  destructure Null = Throw (Exn (TypeErrorMessage (lit "mode"))).
Proof. reflexivity. Qed.

(** A request that is not a POST is answered at once. *)
Lemma analyze_not_post fetch env ev :
  Analyze.httpMethod ev <> lit "POST" ->
  run (Analyze.handler fetch env ev)
  = (Normal {| status := 405; headers := [];
               body := error_body (lit "Method not allowed") |}, []).
Proof.
  intros H. unfold Analyze.handler. rewrite (str_eqb_neq _ _ H). reflexivity.
Qed.

Lemma api_not_post create env req :
  Api.method req <> lit "POST" ->
  run (Api.handler create env req)
  = (Normal {| status := 405; headers := [];
               body := lit "Method not allowed" |}, []).
Proof.
  intros H. unfold Api.handler. rewrite (str_eqb_neq _ _ H). reflexivity.
Qed.

(** analyze.js reads the key before it reads the body. *)
Lemma analyze_no_key fetch env ev :
  Analyze.httpMethod ev = lit "POST" ->
  Analyze.ANTHROPIC_API_KEY env = None ->
  run (Analyze.handler fetch env ev)
  = (Normal {| status := 500; headers := [];
               body := error_body (lit "ANTHROPIC_API_KEY not set in environment variables") |},
     []).
Proof.
  intros Hm Hk. unfold Analyze.handler. rewrite Hm, Hk. reflexivity.
Qed.

Lemma analyze_invalid_json fetch env ev c key :
  Analyze.httpMethod ev = lit "POST" ->
  Analyze.ANTHROPIC_API_KEY env = Some (c :: key) ->
  JSON_parse (Analyze.body_text ev) = None ->
  run (Analyze.handler fetch env ev)
  = (Normal {| status := 400; headers := [];
               body := error_body (lit "Invalid JSON body") |}, []).
Proof.
  intros Hm Hk Hp. unfold Analyze.handler. rewrite Hm, Hk, Hp. reflexivity.
Qed.

Lemma analyze_missing_fields fetch env ev c key v :
  Analyze.httpMethod ev = lit "POST" ->
  Analyze.ANTHROPIC_API_KEY env = Some (c :: key) ->
  JSON_parse (Analyze.body_text ev) = Some v ->
  v <> Null ->
  falsy (own v "mode") || falsy (own v "content") = true ->
  run (Analyze.handler fetch env ev)
  = (Normal {| status := 400; headers := [];
               body := error_body (lit "Missing mode or content") |}, []).
Proof.
  intros Hm Hk Hp Hv Hf. unfold Analyze.handler, run, bind, lift.
  rewrite Hm, Hk, Hp, (destructure_not_null _ Hv). simpl.
  destruct (own v "mode") as [mode|], (own v "content") as [content|];
    simpl in Hf; try reflexivity.
  rewrite Hf. reflexivity.
Qed.

Lemma api_invalid_json create env req :
  Api.method req = lit "POST" ->
  JSON_parse (Api.body_text req) = None ->
  run (Api.handler create env req)
  = (Normal {| status := 400; headers := Api.json_headers;
               body := error_body (lit "Invalid JSON body") |}, []).
Proof.
  intros Hm Hp. unfold Api.handler, Api.json. rewrite Hm, Hp. reflexivity.
Qed.

Lemma api_missing_fields create env req v :
  Api.method req = lit "POST" ->
  JSON_parse (Api.body_text req) = Some v ->
  v <> Null ->
  falsy (own v "mode") || falsy (own v "content") = true ->
  run (Api.handler create env req)
  = (Normal {| status := 400; headers := Api.json_headers;
               body := error_body (lit "Missing required fields: mode, content") |}, []).
Proof.
  intros Hm Hp Hv Hf. unfold Api.handler, Api.json, run, bind, lift.
  rewrite Hm, Hp, (destructure_not_null _ Hv). simpl.
  destruct (own v "mode") as [mode|], (own v "content") as [content|];
    simpl in Hf; try reflexivity.
  rewrite Hf. reflexivity.
Qed.

Lemma api_no_key create env req v mode content :
  Api.method req = lit "POST" ->
  Api.ANTHROPIC_API_KEY env = None ->
  JSON_parse (Api.body_text req) = Some v ->
  own v "mode" = Some mode -> truthy mode = true ->
  own v "content" = Some content -> truthy content = true ->
  run (Api.handler create env req)
  = (Normal {| status := 500; headers := Api.json_headers;
               body := error_body (lit "API key not configured") |}, []).
Proof.
  intros Hm Hk Hp Hmode Tm Hcontent Tc.
  assert (Hv : v <> Null) by (intros ->; discriminate).
  unfold Api.handler, Api.json, run, bind, lift.
  rewrite Hm, Hp, (destructure_not_null _ Hv), Hmode, Hcontent. simpl.
  rewrite Tm, Tc, Hk. reflexivity.
Qed.

(** Without a key the second handler never reaches the service. *)
Lemma api_no_key_no_call create env req :
  Api.ANTHROPIC_API_KEY env = None ->
  snd (run (Api.handler create env req)) = [].
Proof.
  intros Hk. unfold Api.handler, run, bind, lift.
  destruct (negb _); [reflexivity|].
  destruct (Api.json req) as [v|e]; [|reflexivity].
  destruct (destructure v) as [[[[mode|] [content|]] mt]|e]; try reflexivity.
  destruct (negb (truthy mode) || negb (truthy content)); [reflexivity|].
  rewrite Hk. reflexivity.
Qed.
End Validation.

(** *** The call and what follows it *)

Section Calls.
Context {E : Engine}.

(** A request that passes the checks goes on to build its message. *)
Lemma analyze_reaches_call fetch env ev c key v mode content :
  Analyze.httpMethod ev = lit "POST" ->
  Analyze.ANTHROPIC_API_KEY env = Some (c :: key) ->
  JSON_parse (Analyze.body_text ev) = Some v ->
  own v "mode" = Some mode -> truthy mode = true ->
  own v "content" = Some content -> truthy content = true ->
  Analyze.handler fetch env ev
  = (userMessage <- lift (Analyze.build_userMessage mode content (own v "mimeType")) ;;
     Analyze.call_service fetch (c :: key) userMessage).
Proof.
  intros Hm Hk Hp Hmode Tm Hcontent Tc.
  assert (Hv : v <> Null) by (intros ->; discriminate).
  unfold Analyze.handler. rewrite Hm, Hk, Hp. simpl.
  unfold bind at 1, lift at 1.
  rewrite (destructure_not_null _ Hv), Hmode, Hcontent, Tm, Tc. reflexivity.
Qed.

Lemma api_reaches_call create env req c key v mode content :
  Api.method req = lit "POST" ->
  Api.ANTHROPIC_API_KEY env = Some (c :: key) ->
  JSON_parse (Api.body_text req) = Some v ->
  own v "mode" = Some mode -> truthy mode = true ->
  own v "content" = Some content -> truthy content = true ->
  Api.handler create env req
  = (messages <- lift (Api.build_messages mode content (own v "mimeType")) ;;
     Api.call_service create (c :: key) messages).
Proof.
  intros Hm Hk Hp Hmode Tm Hcontent Tc.
  assert (Hv : v <> Null) by (intros ->; discriminate).
  unfold Api.handler, Api.json. rewrite Hm, Hp. simpl.
  unfold bind at 1, lift at 1.
  rewrite (destructure_not_null _ Hv), Hmode, Hcontent, Tm, Tc, Hk. reflexivity.
Qed.


Lemma call_trim_normal raw t :
  call_trim raw = Normal t -> exists s, raw = Some (Str s) /\ t = trim s.
Proof.
  destruct raw as [[]|]; simpl; try discriminate.
  intros [= <-]. eauto.
Qed.

(** The [try] block always ends with an answer, after exactly one call. *)
Lemma analyze_call_service fetch key um calls :
  exists r,
    Analyze.call_service fetch key um calls
    = (Normal r, calls ++ [Analyze.completion_request key um])
    /\ analyze_outcome fetch (Analyze.completion_request key um) r.
Proof.
  set (rq := Analyze.completion_request key um).
  unfold Analyze.call_service, try_catch, bind, await_call. fold rq.
  destruct (fetch rq) as [r|e] eqn:Hf.
  2:{ eexists; split; [reflexivity|]. apply analyze_caught. now left. }
  destruct (Analyze.ok r) eqn:Hok; simpl.
  - unfold Analyze.read_reply, bind, lift.
    destruct (Analyze.json r) as [data|e] eqn:Hj.
    2:{ eexists; split; [reflexivity|]. apply analyze_caught.
        right; right; exists r; auto. }
    destruct (first_block_text data) as [raw|e] eqn:Hb.
    2:{ eexists; split; [reflexivity|]. apply analyze_caught.
        right; right; exists r; repeat split; auto. right; exists data; auto. }
    destruct (call_trim raw) as [t|e] eqn:Ht.
    2:{ eexists; split; [reflexivity|]. apply analyze_caught.
        right; right; exists r; repeat split; auto. right; exists data; split; auto.
        right; exists raw; auto. }
    destruct (call_trim_normal _ _ Ht) as (s & -> & ->).
    destruct (JSON_parse (Analyze.strip_fences (trim s))) as [parsed|] eqn:Hp.
    + eexists; split; [reflexivity|]. eapply analyze_parsed; eauto.
    + eexists; split; [reflexivity|]. eapply analyze_unparsed; eauto.
  - unfold lift. destruct (Analyze.text r) as [err|e] eqn:Ht.
    + eexists; split; [reflexivity|]. eapply analyze_refused; eauto.
    + eexists; split; [reflexivity|]. apply analyze_caught.
      right; left; exists r; auto.
Qed.


Lemma as_string_normal raw s :
  Api.as_string raw = Normal s -> raw = Some (Str s).
Proof.
  destruct raw as [[]|]; simpl; try discriminate. now intros [= <-].
Qed.

Lemma api_call_service create key messages calls :
  let rq := {| Api.apiKey := key; Api.params := Api.create_params messages |} in
  exists r,
    Api.call_service create key messages calls = (Normal r, calls ++ [rq])
    /\ api_outcome create rq r.
Proof.
  intros rq. unfold Api.call_service, try_catch, bind, await_call. fold rq.
  destruct (create rq) as [reply|e] eqn:Hc.
  2:{ eexists; split; [reflexivity|]. apply api_caught. now left. }
  unfold Api.read_reply, bind, lift.
  destruct (first_block_text reply) as [raw|e] eqn:Hb.
  2:{ eexists; split; [reflexivity|]. apply api_caught. right; exists reply; auto. }
  destruct (Api.as_string raw) as [rawText|e] eqn:Hs.
  2:{ eexists; split; [reflexivity|]. apply api_caught. right; exists reply; split; auto.
      right; exists raw; auto. }
  apply as_string_normal in Hs. subst raw.
  destruct (match_braces (Api.strip_fences rawText)) as [span|] eqn:Hm.
  2:{ eexists; split; [reflexivity|]. apply api_caught. right; exists reply; split; auto.
      right; exists (Some (Str rawText)); split; auto.
      right; exists rawText; split; auto. }
  destruct (JSON_parse span) as [analysis|] eqn:Hp.
  - eexists; split; [reflexivity|]. eapply api_parsed; eauto.
  - eexists; split; [reflexivity|]. apply api_caught. right; exists reply; split; auto.
    right; exists (Some (Str rawText)); split; auto.
    right; exists rawText; split; auto.
    right; exists span; auto.
Qed.
End Calls.

(** *** What [JSON.parse] makes of a text that opens with a brace *)

Section Parser.
Context {E : Engine}.

Lemma parse_step_rooted st t st' :
  parse_step st t = Some st' -> rooted st = true -> rooted st' = true.
Proof.
  destruct st as [stk|stk|stk|ps stk|ps k stk|v stk]; simpl.
  - destruct t, stk; simpl; intros [= <-]; simpl; auto; discriminate.
  - destruct stk as [|f stk]; [discriminate|].
    destruct t; simpl; intros [= <-]; simpl; auto.
  - destruct t; simpl; intros [= <-]; destruct stk; simpl; auto.
  - destruct t; simpl; intros [= <-]; auto.
  - destruct t; simpl; intros [= <-]. destruct stk; simpl; auto.
  - destruct stk as [|[acc|ps k] stk]; [discriminate| |];
      destruct t; simpl; intros [= <-]; destruct stk; simpl; auto; discriminate.
Qed.

Lemma parse_rooted ts : forall st v,
  parse st ts = Some v -> rooted st = true -> is_object v = true.
Proof.
  induction ts as [|t ts IH]; intros st v; simpl.
  - destruct st as [| | | | |w [|]]; try discriminate. now intros [= ->].
  - destruct (parse_step st t) as [st'|] eqn:Hs; [|discriminate].
    intros Hp Hr. eapply IH; eauto using parse_step_rooted.
Qed.

(** A text that opens with a brace parses to an object, if it parses. *)
Lemma JSON_parse_brace t v :
  JSON_parse (123%N :: t) = Some v -> is_object v = true.
Proof.
  unfold JSON_parse. simpl.
  destruct (lex LStart t) as [ts|]; simpl; [|discriminate].
  intros Hp. now apply (parse_rooted ts (PObjFirst [])).
Qed.

Lemma from_first_head c s t : from_first c s = Some t -> exists t', t = c :: t'.
Proof.
  induction s as [|x s IH]; simpl; [discriminate|].
  destruct (N.eqb_spec x c) as [->|]; [intros [= <-]; eauto | auto].
Qed.

Lemma match_braces_head s span :
  match_braces s = Some span -> exists t, span = 123%N :: t.
Proof.
  unfold match_braces.
  destruct (from_first 123 s) as [[|b t]|] eqn:Hf; try discriminate.
  destruct (from_first_head _ _ _ Hf) as (t' & [= -> ->]).
  destruct (upto_last 125 t'); simpl; [|discriminate].
  intros [= <-]. eauto.
Qed.
End Parser.
(** *** White space and fences *)

Section Fences.
Open Scope N_scope.

Lemma fence_eq : fence = [96; 96; 96].
Proof. reflexivity. Qed.

Lemma drop_ws_all_ws w s : all_ws w = true -> drop_ws (w ++ s) = drop_ws s.
Proof.
  induction w as [|c w IH]; simpl; [reflexivity|].
  rewrite andb_true_iff. intros [-> Hw]. auto.
Qed.

Lemma drop_ws_keep c s : is_ws c = false -> drop_ws (c :: s) = c :: s.
Proof. simpl. now intros ->. Qed.

Lemma all_ws_rev w : all_ws w = true -> all_ws (rev w) = true.
Proof.
  unfold all_ws. rewrite !forallb_forall.
  intros H x Hx. apply H. now apply in_rev.
Qed.

(** [trim] takes the white space off both ends and nothing else. *)
Lemma trim_framed w0 w1 a b mid :
  all_ws w0 = true -> all_ws w1 = true ->
  is_ws a = false -> is_ws b = false ->
  trim (w0 ++ (a :: mid ++ [b]) ++ w1) = a :: mid ++ [b].
Proof.
  intros H0 H1 Ha Hb. unfold trim, trimStart, trimEnd.
  assert (Hx : rev (a :: mid ++ [b]) = b :: rev (a :: mid)).
  { change (a :: mid ++ [b]) with ((a :: mid) ++ [b]).
    now rewrite rev_app_distr. }
  rewrite (drop_ws_all_ws _ _ H0).
  change ((a :: mid ++ [b]) ++ w1) with (a :: (mid ++ [b]) ++ w1) at 1.
  rewrite (drop_ws_keep _ _ Ha).
  change (a :: (mid ++ [b]) ++ w1) with ((a :: mid ++ [b]) ++ w1).
  rewrite rev_app_distr, (drop_ws_all_ws _ _ (all_ws_rev _ H1)), Hx.
  rewrite (drop_ws_keep _ _ Hb), <- Hx. apply rev_involutive.
Qed.

Lemma trim_braced w0 w1 mid :
  all_ws w0 = true -> all_ws w1 = true ->
  trim (w0 ++ braced mid ++ w1) = braced mid.
Proof. intros. now apply trim_framed. Qed.

Lemma trim_braced_only mid : trim (braced mid) = braced mid.
Proof.
  rewrite <- (app_nil_r (braced mid)) at 1.
  now apply (trim_braced [] []).
Qed.

Lemma strip_prefix_app eq p t r z :
  strip_prefix eq p t = Some r -> strip_prefix eq p (t ++ z) = Some (r ++ z).
Proof.
  revert t; induction p as [|x p IH]; intros [|y t]; simpl; try discriminate.
  - now intros [= <-].
  - now intros [= <-].
  - destruct (eq x y); [apply IH | discriminate].
Qed.

Lemma upper_backtick c : upper c = 96 -> c = 96.
Proof.
  unfold upper.
  destruct ((97 <=? c) && (c <=? 122)) eqn:H; [|auto].
  apply andb_true_iff in H. destruct H as [H1 H2].
  apply N.leb_le in H1, H2. lia.
Qed.

(** Under the [i] flag a backtick still matches a backtick only. *)
Lemma ci_eqb_backtick c : ci_eqb 96 c = (96 =? c).
Proof.
  unfold ci_eqb. change (upper 96) with 96.
  destruct (N.eqb_spec 96 c) as [<-|Hc]; [reflexivity|].
  apply N.eqb_neq. intros H. symmetry in H. apply upper_backtick in H. congruence.
Qed.

Lemma is_ws_not_j c : is_ws c = true -> ci_eqb 106 c = false.
Proof.
  unfold is_ws, ci_eqb, upper. intros H. apply N.eqb_neq. simpl.
  destruct ((97 <=? c) && (c <=? 122)) eqn:Hl.
  - apply andb_true_iff in Hl. destruct Hl as [H1 H2].
    apply N.leb_le in H1, H2.
    repeat rewrite ?orb_true_iff, ?andb_true_iff, ?N.eqb_eq, ?N.leb_le in H. lia.
  - repeat rewrite ?orb_true_iff, ?andb_true_iff, ?N.eqb_eq, ?N.leb_le in H. lia.
Qed.

Lemma is_ws_not_backtick c : is_ws c = true -> (96 =? c) = false.
Proof.
  unfold is_ws. intros H. apply N.eqb_neq.
  repeat rewrite ?orb_true_iff, ?andb_true_iff, ?N.eqb_eq, ?N.leb_le in H. lia.
Qed.

(** Neither white space nor an opening brace starts the tag [json]. *)
Lemma no_tag_ahead w s :
  all_ws w = true -> strip_prefix ci_eqb json_tag (w ++ 123 :: s) = None.
Proof.
  destruct w as [|c w]; simpl; [reflexivity|].
  rewrite andb_true_iff. intros [Hc _].
  change (N_of_ascii "j") with 106. now rewrite (is_ws_not_j _ Hc).
Qed.

Lemma json_tag_ahead tag s :
  is_json_tag tag = true -> strip_prefix ci_eqb json_tag (tag ++ s) = Some s.
Proof.
  unfold is_json_tag.
  destruct (strip_prefix ci_eqb json_tag tag) as [[|]|] eqn:H; try discriminate.
  intros _. now rewrite (strip_prefix_app _ _ _ _ s H).
Qed.

Lemma strip_fence s : strip_prefix N.eqb fence (fence ++ s) = Some s.
Proof. reflexivity. Qed.

Lemma rev_fence : rev fence = fence.
Proof. reflexivity. Qed.

Lemma strip_leading_fence_fenced tag w1 mid rest :
  all_ws w1 = true ->
  tag = [] \/ is_json_tag tag = true ->
  strip_leading_fence (fence ++ tag ++ w1 ++ braced mid ++ rest) = braced mid ++ rest.
Proof.
  intros H1 Htag. unfold strip_leading_fence.
  rewrite strip_fence.
  destruct Htag as [->|Htag].
  - rewrite app_nil_l.
    change (braced mid ++ rest) with (123 :: (mid ++ [125]) ++ rest).
    rewrite (no_tag_ahead _ _ H1), (drop_ws_all_ws _ _ H1). reflexivity.
  - rewrite (json_tag_ahead _ _ Htag), (drop_ws_all_ws _ _ H1). reflexivity.
Qed.

Lemma rev_braced mid : rev (braced mid) = 125 :: rev mid ++ [123].
Proof.
  unfold braced. simpl. now rewrite rev_app_distr.
Qed.

Lemma strip_trailing_fence_fenced mid w2 :
  all_ws w2 = true ->
  strip_trailing_fence (braced mid ++ w2 ++ fence) = braced mid.
Proof.
  intros H2. unfold strip_trailing_fence.
  rewrite !rev_app_distr, <- app_assoc, rev_fence, strip_fence.
  rewrite (drop_ws_all_ws _ _ (all_ws_rev _ H2)), rev_braced.
  rewrite (drop_ws_keep 125) by reflexivity.
  now rewrite <- rev_braced, rev_involutive.
Qed.

Lemma trim_fenced w0 tag w1 inner w2 w3 :
  all_ws w0 = true -> all_ws w3 = true ->
  trim (fenced w0 tag w1 inner w2 w3) = fence ++ tag ++ w1 ++ inner ++ w2 ++ fence.
Proof.
  intros H0 H3. unfold fenced. rewrite fence_eq.
  replace (w0 ++ [96; 96; 96] ++ tag ++ w1 ++ inner ++ w2 ++ [96; 96; 96] ++ w3)
    with (w0 ++ (96 :: ([96; 96] ++ tag ++ w1 ++ inner ++ w2 ++ [96; 96]) ++ [96]) ++ w3).
  - rewrite trim_framed by auto.
    simpl. repeat (rewrite <- app_assoc; simpl). reflexivity.
  - simpl. repeat (rewrite <- app_assoc; simpl). reflexivity.
Qed.

(** Line 108 of analyze.js on a fenced object. *)
Lemma analyze_strip_fenced w0 tag w1 mid w2 w3 :
  all_ws w0 = true -> all_ws w1 = true -> all_ws w2 = true -> all_ws w3 = true ->
  tag = [] \/ is_json_tag tag = true ->
  Analyze.strip_fences (trim (fenced w0 tag w1 (braced mid) w2 w3)) = braced mid.
Proof.
  intros H0 H1 H2 H3 Htag. rewrite trim_fenced by auto.
  unfold Analyze.strip_fences.
  rewrite strip_leading_fence_fenced, strip_trailing_fence_fenced by auto.
  apply trim_braced_only.
Qed.

Lemma analyze_strip_bare w0 mid w3 :
  all_ws w0 = true -> all_ws w3 = true ->
  Analyze.strip_fences (trim (w0 ++ braced mid ++ w3)) = braced mid.
Proof.
  intros H0 H3. rewrite trim_braced by auto.
  unfold Analyze.strip_fences, strip_leading_fence, strip_trailing_fence.
  simpl strip_prefix at 1.
  unfold braced. simpl rev. rewrite rev_app_distr. simpl.
  apply (trim_braced_only mid).
Qed.


(** **** The global replacements of the second handler *)

Lemma remove_plain m' b c s :
  (96 =? c) = false -> b && is_ws c = false ->
  remove_marked (96 :: m') 0 b (c :: s) = c :: remove_marked (96 :: m') 0 false s.
Proof.
  intros Hc Hb. simpl. rewrite Hb, ci_eqb_backtick, Hc. reflexivity.
Qed.

Lemma remove_emits_ws m' w s :
  all_ws w = true ->
  remove_marked (96 :: m') 0 false (w ++ s) = w ++ remove_marked (96 :: m') 0 false s.
Proof.
  induction w as [|c w IH]; [reflexivity|].
  unfold all_ws. simpl forallb. rewrite andb_true_iff. intros [Hc Hw].
  rewrite <- app_comm_cons, remove_plain by auto using is_ws_not_backtick.
  now rewrite IH.
Qed.

Lemma remove_skips_ws m w s :
  all_ws w = true ->
  remove_marked m 0 true (w ++ s) = remove_marked m 0 true s.
Proof.
  induction w as [|c w IH]; [reflexivity|].
  unfold all_ws. simpl forallb. rewrite andb_true_iff. intros [Hc Hw].
  simpl. rewrite Hc. simpl. auto.
Qed.

Lemma remove_skips_ws_end m w :
  all_ws w = true -> remove_marked m 0 true w = [].
Proof.
  intros H. rewrite <- (app_nil_r w), remove_skips_ws by auto. reflexivity.
Qed.

Lemma remove_emits_ws_end m' w :
  all_ws w = true -> remove_marked (96 :: m') 0 false w = w.
Proof.
  intros H. rewrite <- (app_nil_r w) at 1. rewrite remove_emits_ws by auto.
  cbn [remove_marked]. apply app_nil_r.
Qed.

Lemma remove_skips_match m x s :
  remove_marked m (List.length x) true (x ++ s) = remove_marked m 0 true s.
Proof.
  induction x as [|c x IH]; [reflexivity|]. simpl. exact IH.
Qed.

Lemma strip_prefix_length eq p : forall t,
  strip_prefix eq p t = Some [] -> List.length t = List.length p.
Proof.
  induction p as [|x p IH]; intros [|y t]; simpl; try discriminate; auto.
  destruct (eq x y); [|discriminate]. intros H. f_equal. auto.
Qed.

(** An opening fence: the marker [```] goes, and the white space after it. *)
Lemma remove_fence b s :
  remove_marked fence 0 b (fence ++ s) = remove_marked fence 0 true s.
Proof.
  rewrite fence_eq. destruct b; reflexivity.
Qed.

(** The marker [```json], in any case, goes as well. *)
Lemma remove_json_fence b tag s :
  is_json_tag tag = true ->
  remove_marked (fence ++ json_tag) 0 b (fence ++ tag ++ s)
  = remove_marked (fence ++ json_tag) 0 true s.
Proof.
  intros Htag.
  assert (Hl : List.length tag = 4%nat).
  { unfold is_json_tag in Htag.
    destruct (strip_prefix ci_eqb json_tag tag) as [[|]|] eqn:H; try discriminate.
    now apply strip_prefix_length in H. }
  assert (Hhit : strip_prefix ci_eqb (fence ++ json_tag) (fence ++ tag ++ s) = Some s).
  { change (strip_prefix ci_eqb (fence ++ json_tag) (fence ++ tag ++ s))
      with (strip_prefix ci_eqb json_tag (tag ++ s)).
    now apply json_tag_ahead. }
  change (fence ++ tag ++ s) with (96 :: [96; 96] ++ tag ++ s) in *.
  cbn [remove_marked].
  replace (b && is_ws 96) with false by (destruct b; reflexivity).
  rewrite Hhit.
  change (List.length (fence ++ json_tag) - 1)%nat with 6%nat.
  replace 6%nat with (List.length ([96; 96] ++ tag)) by (simpl; now rewrite Hl).
  rewrite app_assoc. apply remove_skips_match.
Qed.

Lemma remove_keeps_fence b s :
  no_tag_next s = true ->
  remove_marked (fence ++ json_tag) 0 b (fence ++ s)
  = fence ++ remove_marked (fence ++ json_tag) 0 false s.
Proof.
  intros H. rewrite fence_eq.
  destruct s as [|c s]; [destruct b; reflexivity|].
  simpl in H. apply andb_true_iff in H. destruct H as [Hc Hj].
  apply negb_true_iff in Hc, Hj.
  assert (Hc' : ci_eqb 96 c = false) by now rewrite ci_eqb_backtick.
  change ([96; 96; 96] ++ c :: s) with (96 :: 96 :: 96 :: c :: s).
  change ([96; 96; 96] ++ json_tag) with (96 :: [96; 96] ++ json_tag).
  cbn [remove_marked strip_prefix app].
  replace (b && is_ws 96) with false by (destruct b; reflexivity).
  change (ci_eqb 96 96) with true. cbn iota.
  change (json_tag) with (106 :: lit "son"). cbn [strip_prefix].
  rewrite Hj, Hc'. cbn [andb]. reflexivity.
Qed.

Lemma no_tag_next_ws w s :
  all_ws w = true -> no_tag_next (w ++ 123 :: s) = true.
Proof.
  destruct w as [|c w]; [reflexivity|].
  unfold all_ws. cbn [forallb app no_tag_next]. rewrite andb_true_iff. intros [Hc _].
  now rewrite (is_ws_not_backtick _ Hc), (is_ws_not_j _ Hc).
Qed.

Lemma no_tag_next_ws_end w : all_ws w = true -> no_tag_next w = true.
Proof.
  destruct w as [|c w]; [reflexivity|].
  unfold all_ws. cbn [forallb app no_tag_next]. rewrite andb_true_iff. intros [Hc _].
  now rewrite (is_ws_not_backtick _ Hc), (is_ws_not_j _ Hc).
Qed.

(** No fence starts inside a text that holds none and is followed by a
    closing brace. *)
Lemma no_fence_before_brace m' c s r :
  strip_prefix N.eqb fence (c :: s) = None ->
  strip_prefix ci_eqb (96 :: 96 :: 96 :: m') (c :: s ++ 125 :: r) = None.
Proof.
  rewrite fence_eq. cbn [strip_prefix]. rewrite !ci_eqb_backtick.
  destruct (96 =? c); [|reflexivity].
  destruct s as [|d s]; [reflexivity|]. cbn [app]. rewrite ci_eqb_backtick.
  destruct (96 =? d); [|reflexivity].
  destruct s as [|e s]; [reflexivity|]. cbn [app]. rewrite ci_eqb_backtick.
  destruct (96 =? e); [discriminate|reflexivity].
Qed.

Lemma remove_keeps_inner m' mid r :
  fence_free mid = true ->
  remove_marked (96 :: 96 :: 96 :: m') 0 false (mid ++ 125 :: r)
  = mid ++ 125 :: remove_marked (96 :: 96 :: 96 :: m') 0 false r.
Proof.
  induction mid as [|c mid IH]; intros H.
  - now rewrite app_nil_l, remove_plain.
  - cbn [fence_free] in H.
    destruct (strip_prefix N.eqb fence (c :: mid)) eqn:Hc; [discriminate|].
    rewrite <- app_comm_cons. cbn [remove_marked andb].
    rewrite (no_fence_before_brace m' _ _ r Hc). now rewrite IH.
Qed.

Lemma remove_keeps_braced m' b mid r :
  fence_free mid = true ->
  remove_marked (96 :: 96 :: 96 :: m') 0 b (braced mid ++ r)
  = braced mid ++ remove_marked (96 :: 96 :: 96 :: m') 0 false r.
Proof.
  intros H. unfold braced.
  rewrite <- app_comm_cons, remove_plain; [|reflexivity|destruct b; reflexivity].
  rewrite <- app_assoc. cbn [app]. rewrite remove_keeps_inner by assumption.
  now rewrite <- app_assoc.
Qed.

(** Line 142 of the second handler on a fenced object that holds no fence. *)
Lemma api_strip_fenced w0 tag w1 mid w2 w3 :
  all_ws w0 = true -> all_ws w1 = true -> all_ws w2 = true -> all_ws w3 = true ->
  tag = [] \/ is_json_tag tag = true ->
  fence_free mid = true ->
  Api.strip_fences (fenced w0 tag w1 (braced mid) w2 w3) = braced mid.
Proof.
  intros H0 H1 H2 H3 Htag Hmid. unfold Api.strip_fences, remove_all, fenced.
  assert (Hpass : remove_marked fence 0 false
                    (remove_marked (fence ++ json_tag) 0 false
                       (w0 ++ fence ++ tag ++ w1 ++ braced mid ++ w2 ++ fence ++ w3))
                  = w0 ++ braced mid ++ w2).
  { change (fence ++ json_tag) with (96 :: 96 :: 96 :: json_tag).
    rewrite remove_emits_ws by assumption.
    change (96 :: 96 :: 96 :: json_tag) with (fence ++ json_tag).
    destruct Htag as [->|Htag].
    - rewrite app_nil_l, remove_keeps_fence by now apply no_tag_next_ws.
      change (fence ++ json_tag) with (96 :: 96 :: 96 :: json_tag).
      rewrite remove_emits_ws, remove_keeps_braced, remove_emits_ws by assumption.
      change (96 :: 96 :: 96 :: json_tag) with (fence ++ json_tag).
      rewrite remove_keeps_fence by now apply no_tag_next_ws_end.
      change (fence ++ json_tag) with (96 :: 96 :: 96 :: json_tag).
      rewrite remove_emits_ws_end by assumption.
      change fence with [96; 96; 96] at 1 3.
      rewrite remove_emits_ws by assumption.
      change [96; 96; 96] with fence.
      rewrite remove_fence, remove_skips_ws by assumption.
      rewrite fence_eq.
      rewrite remove_keeps_braced, remove_emits_ws by assumption.
      change [96; 96; 96] with fence.
      rewrite remove_fence, remove_skips_ws_end by assumption.
      now rewrite app_nil_r.
    - rewrite remove_json_fence, remove_skips_ws by assumption.
      change (fence ++ json_tag) with (96 :: 96 :: 96 :: json_tag).
      rewrite remove_keeps_braced, remove_emits_ws by assumption.
      change (96 :: 96 :: 96 :: json_tag) with (fence ++ json_tag).
      rewrite remove_keeps_fence by now apply no_tag_next_ws_end.
      change (fence ++ json_tag) with (96 :: 96 :: 96 :: json_tag).
      rewrite remove_emits_ws_end by assumption.
      change fence with [96; 96; 96] at 1.
      rewrite remove_emits_ws, remove_keeps_braced, remove_emits_ws by assumption.
      change [96; 96; 96] with fence.
      rewrite remove_fence, remove_skips_ws_end by assumption.
      now rewrite app_nil_r. }
  rewrite Hpass. now apply trim_braced.
Qed.

Lemma api_strip_bare w0 mid w3 :
  all_ws w0 = true -> all_ws w3 = true ->
  fence_free mid = true ->
  Api.strip_fences (w0 ++ braced mid ++ w3) = braced mid.
Proof.
  intros H0 H3 Hmid. unfold Api.strip_fences, remove_all.
  change (fence ++ json_tag) with (96 :: 96 :: 96 :: json_tag).
  rewrite remove_emits_ws, remove_keeps_braced, remove_emits_ws_end by assumption.
  rewrite fence_eq.
  rewrite remove_emits_ws, remove_keeps_braced, remove_emits_ws_end by assumption.
  now apply trim_braced.
Qed.

Lemma match_braces_braced mid : match_braces (braced mid) = Some (braced mid).
Proof.
  unfold match_braces, braced, upto_last. cbn [from_first N.eqb Pos.eqb].
  rewrite rev_app_distr. simpl. now rewrite rev_involutive.
Qed.
End Fences.

(** *** Whole runs *)

Section Runs.
Context {E : Engine}.

Lemma null_or_not (v : value) : v = Null \/ v <> Null.
Proof. destruct v; [now left | right; discriminate ..]. Qed.

(** A run of analyze.js ends before any call, with 405, 400, 500 or an
    error thrown, or ends after one call with the outcome of its [try]
    block. *)
Lemma analyze_handler_cases fetch env ev :
  (snd (run (Analyze.handler fetch env ev)) = []
   /\ (status_of (run (Analyze.handler fetch env ev)) = None
       \/ status_of (run (Analyze.handler fetch env ev)) = Some 405%N
       \/ status_of (run (Analyze.handler fetch env ev)) = Some 400%N
       \/ status_of (run (Analyze.handler fetch env ev)) = Some 500%N))
  \/ (exists rq r,
        analyze_sends env ev rq
        /\ run (Analyze.handler fetch env ev) = (Normal r, [rq])
        /\ analyze_outcome fetch rq r).
Proof.
  destruct (str_eqb (Analyze.httpMethod ev) (lit "POST")) eqn:Hm.
  2:{ left. unfold Analyze.handler. rewrite Hm. simpl. auto. }
  apply str_eqb_eq in Hm.
  destruct (Analyze.ANTHROPIC_API_KEY env) as [[|c key]|] eqn:Hk;
    try (left; unfold Analyze.handler; rewrite Hm, Hk; simpl; now auto 6).
  destruct (JSON_parse (Analyze.body_text ev)) as [v|] eqn:Hp.
  2:{ left. rewrite (analyze_invalid_json fetch env ev c key Hm Hk Hp). simpl. auto. }
  destruct (null_or_not v) as [->|Hnn].
  { left. unfold Analyze.handler. rewrite Hm, Hk, Hp. simpl. auto. }
  destruct (falsy (own v "mode") || falsy (own v "content")) eqn:Hf.
  { left. rewrite (analyze_missing_fields fetch env ev c key v Hm Hk Hp Hnn Hf).
    simpl. auto. }
  apply orb_false_iff in Hf. destruct Hf as [Hf1 Hf2].
  destruct (own v "mode") as [mode|] eqn:Hmode; [|discriminate].
  destruct (own v "content") as [content|] eqn:Hcontent; [|discriminate].
  simpl in Hf1, Hf2. apply negb_false_iff in Hf1, Hf2.
  rewrite (analyze_reaches_call fetch env ev c key v mode content Hm Hk Hp
             Hmode Hf1 Hcontent Hf2).
  unfold run, bind at 1, lift at 1.
  destruct (Analyze.build_userMessage mode content (own v "mimeType"))
    as [um|e] eqn:Hum; [|left; simpl; now auto].
  right. destruct (analyze_call_service fetch (c :: key) um []) as (r & Hr & Ho).
  exists (Analyze.completion_request (c :: key) um), r. split; [|split; auto].
  exists c, key, v, mode, content, um. repeat split; auto.
Qed.

(** The same for the second handler. *)
Lemma api_handler_cases create env req :
  (snd (run (Api.handler create env req)) = []
   /\ (status_of (run (Api.handler create env req)) = None
       \/ status_of (run (Api.handler create env req)) = Some 405%N
       \/ status_of (run (Api.handler create env req)) = Some 400%N
       \/ status_of (run (Api.handler create env req)) = Some 500%N))
  \/ (exists rq r,
        api_sends env req rq
        /\ run (Api.handler create env req) = (Normal r, [rq])
        /\ api_outcome create rq r).
Proof.
  destruct (str_eqb (Api.method req) (lit "POST")) eqn:Hm.
  2:{ left. unfold Api.handler. rewrite Hm. simpl. auto. }
  apply str_eqb_eq in Hm.
  destruct (JSON_parse (Api.body_text req)) as [v|] eqn:Hp.
  2:{ left. rewrite (api_invalid_json create env req Hm Hp). simpl. auto. }
  destruct (null_or_not v) as [->|Hnn].
  { left. unfold Api.handler, Api.json. rewrite Hm, Hp. simpl. auto. }
  destruct (falsy (own v "mode") || falsy (own v "content")) eqn:Hf.
  { left. rewrite (api_missing_fields create env req v Hm Hp Hnn Hf). simpl. auto. }
  apply orb_false_iff in Hf. destruct Hf as [Hf1 Hf2].
  destruct (own v "mode") as [mode|] eqn:Hmode; [|discriminate].
  destruct (own v "content") as [content|] eqn:Hcontent; [|discriminate].
  simpl in Hf1, Hf2. apply negb_false_iff in Hf1, Hf2.
  destruct (Api.ANTHROPIC_API_KEY env) as [[|c key]|] eqn:Hk.
  1,3: left; unfold Api.handler, Api.json, run, bind, lift;
    rewrite Hm, Hp, (destructure_not_null _ Hnn), Hmode, Hcontent; simpl;
    rewrite Hf1, Hf2, Hk; simpl; now auto 6.
  rewrite (api_reaches_call create env req c key v mode content Hm Hk Hp
             Hmode Hf1 Hcontent Hf2).
  unfold run, bind at 1, lift at 1.
  destruct (Api.build_messages mode content (own v "mimeType"))
    as [ms|e] eqn:Hms; [|left; simpl; now auto].
  right. destruct (api_call_service create (c :: key) ms []) as (r & Hr & Ho).
  eexists _, r. split; [|split; eauto].
  exists c, key, v, mode, content, ms. repeat split; auto.
Qed.

(** Once the checks are passed the run is that of the [try] block. *)
Lemma analyze_sends_run fetch env ev rq :
  analyze_sends env ev rq ->
  exists r, run (Analyze.handler fetch env ev) = (Normal r, [rq])
            /\ analyze_outcome fetch rq r.
Proof.
  intros (c & key & v & mode & content & um & Hm & Hk & Hp & Hmode & Tm
          & Hcontent & Tc & Hum & ->).
  rewrite (analyze_reaches_call fetch env ev c key v mode content Hm Hk Hp
             Hmode Tm Hcontent Tc).
  unfold run, bind at 1, lift at 1. rewrite Hum.
  apply (analyze_call_service fetch (c :: key) um []).
Qed.

Lemma api_sends_run create env req rq :
  api_sends env req rq ->
  exists r, run (Api.handler create env req) = (Normal r, [rq])
            /\ api_outcome create rq r.
Proof.
  intros (c & key & v & mode & content & ms & Hm & Hk & Hp & Hmode & Tm
          & Hcontent & Tc & Hms & ->).
  rewrite (api_reaches_call create env req c key v mode content Hm Hk Hp
             Hmode Tm Hcontent Tc).
  unfold run, bind at 1, lift at 1. rewrite Hms.
  apply (api_call_service create (c :: key) ms []).
Qed.
End Runs.

(** *** The answer to a reply *)

Section Replies.
Context {E : Engine}.


Lemma analyze_call_answered fetch key um calls resp data raw :
  fetch (Analyze.completion_request key um) = Normal resp ->
  Analyze.ok resp = true ->
  Analyze.json resp = Normal data ->
  first_block_text data = Normal (Some (Str raw)) ->
  Analyze.call_service fetch key um calls
  = (Normal (analyze_answer raw), calls ++ [Analyze.completion_request key um]).
Proof.
  intros Hf Hok Hj Hb.
  unfold Analyze.call_service, try_catch, bind, await_call.
  rewrite Hf, Hok. simpl. unfold Analyze.read_reply, bind, lift.
  rewrite Hj, Hb. simpl. unfold analyze_answer.
  destruct (JSON_parse (Analyze.strip_fences (trim raw))); reflexivity.
Qed.

Lemma analyze_call_unreachable fetch key um calls e :
  fetch (Analyze.completion_request key um) = Throw e ->
  Analyze.call_service fetch key um calls
  = (Normal {| status := 500; headers := []; body := error_body (message e) |},
     calls ++ [Analyze.completion_request key um]).
Proof.
  intros Hf. unfold Analyze.call_service, try_catch, bind, await_call.
  now rewrite Hf.
Qed.

Lemma analyze_call_refused fetch key um calls resp err :
  fetch (Analyze.completion_request key um) = Normal resp ->
  Analyze.ok resp = false ->
  Analyze.text resp = Normal err ->
  Analyze.call_service fetch key um calls
  = (Normal {| status := 500; headers := [];
               body := error_body (lit "Anthropic API error: " ++ err) |},
     calls ++ [Analyze.completion_request key um]).
Proof.
  intros Hf Hok Ht. unfold Analyze.call_service, try_catch, bind, await_call.
  rewrite Hf, Hok. simpl. unfold lift. now rewrite Ht.
Qed.



Lemma api_call_answered create key ms calls reply rawText :
  create {| Api.apiKey := key; Api.params := Api.create_params ms |} = Normal reply ->
  first_block_text reply = Normal (Some (Str rawText)) ->
  Api.call_service create key ms calls
  = (Normal (api_answer rawText),
     calls ++ [{| Api.apiKey := key; Api.params := Api.create_params ms |}]).
Proof.
  intros Hc Hb. unfold Api.call_service, try_catch, bind, await_call.
  rewrite Hc. unfold Api.read_reply, bind, lift. rewrite Hb. simpl.
  unfold api_answer.
  destruct (match_braces (Api.strip_fences rawText)) as [span|]; [|reflexivity].
  destruct (JSON_parse span); reflexivity.
Qed.

Lemma api_call_failed create key ms calls e :
  create {| Api.apiKey := key; Api.params := Api.create_params ms |} = Throw e ->
  Api.call_service create key ms calls
  = (Normal (api_failure e),
     calls ++ [{| Api.apiKey := key; Api.params := Api.create_params ms |}]).
Proof.
  intros Hc. unfold Api.call_service, try_catch, bind, await_call.
  now rewrite Hc.
Qed.

Lemma analyze_sends_handler fetch env ev rq :
  analyze_sends env ev rq ->
  exists key um, rq = Analyze.completion_request key um
    /\ Analyze.handler fetch env ev = Analyze.call_service fetch key um.
Proof.
  intros (c & key & v & mode & content & um & Hm & Hk & Hp & Hmode & Tm
          & Hcontent & Tc & Hum & ->).
  exists (c :: key), um. split; [reflexivity|].
  rewrite (analyze_reaches_call fetch env ev c key v mode content Hm Hk Hp
             Hmode Tm Hcontent Tc).
  unfold bind, lift. rewrite Hum. reflexivity.
Qed.

Lemma api_sends_handler create env req rq :
  api_sends env req rq ->
  exists key ms, rq = {| Api.apiKey := key; Api.params := Api.create_params ms |}
    /\ Api.handler create env req = Api.call_service create key ms.
Proof.
  intros (c & key & v & mode & content & ms & Hm & Hk & Hp & Hmode & Tm
          & Hcontent & Tc & Hms & ->).
  exists (c :: key), ms. split; [reflexivity|].
  rewrite (api_reaches_call create env req c key v mode content Hm Hk Hp
             Hmode Tm Hcontent Tc).
  unfold bind, lift. rewrite Hms. reflexivity.
Qed.
End Replies.
(** *** Trimming, and texts without fences *)

Section Trimming.
Open Scope N_scope.

Lemma drop_ws_app_keep a c r :
  is_ws c = false -> drop_ws (a ++ c :: r) = drop_ws a ++ c :: r.
Proof.
  intros Hc. induction a as [|x a IH]; simpl.
  - now rewrite Hc.
  - destruct (is_ws x); [exact IH | reflexivity].
Qed.

Lemma trimEnd_app_keep a c r :
  is_ws c = false -> trimEnd (a ++ c :: r) = a ++ c :: trimEnd r.
Proof.
  intros Hc. unfold trimEnd.
  rewrite rev_app_distr. cbn [rev]. rewrite <- app_assoc. cbn [app].
  rewrite (drop_ws_app_keep _ _ _ Hc), rev_app_distr. cbn [rev].
  now rewrite rev_involutive, <- app_assoc.
Qed.

Lemma trimEnd_cons_keep c r :
  is_ws c = false -> trimEnd (c :: r) = c :: trimEnd r.
Proof. exact (trimEnd_app_keep [] c r). Qed.

Lemma drop_ws_head s :
  drop_ws s = [] \/ exists c t, drop_ws s = c :: t /\ is_ws c = false.
Proof.
  induction s as [|x s IH]; simpl; [now left|].
  destruct (is_ws x) eqn:Hx; [exact IH | right; eauto].
Qed.

Lemma trimEnd_all_ws w : all_ws w = true -> trimEnd w = [].
Proof.
  intros H. unfold trimEnd.
  rewrite <- (app_nil_r (rev w)), (drop_ws_all_ws _ _ (all_ws_rev _ H)). reflexivity.
Qed.

Lemma trimEnd_app_ws s w : all_ws w = true -> trimEnd (s ++ w) = trimEnd s.
Proof.
  intros H. unfold trimEnd.
  now rewrite rev_app_distr, (drop_ws_all_ws _ _ (all_ws_rev _ H)).
Qed.

Lemma drop_ws_app_ws s w :
  all_ws w = true ->
  drop_ws (s ++ w) = drop_ws s ++ w \/ (drop_ws s = [] /\ drop_ws (s ++ w) = []).
Proof.
  intros H. induction s as [|x s IH]; simpl.
  - right. split; [reflexivity|]. rewrite <- (app_nil_r w). now rewrite drop_ws_all_ws.
  - destruct (is_ws x); [exact IH | now left].
Qed.

(** White space around a text does not change what [trim] returns. *)
Lemma trim_ws_around w0 s w1 :
  all_ws w0 = true -> all_ws w1 = true -> trim (w0 ++ s ++ w1) = trim s.
Proof.
  intros H0 H1. unfold trim, trimStart. rewrite (drop_ws_all_ws _ _ H0).
  destruct (drop_ws_app_ws s w1 H1) as [->|[-> ->]]; [|reflexivity].
  now apply trimEnd_app_ws.
Qed.

Lemma trimEnd_idempotent s : trimEnd (trimEnd s) = trimEnd s.
Proof.
  unfold trimEnd. rewrite rev_involutive.
  destruct (drop_ws_head (rev s)) as [->|(c & t & -> & Hc)]; [reflexivity|].
  now rewrite (drop_ws_keep _ _ Hc).
Qed.

Lemma trim_idempotent s : trim (trim s) = trim s.
Proof.
  unfold trim, trimStart.
  destruct (drop_ws_head s) as [->|(c & t & -> & Hc)]; [reflexivity|].
  rewrite (trimEnd_cons_keep c t Hc).
  rewrite (drop_ws_keep _ _ Hc), (trimEnd_cons_keep c _ Hc).
  now rewrite trimEnd_idempotent.
Qed.

Lemma forallb_drop_ws (p : N -> bool) s :
  forallb p s = true -> forallb p (drop_ws s) = true.
Proof.
  induction s as [|x s IH]; simpl; [auto|].
  rewrite andb_true_iff. intros [Hx Hs].
  destruct (is_ws x); [auto | simpl; now rewrite Hx, Hs].
Qed.

Lemma forallb_rev_true (p : N -> bool) s :
  forallb p s = true -> forallb p (rev s) = true.
Proof.
  rewrite !forallb_forall. intros H x Hx. apply H. now apply in_rev.
Qed.

Lemma forallb_trim (p : N -> bool) s :
  forallb p s = true -> forallb p (trim s) = true.
Proof.
  intros H. unfold trim, trimStart, trimEnd.
  now apply forallb_rev_true, forallb_drop_ws, forallb_rev_true, forallb_drop_ws.
Qed.

(** **** Texts without fences *)

Lemma fence_free_tail c s : fence_free (c :: s) = true -> fence_free s = true.
Proof.
  cbn [fence_free]. destruct (strip_prefix N.eqb fence (c :: s)); [discriminate|auto].
Qed.

Lemma fence_free_head s :
  fence_free s = true -> strip_prefix N.eqb fence s = None.
Proof.
  destruct s as [|c s]; [reflexivity|]. cbn [fence_free].
  destruct (strip_prefix N.eqb fence (c :: s)); [discriminate|reflexivity].
Qed.

Lemma fence_free_drop_ws s : fence_free s = true -> fence_free (drop_ws s) = true.
Proof.
  induction s as [|x s IH]; [auto|]. intros H. simpl.
  destruct (is_ws x); [apply IH; eapply fence_free_tail; eauto | exact H].
Qed.

Lemma fence_free_prefix a b : fence_free (a ++ b) = true -> fence_free a = true.
Proof.
  induction a as [|x a IH]; [reflexivity|]. rewrite <- app_comm_cons.
  cbn [fence_free]. rewrite app_comm_cons.
  destruct (strip_prefix N.eqb fence (x :: a)) as [r|] eqn:Hp.
  - now rewrite (strip_prefix_app _ _ _ _ b Hp).
  - destruct (strip_prefix N.eqb fence ((x :: a) ++ b)); [discriminate|exact IH].
Qed.

Lemma fence_free_ends_fence x : fence_free (x ++ fence) = false.
Proof.
  induction x as [|c x IH]; [reflexivity|]. rewrite <- app_comm_cons.
  cbn [fence_free]. rewrite IH.
  destruct (strip_prefix N.eqb fence (c :: x ++ fence)); reflexivity.
Qed.

Lemma strip_prefix_split eq p : forall s r,
  strip_prefix eq p s = Some r -> exists q, s = q ++ r /\ List.length q = List.length p.
Proof.
  induction p as [|x p IH]; intros [|y s] r; simpl; try discriminate.
  - intros [= <-]. now exists [].
  - intros [= <-]. now exists [].
  - destruct (eq x y); [|discriminate]. intros H.
    destruct (IH _ _ H) as (q & -> & Hl). exists (y :: q). simpl. auto.
Qed.

Lemma strip_fence_inv s r : strip_prefix N.eqb fence s = Some r -> s = fence ++ r.
Proof.
  rewrite fence_eq. cbn [strip_prefix].
  destruct s as [|a s]; [discriminate|].
  destruct (N.eqb_spec 96 a) as [<-|]; [|discriminate].
  destruct s as [|b s]; [discriminate|].
  destruct (N.eqb_spec 96 b) as [<-|]; [|discriminate].
  destruct s as [|c s]; [discriminate|].
  destruct (N.eqb_spec 96 c) as [<-|]; [|discriminate].
  now intros [= <-].
Qed.

(** A text that holds no fence does not end with one. *)
Lemma fence_free_end s :
  fence_free s = true -> strip_prefix N.eqb (rev fence) (rev s) = None.
Proof.
  intros H. rewrite rev_fence.
  destruct (strip_prefix N.eqb fence (rev s)) as [r|] eqn:Hr; [|reflexivity].
  apply strip_fence_inv in Hr.
  assert (Hs : s = rev r ++ fence).
  { rewrite <- (rev_involutive s), Hr, rev_app_distr, rev_fence. reflexivity. }
  rewrite Hs, fence_free_ends_fence in H. discriminate.
Qed.

Lemma drop_ws_suffix u : exists p, u = p ++ drop_ws u.
Proof.
  induction u as [|x u (p & IH)]; [now exists []|]. simpl.
  destruct (is_ws x); [|now exists []].
  exists (x :: p). simpl. now rewrite <- IH.
Qed.

Lemma fence_free_trim s : fence_free s = true -> fence_free (trim s) = true.
Proof.
  intros H. unfold trim, trimStart, trimEnd.
  apply fence_free_drop_ws in H.
  set (t := drop_ws s) in *.
  destruct (drop_ws_suffix (rev t)) as (p & Hp).
  assert (Ht : exists w, t = rev (drop_ws (rev t)) ++ w).
  { exists (rev p). rewrite <- rev_app_distr, <- Hp. now rewrite rev_involutive. }
  destruct Ht as (w & Ht). rewrite Ht in H. now apply fence_free_prefix in H.
Qed.

Lemma no_fence_no_marker m' s :
  strip_prefix N.eqb fence s = None ->
  strip_prefix ci_eqb (96 :: 96 :: 96 :: m') s = None.
Proof.
  rewrite fence_eq. cbn [strip_prefix].
  destruct s as [|a s]; [reflexivity|]. rewrite ci_eqb_backtick.
  destruct (96 =? a); [|reflexivity].
  destruct s as [|b s]; [reflexivity|]. rewrite ci_eqb_backtick.
  destruct (96 =? b); [|reflexivity].
  destruct s as [|c s]; [reflexivity|]. rewrite ci_eqb_backtick.
  destruct (96 =? c); [discriminate|reflexivity].
Qed.

Lemma remove_fence_free m' s :
  fence_free s = true -> remove_marked (96 :: 96 :: 96 :: m') 0 false s = s.
Proof.
  induction s as [|c s IH]; [reflexivity|]. intros H.
  cbn [remove_marked andb].
  rewrite (no_fence_no_marker m' _ (fence_free_head _ H)).
  now rewrite (IH (fence_free_tail _ _ H)).
Qed.

(** Line 108 of analyze.js and line 142 of the second handler on a reply
    that holds no fence. *)
Lemma analyze_strip_fence_free s :
  fence_free s = true -> Analyze.strip_fences (trim s) = trim s.
Proof.
  intros H. apply fence_free_trim in H. unfold Analyze.strip_fences.
  unfold strip_leading_fence. rewrite (fence_free_head _ H).
  unfold strip_trailing_fence. rewrite (fence_free_end _ H).
  apply trim_idempotent.
Qed.

Lemma api_strip_fence_free s :
  fence_free s = true -> Api.strip_fences s = trim s.
Proof.
  intros H. unfold Api.strip_fences, remove_all.
  change (fence ++ json_tag) with (96 :: 96 :: 96 :: json_tag).
  rewrite (remove_fence_free _ _ H), fence_eq.
  now rewrite (remove_fence_free [] _ H).
Qed.
End Trimming.

(** *** The span from the first opening brace to the last closing one *)

Section Spans.
Open Scope N_scope.

Lemma from_first_skip c pre r :
  lacks c pre = true -> from_first c (pre ++ c :: r) = Some (c :: r).
Proof.
  unfold lacks. induction pre as [|x pre IH]; simpl.
  - now rewrite N.eqb_refl.
  - rewrite andb_true_iff, negb_true_iff. intros [-> H]. auto.
Qed.

Lemma upto_last_skip c inner post :
  lacks c post = true -> upto_last c (inner ++ c :: post) = Some (inner ++ [c]).
Proof.
  intros H. unfold upto_last.
  rewrite rev_app_distr. cbn [rev]. rewrite <- app_assoc. cbn [app].
  rewrite from_first_skip by (now apply forallb_rev_true).
  cbn [option_map rev]. now rewrite rev_involutive.
Qed.

Lemma lacks_drop_ws c s : lacks c s = true -> lacks c (drop_ws s) = true.
Proof. apply forallb_drop_ws. Qed.

Lemma lacks_trimEnd c s : lacks c s = true -> lacks c (trimEnd s) = true.
Proof.
  intros H. unfold trimEnd.
  now apply forallb_rev_true, forallb_drop_ws, forallb_rev_true.
Qed.

Lemma match_braces_prose pre inner post :
  lacks 123 pre = true -> lacks 125 post = true ->
  match_braces (pre ++ braced inner ++ post) = Some (braced inner).
Proof.
  intros H0 H1. unfold match_braces, braced.
  rewrite <- app_comm_cons, from_first_skip by assumption.
  rewrite <- app_assoc. cbn [app].
  now rewrite upto_last_skip by assumption.
Qed.

Lemma trim_prose pre inner post :
  trim (pre ++ braced inner ++ post) = drop_ws pre ++ braced inner ++ trimEnd post.
Proof.
  unfold trim, trimStart, braced.
  rewrite <- app_comm_cons, drop_ws_app_keep by reflexivity.
  rewrite trimEnd_app_keep by reflexivity.
  rewrite <- app_assoc. cbn [app].
  replace (drop_ws pre ++ 123 :: inner ++ 125 :: post)
    with ((drop_ws pre ++ 123 :: inner) ++ 125 :: post)
    by (now rewrite <- app_assoc).
  rewrite trimEnd_app_keep by reflexivity.
  rewrite <- !app_assoc. reflexivity.
Qed.
End Spans.

(** *** What the global replacements leave around a text *)

Section Markers.
Open Scope N_scope.

Lemma is_ws_not_marker x c :
  (96 <=? x) && (x <=? 122) = true -> is_ws c = true -> ci_eqb x c = false.
Proof.
  unfold is_ws, ci_eqb, upper. intros Hx H. apply N.eqb_neq.
  apply andb_true_iff in Hx. destruct Hx as [X1 X2]. apply N.leb_le in X1, X2.
  repeat rewrite ?orb_true_iff, ?andb_true_iff, ?N.eqb_eq, ?N.leb_le in H.
  destruct ((97 <=? x) && (x <=? 122)) eqn:Hl;
    destruct ((97 <=? c) && (c <=? 122)) eqn:Hc;
    rewrite ?andb_true_iff, ?andb_false_iff, ?N.leb_le, ?N.leb_gt in Hl, Hc; lia.
Qed.

Lemma strip_prefix_ws_none m : forall t w,
  marker_units m = true -> all_ws w = true ->
  strip_prefix ci_eqb m t = None -> strip_prefix ci_eqb m (t ++ w) = None.
Proof.
  induction m as [|x m IH]; intros t w Hm Hw; [destruct t; discriminate|].
  unfold marker_units in Hm. simpl in Hm. apply andb_true_iff in Hm.
  destruct Hm as [Hx Hm].
  destruct t as [|y t]; simpl.
  - intros _. destruct w as [|c w]; [reflexivity|].
    unfold all_ws in Hw. simpl in Hw. apply andb_true_iff in Hw.
    now rewrite (is_ws_not_marker x c Hx (proj1 Hw)).
  - destruct (ci_eqb x y); [now apply IH | reflexivity].
Qed.

Lemma remove_ws_end m' w :
  marker_units (96 :: m') = true -> all_ws w = true ->
  forall s todo b, (todo <= List.length s)%nat ->
    exists w', all_ws w' = true
      /\ remove_marked (96 :: m') todo b (s ++ w)
         = remove_marked (96 :: m') todo b s ++ w'.
Proof.
  intros Hm Hw. induction s as [|c s IH]; intros todo b Hl.
  - assert (todo = 0%nat) as -> by (simpl in Hl; lia).
    destruct b; cbn [app].
    + exists []. split; [reflexivity|]. now rewrite remove_skips_ws_end.
    + exists w. split; [assumption|]. now rewrite remove_emits_ws_end.
  - rewrite <- app_comm_cons. destruct todo as [|k].
    + cbn [remove_marked].
      destruct (b && is_ws c); [apply IH; simpl; lia|].
      rewrite app_comm_cons.
      destruct (strip_prefix ci_eqb (96 :: m') (c :: s)) as [r|] eqn:Hp.
      * rewrite (strip_prefix_app _ _ _ _ w Hp).
        apply IH. apply strip_prefix_split in Hp.
        destruct Hp as (q & Hq & Hl'). apply (f_equal (@List.length N)) in Hq.
        rewrite length_app in Hq. simpl in Hq, Hl' |- *. lia.
      * rewrite (strip_prefix_ws_none _ _ _ Hm Hw Hp).
        destruct (IH 0%nat false) as (w' & Hw' & ->); [lia|].
        exists w'. split; [assumption|reflexivity].
    + cbn [remove_marked]. apply IH. simpl in Hl. lia.
Qed.

Lemma remove_all_ws_around m' w0 s w1 :
  marker_units (96 :: m') = true -> all_ws w0 = true -> all_ws w1 = true ->
  exists w', all_ws w' = true
    /\ remove_all (96 :: m') (w0 ++ s ++ w1) = w0 ++ remove_all (96 :: m') s ++ w'.
Proof.
  intros Hm H0 H1. unfold remove_all. rewrite remove_emits_ws by assumption.
  destruct (remove_ws_end m' w1 Hm H1 s 0%nat false) as (w' & Hw' & ->); [lia|].
  now exists w'.
Qed.

Lemma api_strip_ws_around w0 raw w1 :
  all_ws w0 = true -> all_ws w1 = true ->
  Api.strip_fences (w0 ++ raw ++ w1) = Api.strip_fences raw.
Proof.
  intros H0 H1. unfold Api.strip_fences.
  change (fence ++ json_tag) with (96 :: 96 :: 96 :: json_tag).
  rewrite fence_eq.
  destruct (remove_all_ws_around (96 :: 96 :: json_tag) w0 raw w1 eq_refl H0 H1)
    as (w' & Hw' & ->).
  destruct (remove_all_ws_around [96; 96] w0
              (remove_all (96 :: 96 :: 96 :: json_tag) raw) w' eq_refl H0 Hw')
    as (w'' & Hw'' & ->).
  now apply trim_ws_around.
Qed.
End Markers.

(** *** An object among other text, in the second handler *)

Section Objects.
Open Scope N_scope.

Lemma marker_not_brace x :
  (96 <=? x) && (x <=? 122) = true -> ci_eqb x 123 = false.
Proof.
  unfold ci_eqb, upper. intros Hx. apply N.eqb_neq.
  apply andb_true_iff in Hx. destruct Hx as [X1 X2]. apply N.leb_le in X1, X2.
  change ((97 <=? 123) && (123 <=? 122)) with false. cbn iota.
  destruct ((97 <=? x) && (x <=? 122)); lia.
Qed.

(** A marker that is matched ahead of an opening brace ends before it. *)
Lemma strip_prefix_before_brace m : forall t rest r,
  marker_units m = true ->
  strip_prefix ci_eqb m (t ++ 123 :: rest) = Some r ->
  (List.length m <= List.length t)%nat.
Proof.
  induction m as [|x m IH]; intros t rest r Hm; [simpl; lia|].
  unfold marker_units in Hm. simpl in Hm. apply andb_true_iff in Hm.
  destruct Hm as [Hx Hm].
  destruct t as [|y t]; simpl.
  - now rewrite (marker_not_brace x Hx).
  - destruct (ci_eqb x y); [|discriminate].
    intros H. apply IH in H; [lia | exact Hm].
Qed.

(** The replacement only takes code units out. *)
Lemma forallb_remove_marked (p : N -> bool) m : forall s todo b,
  forallb p s = true -> forallb p (remove_marked m todo b s) = true.
Proof.
  induction s as [|c s IH]; intros todo b; [reflexivity|].
  simpl forallb. rewrite andb_true_iff. intros [Hc Hs].
  cbn [remove_marked]. destruct todo as [|k]; [|now apply IH].
  destruct (b && is_ws c); [now apply IH|].
  destruct (strip_prefix ci_eqb m (c :: s)); [now apply IH|].
  simpl. rewrite Hc. now apply IH.
Qed.

(** Up to the first opening brace the replacement is on its own; at the
    brace it starts afresh. *)
Lemma remove_upto_brace m' rest :
  marker_units (96 :: m') = true ->
  forall pre todo b,
    lacks 123 pre = true -> (todo <= List.length pre)%nat ->
    exists pre',
      lacks 123 pre' = true
      /\ remove_marked (96 :: m') todo b (pre ++ 123 :: rest)
         = pre' ++ 123 :: remove_marked (96 :: m') 0 false rest.
Proof.
  intros Hm. induction pre as [|c pre IH]; intros todo b Hl Ht.
  - assert (todo = 0%nat) as -> by (simpl in Ht; lia).
    exists []. split; [reflexivity|]. cbn [app].
    apply remove_plain; [reflexivity | destruct b; reflexivity].
  - unfold lacks in Hl. simpl in Hl. apply andb_true_iff in Hl.
    destruct Hl as [Hc Hl]. rewrite <- app_comm_cons.
    destruct todo as [|k].
    + cbn [remove_marked].
      destruct (b && is_ws c); [apply IH; [exact Hl | lia]|].
      rewrite app_comm_cons.
      destruct (strip_prefix ci_eqb (96 :: m') ((c :: pre) ++ 123 :: rest))
        as [r|] eqn:Hp.
      * apply IH; [exact Hl|].
        apply (strip_prefix_before_brace _ _ _ _ Hm) in Hp. simpl in Hp |- *. lia.
      * destruct (IH 0%nat false Hl) as (pre' & Hl' & ->); [lia|].
        exists (c :: pre'). split; [|reflexivity].
        unfold lacks. simpl. rewrite Hc. exact Hl'.
    + cbn [remove_marked]. apply IH; [exact Hl | simpl in Ht; lia].
Qed.

Lemma remove_all_around_object m' pre inner post :
  marker_units (96 :: 96 :: 96 :: m') = true ->
  lacks 123 pre = true -> lacks 125 post = true -> fence_free inner = true ->
  exists pre' post',
    lacks 123 pre' = true /\ lacks 125 post' = true
    /\ remove_all (96 :: 96 :: 96 :: m') (pre ++ braced inner ++ post)
       = pre' ++ braced inner ++ post'.
Proof.
  intros Hm H0 H1 Hfree.
  destruct (remove_upto_brace (96 :: 96 :: m') (inner ++ 125 :: post) Hm
              pre 0%nat false H0) as (pre' & Hl & Heq); [lia|].
  exists pre', (remove_marked (96 :: 96 :: 96 :: m') 0 false post).
  split; [exact Hl|]. split; [now apply forallb_remove_marked|].
  unfold remove_all, braced.
  rewrite <- !app_comm_cons, <- !app_assoc. cbn [app].
  rewrite Heq. now rewrite (remove_keeps_inner m' inner post Hfree).
Qed.

(** Lines 142-143 of the second handler on an object text that holds no
    fence, after anything without an opening brace and before anything
    without a closing one. *)
Lemma api_object_found pre inner post :
  lacks 123 pre = true -> lacks 125 post = true -> fence_free inner = true ->
  match_braces (Api.strip_fences (pre ++ braced inner ++ post)) = Some (braced inner).
Proof.
  intros H0 H1 Hfree. unfold Api.strip_fences.
  change (fence ++ json_tag) with (96 :: 96 :: 96 :: json_tag).
  rewrite fence_eq.
  destruct (remove_all_around_object json_tag pre inner post eq_refl H0 H1 Hfree)
    as (pre1 & post1 & P0 & P1 & ->).
  destruct (remove_all_around_object [] pre1 inner post1 eq_refl P0 P1 Hfree)
    as (pre2 & post2 & Q0 & Q1 & ->).
  rewrite trim_prose.
  apply match_braces_prose; [now apply lacks_drop_ws | now apply lacks_trimEnd].
Qed.

Lemma lacks_app c a b :
  lacks c a = true -> lacks c b = true -> lacks c (a ++ b) = true.
Proof. unfold lacks. rewrite forallb_app. now intros -> ->. Qed.

Lemma all_ws_lacks c w : is_ws c = false -> all_ws w = true -> lacks c w = true.
Proof.
  intros Hc. unfold all_ws, lacks. rewrite !forallb_forall.
  intros H x Hx. apply negb_true_iff, N.eqb_neq. intros ->.
  rewrite (H _ Hx) in Hc. discriminate.
Qed.

(** The same on a fenced object, whatever the tag, as long as it holds
    no opening brace. *)
Lemma api_fenced_found w0 tag w1 inner w2 w3 :
  all_ws w0 = true -> all_ws w1 = true -> all_ws w2 = true -> all_ws w3 = true ->
  lacks 123 tag = true -> fence_free inner = true ->
  match_braces (Api.strip_fences (fenced w0 tag w1 (braced inner) w2 w3))
  = Some (braced inner).
Proof.
  intros H0 H1 H2 H3 Htag Hfree. unfold fenced.
  replace (w0 ++ fence ++ tag ++ w1 ++ braced inner ++ w2 ++ fence ++ w3)
    with ((w0 ++ fence ++ tag ++ w1) ++ braced inner ++ (w2 ++ fence ++ w3))
    by (now rewrite <- !app_assoc).
  apply api_object_found; [| |exact Hfree].
  - repeat apply lacks_app; auto using all_ws_lacks.
  - repeat apply lacks_app; auto using all_ws_lacks.
Qed.
End Objects.

(** ** The claims *)

Section Requests.
Context {E : Engine}.

(** C7.  A request whose method is not POST.  analyze.js answers 405 with
    the JSON body [{"error":"Method not allowed"}]; the second handler
    answers 405 as well, but its body is the bare text
    [Method not allowed], which is not JSON: the evaluation of both
    handlers on a GET request. *)
Theorem method_not_allowed_body_is_plain_text :
  forall fetch create aenv nenv,
    run (Analyze.handler fetch aenv
           {| Analyze.httpMethod := lit "GET"; Analyze.event_body := None |})
    = (Normal {| status := 405; headers := [];
                 body := error_body (lit "Method not allowed") |}, [])
    /\ run (Api.handler create nenv
              {| Api.method := lit "GET"; Api.request_text := [] |})
       = (Normal {| status := 405; headers := [];
                    body := lit "Method not allowed" |}, [])
    /\ JSON_parse (lit "Method not allowed") = None.
Proof.
  intros. repeat split.
Qed.

(** C10.  A POST request whose body is the JSON text [null], with the key
    configured.  Both handlers take the fields of the parsed body apart
    before their [try] block: on [null] that throws, and the error
    leaves the handler.  So does, in analyze.js, the call of [trim] on a
    content that is not a string, here an array, in text mode. *)
Theorem null_body_throws_out_of_the_handler :
  forall fetch create c key,
    run (Analyze.handler fetch
           {| Analyze.ANTHROPIC_API_KEY := Some (c :: key) |}
           {| Analyze.httpMethod := lit "POST";
              Analyze.event_body := Some (lit "null") |})
    = (Throw (Exn (TypeErrorMessage (lit "mode"))), [])
    /\ run (Api.handler create
              {| Api.ANTHROPIC_API_KEY := Some (c :: key) |}
              {| Api.method := lit "POST"; Api.request_text := lit "null" |})
       = (Throw (Exn (TypeErrorMessage (lit "mode"))), [])
    /\ run (Analyze.handler fetch
              {| Analyze.ANTHROPIC_API_KEY := Some (c :: key) |}
              {| Analyze.httpMethod := lit "POST";
                 Analyze.event_body :=
                   Some (alit "{'mode':'text','content':['Water','Glycerin']}") |})
       = (Throw (TypeError "trim"), []).
Proof.
  intros. repeat split.
Qed.

(** C2, as amended.  With the key absent from the environment: analyze.js
    answers every POST request with 500 and
    [{"error":"ANTHROPIC_API_KEY not set in environment variables"}].  The
    second handler, which reads the key after it has checked the body,
    answers a POST request with 400 and [{"error":"Invalid JSON body"}]
    when the body is not JSON, with 400 and
    [{"error":"Missing required fields: mode, content"}] when the body is
    JSON other than [null] without a truthy [mode] or [content], and with
    500 and [{"error":"API key not configured"}] when the body is JSON
    with a truthy [mode] and [content].  Neither handler calls the
    service, whatever the request. *)
Theorem missing_key_is_reported_without_a_call :
  forall fetch create aenv nenv ev req,
    Analyze.ANTHROPIC_API_KEY aenv = None ->
    Api.ANTHROPIC_API_KEY nenv = None ->
    (Analyze.httpMethod ev = lit "POST" ->
     run (Analyze.handler fetch aenv ev)
     = (Normal {| status := 500; headers := [];
                  body := error_body
                            (lit "ANTHROPIC_API_KEY not set in environment variables") |},
        []))
    /\ (Api.method req = lit "POST" ->
        JSON_parse (Api.body_text req) = None ->
        run (Api.handler create nenv req)
        = (Normal {| status := 400; headers := Api.json_headers;
                     body := error_body (lit "Invalid JSON body") |}, []))
    /\ (forall v,
          Api.method req = lit "POST" ->
          JSON_parse (Api.body_text req) = Some v -> v <> Null ->
          falsy (own v "mode") || falsy (own v "content") = true ->
          run (Api.handler create nenv req)
          = (Normal {| status := 400; headers := Api.json_headers;
                       body := error_body
                                 (lit "Missing required fields: mode, content") |},
             []))
    /\ (forall v mode content,
          Api.method req = lit "POST" ->
          JSON_parse (Api.body_text req) = Some v ->
          own v "mode" = Some mode -> truthy mode = true ->
          own v "content" = Some content -> truthy content = true ->
          run (Api.handler create nenv req)
          = (Normal {| status := 500; headers := Api.json_headers;
                       body := error_body (lit "API key not configured") |}, []))
    /\ snd (run (Analyze.handler fetch aenv ev)) = []
    /\ snd (run (Api.handler create nenv req)) = [].
Proof.
  intros fetch create aenv nenv ev req Ha Hn.
  split; [|split; [|split; [|split; [|split]]]].
  - intros Hm. now apply analyze_no_key.
  - intros Hm Hp. now apply api_invalid_json.
  - intros v Hm Hp Hv Hf. now apply (api_missing_fields create nenv req v).
  - intros v mode content Hm Hp Hmode Tm Hcontent Tc.
    now apply (api_no_key create nenv req v mode content).
  - unfold Analyze.handler. rewrite Ha.
    destruct (negb (str_eqb (Analyze.httpMethod ev) (lit "POST"))); reflexivity.
  - now apply api_no_key_no_call.
Qed.

(** C6, as amended.  A POST request whose body is JSON, not [null], and
    lacks a truthy [mode] or a truthy [content]: the second handler
    answers 400 with [{"error":"Missing required fields: mode, content"}];
    analyze.js answers 400 with [{"error":"Missing mode or content"}] when
    the key is configured; no call is made. *)
Theorem missing_fields_are_a_400 :
  (forall fetch env ev c key v,
      Analyze.httpMethod ev = lit "POST" ->
      Analyze.ANTHROPIC_API_KEY env = Some (c :: key) ->
      JSON_parse (Analyze.body_text ev) = Some v ->
      v <> Null ->
      falsy (own v "mode") || falsy (own v "content") = true ->
      run (Analyze.handler fetch env ev)
      = (Normal {| status := 400; headers := [];
                   body := error_body (lit "Missing mode or content") |}, []))
  /\ (forall create env req v,
      Api.method req = lit "POST" ->
      JSON_parse (Api.body_text req) = Some v ->
      v <> Null ->
      falsy (own v "mode") || falsy (own v "content") = true ->
      run (Api.handler create env req)
      = (Normal {| status := 400; headers := Api.json_headers;
                   body := error_body (lit "Missing required fields: mode, content") |},
         [])).
Proof.
  split.
  - intros. now apply (analyze_missing_fields fetch env ev c key v).
  - intros. now apply (api_missing_fields create env req v).
Qed.
End Requests.

(** C2, the claim as stated fails: without a key, the second handler
    answers a POST whose body is not JSON with 400, not with a 5xx. *)
Lemma missing_key_with_invalid_body_is_a_400 :
  run (Api.handler silent api_without_key (post (lit "not json")))
  = (Normal {| status := 400; headers := Api.json_headers;
               body := alit "{'error':'Invalid JSON body'}" |}, []).
Proof. vm_compute. reflexivity. Qed.

Lemma missing_key_is_reported_without_a_call_witness :
  run (Analyze.handler no_fetch without_key (as_event text_request))
  = (Normal {| status := 500; headers := [];
               body := error_body
                         (lit "ANTHROPIC_API_KEY not set in environment variables") |},
     [])
  /\ run (Api.handler silent api_without_key (post (lit "not json")))
     = (Normal {| status := 400; headers := Api.json_headers;
                  body := error_body (lit "Invalid JSON body") |}, [])
  /\ run (Api.handler silent api_without_key (post (alit "{'mode':'text'}")))
     = (Normal {| status := 400; headers := Api.json_headers;
                  body := error_body (lit "Missing required fields: mode, content") |},
        [])
  /\ run (Api.handler silent api_without_key text_request)
     = (Normal {| status := 500; headers := Api.json_headers;
                  body := error_body (lit "API key not configured") |}, [])
  /\ snd (run (Analyze.handler no_fetch without_key (as_event text_request))) = []
  /\ snd (run (Api.handler silent api_without_key text_request)) = [].
Proof.
  split; [|split; [|split; [|split; [|split]]]].
  - destruct (missing_key_is_reported_without_a_call no_fetch silent
                without_key api_without_key (as_event text_request) text_request
                eq_refl eq_refl) as (A & _).
    apply A; reflexivity.
  - destruct (missing_key_is_reported_without_a_call no_fetch silent
                without_key api_without_key (as_event text_request)
                (post (lit "not json")) eq_refl eq_refl) as (_ & A & _).
    apply A; vm_compute; reflexivity.
  - destruct (missing_key_is_reported_without_a_call no_fetch silent
                without_key api_without_key (as_event text_request)
                (post (alit "{'mode':'text'}")) eq_refl eq_refl) as (_ & _ & A & _).
    apply (A (Obj [(lit "mode", Str (lit "text"))]));
      try (vm_compute; reflexivity). discriminate.
  - destruct (missing_key_is_reported_without_a_call no_fetch silent
                without_key api_without_key (as_event text_request) text_request
                eq_refl eq_refl) as (_ & _ & _ & A & _).
    eapply A; vm_compute; reflexivity.
  - destruct (missing_key_is_reported_without_a_call no_fetch silent
                without_key api_without_key (as_event text_request) text_request
                eq_refl eq_refl) as (_ & _ & _ & _ & A & _).
    exact A.
  - destruct (missing_key_is_reported_without_a_call no_fetch silent
                without_key api_without_key (as_event text_request) text_request
                eq_refl eq_refl) as (_ & _ & _ & _ & _ & A).
    exact A.
Defined.

(** C6, the claim as stated fails: without a key, analyze.js answers a
    POST whose body [{}] has neither field with 500, not with a 4xx. *)
Lemma missing_fields_without_key_is_a_500 :
  run (Analyze.handler no_fetch without_key (as_event (post (lit "{}"))))
  = (Normal {| status := 500; headers := [];
               body := alit "{'error':'ANTHROPIC_API_KEY not set in environment variables'}" |},
     []).
Proof. vm_compute. reflexivity. Qed.

Lemma missing_fields_are_a_400_witness :
  run (Analyze.handler no_fetch with_key (as_event (post (alit "{'mode':'text'}"))))
  = (Normal {| status := 400; headers := [];
               body := error_body (lit "Missing mode or content") |}, [])
  /\ run (Api.handler silent api_with_key (post (alit "{'mode':'text'}")))
     = (Normal {| status := 400; headers := Api.json_headers;
                  body := error_body (lit "Missing required fields: mode, content") |},
        []).
Proof.
  destruct (@missing_fields_are_a_400 literal_engine) as (A & B).
  split.
  - eapply A; try (vm_compute; reflexivity). discriminate.
  - eapply B; try (vm_compute; reflexivity). discriminate.
Defined.

Section Replied.
Context {E : Engine}.

(** C1, as amended.  On every answer with status 200 the body is the
    serialisation, by [JSON.stringify], of the value [JSON.parse] gave for
    the cleaned text of the reply.  In analyze.js the cleaned text is the
    reply trimmed and stripped of its fences, and the value may be any
    JSON value.  In the second handler it is the span from the first
    opening brace to the last closing brace, and the value is an object.
    No handler looks at [ingredients]. *)
Theorem success_body_is_the_serialised_parse :
  (forall fetch env ev r calls,
      run (Analyze.handler fetch env ev) = (Normal r, calls) ->
      status r = 200%N ->
      exists rq resp data raw parsed,
        calls = [rq] /\ fetch rq = Normal resp /\ Analyze.ok resp = true
        /\ Analyze.json resp = Normal data
        /\ first_block_text data = Normal (Some (Str raw))
        /\ JSON_parse (Analyze.strip_fences (trim raw)) = Some parsed
        /\ body r = JSON_stringify parsed)
  /\ (forall create env req r calls,
      run (Api.handler create env req) = (Normal r, calls) ->
      status r = 200%N ->
      exists rq reply rawText span parsed,
        calls = [rq] /\ create rq = Normal reply
        /\ first_block_text reply = Normal (Some (Str rawText))
        /\ match_braces (Api.strip_fences rawText) = Some span
        /\ JSON_parse span = Some parsed
        /\ is_object parsed = true
        /\ body r = JSON_stringify parsed).
Proof.
  split.
  - intros fetch env ev r calls Hrun Hs.
    destruct (analyze_handler_cases fetch env ev) as [[_ H]|(rq & r' & _ & Hr & Ho)].
    + rewrite Hrun in H. unfold status_of in H. simpl in H. rewrite Hs in H.
      destruct H as [H|[H|[H|H]]]; discriminate.
    + rewrite Hrun in Hr. injection Hr as <- ->.
      inversion Ho as [e _ Hr|resp err _ _ _ Hr|resp data raw _ _ _ _ _ Hr
                       |resp data raw parsed Hf Hok Hj Hb Hp Hr];
        subst r; try discriminate.
      exists rq, resp, data, raw, parsed. repeat split; assumption.
  - intros create env req r calls Hrun Hs.
    destruct (api_handler_cases create env req) as [[_ H]|(rq & r' & _ & Hr & Ho)].
    + rewrite Hrun in H. unfold status_of in H. simpl in H. rewrite Hs in H.
      destruct H as [H|[H|[H|H]]]; discriminate.
    + rewrite Hrun in Hr. injection Hr as <- ->.
      inversion Ho as [e _ Hr|reply rawText span parsed Hc Hb Hm Hp Hr];
        subst r; try discriminate.
      exists rq, reply, rawText, span, parsed. repeat split; try assumption.
      destruct (match_braces_head _ _ Hm) as (t & ->).
      now apply (JSON_parse_brace t).
Qed.

(** C4, as amended.  A request that passes the checks, and a reply whose
    cleaned text does not parse: in analyze.js the reply trimmed and
    stripped of its fences is not JSON; in the second handler the reply
    has no span from an opening brace to a closing one, or the span is
    not JSON.  The handler answers 500 with an error body, throws
    nothing, and has called the service exactly once. *)
Theorem unparseable_reply_is_a_500 :
  (forall fetch env ev rq resp data raw,
      analyze_sends env ev rq ->
      fetch rq = Normal resp -> Analyze.ok resp = true ->
      Analyze.json resp = Normal data ->
      first_block_text data = Normal (Some (Str raw)) ->
      JSON_parse (Analyze.strip_fences (trim raw)) = None ->
      run (Analyze.handler fetch env ev)
      = (Normal
           {| status := 500; headers := [];
              body := JSON_stringify
                        (Obj [(lit "error", Str (lit "Failed to parse AI response as JSON"));
                              (lit "raw",
                               Str (slice0 500 (Analyze.strip_fences (trim raw))))]) |},
         [rq]))
  /\ (forall create env req rq reply rawText,
      api_sends env req rq ->
      create rq = Normal reply ->
      first_block_text reply = Normal (Some (Str rawText)) ->
      match match_braces (Api.strip_fences rawText) with
      | Some span => JSON_parse span
      | None => None
      end = None ->
      exists details,
        run (Api.handler create env req)
        = (Normal
             {| status := 500; headers := Api.json_headers;
                body := JSON_stringify
                          (Obj [(lit "error", Str (lit "Analysis failed"));
                                (lit "details", Str details)]) |},
           [rq])).
Proof.
  split.
  - intros fetch env ev rq resp data raw Hs Hf Hok Hj Hb Hp.
    destruct (analyze_sends_handler fetch env ev rq Hs) as (key & um & -> & ->).
    unfold run. rewrite (analyze_call_answered fetch key um [] resp data raw Hf Hok Hj Hb).
    unfold analyze_answer. now rewrite Hp.
  - intros create env req rq reply rawText Hs Hc Hb Hp.
    destruct (api_sends_handler create env req rq Hs) as (key & ms & -> & ->).
    unfold run. rewrite (api_call_answered create key ms [] reply rawText Hc Hb).
    unfold api_answer.
    destruct (match_braces (Api.strip_fences rawText)) as [span|].
    + rewrite Hp. eexists. reflexivity.
    + eexists. reflexivity.
Qed.

(** C5, as amended.  A reply that is an object text, from its opening
    brace to its closing brace, wrapped in fences that bound the reply
    (white space may surround the fences and the text).  analyze.js
    answers 200 with the serialisation of the parsed object when the
    opening fence has no tag or the tag [json] in any case.  The second
    handler does so whatever the tag, as long as the tag holds no opening
    brace and the object text holds no three backticks in a row. *)
Theorem fenced_object_is_returned :
  forall w0 tag w1 inner w2 w3 parsed,
    all_ws w0 = true -> all_ws w1 = true -> all_ws w2 = true -> all_ws w3 = true ->
    JSON_parse (braced inner) = Some parsed ->
    (tag = [] \/ is_json_tag tag = true ->
     forall fetch env ev rq resp data,
        analyze_sends env ev rq ->
        fetch rq = Normal resp -> Analyze.ok resp = true ->
        Analyze.json resp = Normal data ->
        first_block_text data
        = Normal (Some (Str (fenced w0 tag w1 (braced inner) w2 w3))) ->
        run (Analyze.handler fetch env ev)
        = (Normal {| status := 200; headers := Analyze.success_headers;
                     body := JSON_stringify parsed |}, [rq]))
    /\ (lacks 123 tag = true -> fence_free inner = true ->
        forall create env req rq reply,
          api_sends env req rq ->
          create rq = Normal reply ->
          first_block_text reply
          = Normal (Some (Str (fenced w0 tag w1 (braced inner) w2 w3))) ->
          run (Api.handler create env req)
          = (Normal {| status := 200; headers := Api.json_headers;
                       body := JSON_stringify parsed |}, [rq])).
Proof.
  intros w0 tag w1 inner w2 w3 parsed H0 H1 H2 H3 Hp. split.
  - intros Htag fetch env ev rq resp data Hs Hf Hok Hj Hb.
    destruct (analyze_sends_handler fetch env ev rq Hs) as (key & um & -> & ->).
    unfold run. rewrite (analyze_call_answered fetch key um [] resp data _ Hf Hok Hj Hb).
    unfold analyze_answer.
    now rewrite analyze_strip_fenced, Hp by assumption.
  - intros Htag Hfree create env req rq reply Hs Hc Hb.
    destruct (api_sends_handler create env req rq Hs) as (key & ms & -> & ->).
    unfold run. rewrite (api_call_answered create key ms [] reply _ Hc Hb).
    unfold api_answer.
    now rewrite api_fenced_found, Hp by assumption.
Qed.
End Replied.

Section Wording.
Context {E : Engine}.

Lemma split_on_length sep s :
  List.length (split_on sep s) = S (List.length (filter sep s)).
Proof.
  induction s as [|c s IH]; [reflexivity|]. simpl.
  destruct (sep c); simpl; [now rewrite IH|].
  destruct (split_on sep s) as [|seg segs]; [discriminate|]. exact IH.
Qed.

Lemma isProductName_count content :
  Analyze.isProductName content
  = Nat.leb (count_separators (trim content)) 2
    && Nat.ltb (List.length (trim content)) 80.
Proof.
  unfold Analyze.isProductName, count_separators. now rewrite split_on_length.
Qed.

Lemma truthy_string s : s <> [] -> truthy (Str s) = true.
Proof. destruct s; [contradiction|reflexivity]. Qed.

(** C3, as amended.  A request in text mode with a string for content
    that passes the checks.  analyze.js sends the product-name wording
    when the content, once trimmed, has at most 3 segments between commas
    and line feeds (at most 2 separators) and fewer than 80 code units,
    and the ingredient-list wording otherwise.  The second handler sends
    one wording, which names both cases, whatever the content. *)
Theorem text_mode_wording :
  (forall fetch env ev c key v content,
      Analyze.httpMethod ev = lit "POST" ->
      Analyze.ANTHROPIC_API_KEY env = Some (c :: key) ->
      JSON_parse (Analyze.body_text ev) = Some v ->
      own v "mode" = Some (Str (lit "text")) ->
      own v "content" = Some (Str content) -> content <> [] ->
      snd (run (Analyze.handler fetch env ev))
      = [Analyze.completion_request (c :: key)
           (Str (if Nat.leb (count_separators (trim content)) 2
                    && Nat.ltb (List.length (trim content)) 80
                 then Analyze.product_message content
                 else Analyze.ingredients_message content))])
  /\ (forall create env req c key v content,
      Api.method req = lit "POST" ->
      Api.ANTHROPIC_API_KEY env = Some (c :: key) ->
      JSON_parse (Api.body_text req) = Some v ->
      own v "mode" = Some (Str (lit "text")) ->
      own v "content" = Some (Str content) -> content <> [] ->
      snd (run (Api.handler create env req))
      = [{| Api.apiKey := c :: key;
            Api.params := Api.create_params
                            (Api.user (Str (Api.text_message content))) |}]).
Proof.
  split.
  - intros fetch env ev c key v content Hm Hk Hp Hmode Hcontent Hne.
    rewrite (analyze_reaches_call fetch env ev c key v _ _ Hm Hk Hp
               Hmode eq_refl Hcontent (truthy_string _ Hne)).
    unfold run, bind at 1, lift at 1.
    change (Analyze.build_userMessage (Str (lit "text")) (Str content) (own v "mimeType"))
      with (Normal (A:=value)
              (Str (if Analyze.isProductName content
                    then Analyze.product_message content
                    else Analyze.ingredients_message content))).
    rewrite isProductName_count.
    set (um := Str _).
    destruct (analyze_call_service fetch (c :: key) um []) as (r & Hr & _).
    now rewrite Hr.
  - intros create env req c key v content Hm Hk Hp Hmode Hcontent Hne.
    rewrite (api_reaches_call create env req c key v _ _ Hm Hk Hp
               Hmode eq_refl Hcontent (truthy_string _ Hne)).
    unfold run, bind at 1, lift at 1.
    change (Api.build_messages (Str (lit "text")) (Str content) (own v "mimeType"))
      with (Normal (A:=value) (Api.user (Str (Api.text_message content)))).
    set (ms := Api.user _).
    destruct (api_call_service create (c :: key) ms []) as (r & Hr & _).
    now rewrite Hr.
Qed.

End Wording.

Section Agreement.
Context {E : Engine}.

Lemma object_reply_analyze inner raw :
  object_reply inner raw -> Analyze.strip_fences (trim raw) = braced inner.
Proof.
  intros [w0 w3 H0 H3|w0 tag w1 w2 w3 H0 H1 H2 H3 Htag].
  - now apply analyze_strip_bare.
  - now apply analyze_strip_fenced.
Qed.

Lemma object_reply_api inner raw :
  object_reply inner raw -> fence_free inner = true ->
  Api.strip_fences raw = braced inner.
Proof.
  intros [w0 w3 H0 H3|w0 tag w1 w2 w3 H0 H1 H2 H3 Htag] Hfree.
  - now apply api_strip_bare.
  - now apply api_strip_fenced.
Qed.

(** With a string for content the message is always built. *)
Lemma analyze_sends_string env ev c key v mode content :
  Analyze.httpMethod ev = lit "POST" ->
  Analyze.ANTHROPIC_API_KEY env = Some (c :: key) ->
  JSON_parse (Analyze.body_text ev) = Some v ->
  own v "mode" = Some mode -> truthy mode = true ->
  own v "content" = Some (Str content) -> content <> [] ->
  exists rq, analyze_sends env ev rq.
Proof.
  intros Hm Hk Hp Hmode Tm Hcontent Hne.
  destruct (Analyze.build_userMessage mode (Str content) (own v "mimeType"))
    as [um|e] eqn:Hum.
  - eexists. exists c, key, v, mode, (Str content), um.
    repeat split; eauto using truthy_string.
  - unfold Analyze.build_userMessage in Hum.
    destruct (is_string mode (lit "image")); discriminate.
Qed.

Lemma api_sends_string env req c key v mode content :
  Api.method req = lit "POST" ->
  Api.ANTHROPIC_API_KEY env = Some (c :: key) ->
  JSON_parse (Api.body_text req) = Some v ->
  own v "mode" = Some mode -> truthy mode = true ->
  own v "content" = Some (Str content) -> content <> [] ->
  exists rq, api_sends env req rq.
Proof.
  intros Hm Hk Hp Hmode Tm Hcontent Hne.
  destruct (Api.build_messages mode (Str content) (own v "mimeType"))
    as [ms|e] eqn:Hms.
  - eexists. exists c, key, v, mode, (Str content), ms.
    repeat split; eauto using truthy_string.
  - unfold Api.build_messages in Hms. simpl in Hms.
    destruct (is_string mode (lit "image")); [discriminate|].
    destruct (is_string mode (lit "product")); discriminate.
Qed.

Lemma drop_bom_free s : bom_free s = true -> Api.drop_bom s = s.
Proof.
  destruct s as [|c s]; [reflexivity|]. simpl.
  now destruct (N.eqb c 65279).
Qed.

Lemma body_text_bom_free req :
  bom_free (Api.request_text req) = true -> Api.body_text req = Api.request_text req.
Proof. apply drop_bom_free. Qed.

(** C9, as amended.  With the same key configured for both, the two
    handlers answer the same request with the same status in these
    cases: 405 when the method is not POST; and, when the body does not
    start with a byte order mark, 400 when the body is not JSON, or is
    JSON other than [null] without a truthy [mode] and [content]; and,
    for a request with a truthy [mode] and a string that is not empty
    for [content], 500 when the service cannot be reached or refuses,
    and 200 with the same body when the text of the reply is an object
    text, bare or in fences with no tag or the tag [json], that holds no
    three backticks in a row. *)
Theorem handlers_agree_on_common_cases :
  forall u aenv nenv c key req,
    Analyze.ANTHROPIC_API_KEY aenv = Some (c :: key) ->
    Api.ANTHROPIC_API_KEY nenv = Some (c :: key) ->
    (Api.method req <> lit "POST" -> agree_on u aenv nenv req 405)
    /\ (Api.method req = lit "POST" ->
        bom_free (Api.request_text req) = true ->
        JSON_parse (Api.request_text req) = None ->
        agree_on u aenv nenv req 400)
    /\ (forall v,
          Api.method req = lit "POST" ->
          bom_free (Api.request_text req) = true ->
          JSON_parse (Api.request_text req) = Some v -> v <> Null ->
          falsy (own v "mode") || falsy (own v "content") = true ->
          agree_on u aenv nenv req 400)
    /\ (forall v mode content,
          Api.method req = lit "POST" ->
          bom_free (Api.request_text req) = true ->
          JSON_parse (Api.request_text req) = Some v ->
          own v "mode" = Some mode -> truthy mode = true ->
          own v "content" = Some (Str content) -> content <> [] ->
          (forall e, u = Unreachable e -> agree_on u aenv nenv req 500)
          /\ (forall b e, u = Refused b e -> agree_on u aenv nenv req 500)
          /\ (forall b data raw inner parsed,
                u = Answered b ->
                JSON_parse b = Some data ->
                first_block_text data = Normal (Some (Str raw)) ->
                object_reply inner raw -> fence_free inner = true ->
                JSON_parse (braced inner) = Some parsed ->
                agree_on u aenv nenv req 200
                /\ body_of (run (Analyze.handler (as_fetch u) aenv (as_event req)))
                   = Some (JSON_stringify parsed)
                /\ body_of (run (Api.handler (as_create u) nenv req))
                   = Some (JSON_stringify parsed))).
Proof.
  intros u aenv nenv c key req Ha Hn. unfold agree_on.
  split; [|split; [|split]].
  - intros Hm. split.
    + now rewrite (analyze_not_post (as_fetch u) aenv (as_event req) Hm).
    + now rewrite (api_not_post (as_create u) nenv req Hm).
  - intros Hm Hbom Hp.
    assert (Hq := Hp). rewrite <- (body_text_bom_free req Hbom) in Hq. split.
    + now rewrite (analyze_invalid_json (as_fetch u) aenv (as_event req) c key Hm Ha Hp).
    + now rewrite (api_invalid_json (as_create u) nenv req Hm Hq).
  - intros v Hm Hbom Hp Hv Hf.
    assert (Hq := Hp). rewrite <- (body_text_bom_free req Hbom) in Hq. split.
    + now rewrite (analyze_missing_fields (as_fetch u) aenv (as_event req) c key v
                     Hm Ha Hp Hv Hf).
    + now rewrite (api_missing_fields (as_create u) nenv req v Hm Hq Hv Hf).
  - intros v mode content Hm Hbom Hp Hmode Tm Hcontent Hne.
    assert (Hq := Hp). rewrite <- (body_text_bom_free req Hbom) in Hq.
    destruct (analyze_sends_string aenv (as_event req) c key v mode content
                Hm Ha Hp Hmode Tm Hcontent Hne) as (arq & Hsa).
    destruct (api_sends_string nenv req c key v mode content
                Hm Hn Hq Hmode Tm Hcontent Hne) as (nrq & Hsn).
    destruct (analyze_sends_handler (as_fetch u) aenv (as_event req) arq Hsa)
      as (akey & um & -> & ->).
    destruct (api_sends_handler (as_create u) nenv req nrq Hsn)
      as (nkey & ms & -> & ->).
    unfold run. split; [|split].
    + intros e ->. split.
      * now rewrite (analyze_call_unreachable _ akey um [] e eq_refl).
      * now rewrite (api_call_failed _ nkey ms [] e eq_refl).
    + intros b e ->. split.
      * now rewrite (analyze_call_refused _ akey um []
                       {| Analyze.ok := false; Analyze.text := Normal b |} b
                       eq_refl eq_refl eq_refl).
      * now rewrite (api_call_failed _ nkey ms [] e eq_refl).
    + intros b data raw inner parsed -> Hb Hraw Hobj Hfree Hparsed.
      assert (Hj : Analyze.json {| Analyze.ok := true; Analyze.text := Normal b |}
                   = Normal data).
      { unfold Analyze.json. simpl. now rewrite Hb. }
      assert (Hc : as_create (Answered b)
                     {| Api.apiKey := nkey; Api.params := Api.create_params ms |}
                   = Normal data).
      { simpl. now rewrite Hb. }
      rewrite (analyze_call_answered (as_fetch (Answered b)) akey um [] _ data raw
                 eq_refl eq_refl Hj Hraw).
      rewrite (api_call_answered (as_create (Answered b)) nkey ms [] data raw Hc Hraw).
      unfold analyze_answer, api_answer, status_of, body_of. simpl.
      rewrite (object_reply_analyze _ _ Hobj), (object_reply_api _ _ Hobj Hfree).
      rewrite match_braces_braced, Hparsed. simpl. auto.
Qed.

(** A further property.  Whatever the service does, a request that passes
    the checks gets an answer, 200 or 500, after exactly one call; every
    error raised while calling the service or reading its reply is
    caught. *)
Theorem errors_after_the_call_are_caught :
  (forall fetch env ev rq,
      analyze_sends env ev rq ->
      exists r, run (Analyze.handler fetch env ev) = (Normal r, [rq])
                /\ (status r = 200%N \/ status r = 500%N))
  /\ (forall create env req rq,
      api_sends env req rq ->
      exists r, run (Api.handler create env req) = (Normal r, [rq])
                /\ (status r = 200%N \/ status r = 500%N)).
Proof.
  split.
  - intros fetch env ev rq Hs.
    destruct (analyze_sends_run fetch env ev rq Hs) as (r & Hr & Ho).
    exists r. split; [assumption|]. destruct Ho; simpl; auto.
  - intros create env req rq Hs.
    destruct (api_sends_run create env req rq Hs) as (r & Hr & Ho).
    exists r. split; [assumption|]. destruct Ho; simpl; auto.
Qed.

(** A further property.  Both handlers answer 405, without a call, to every
    request whose method is not POST. *)
Theorem not_post_is_a_405 :
  (forall fetch env ev,
      Analyze.httpMethod ev <> lit "POST" ->
      status_of (run (Analyze.handler fetch env ev)) = Some 405%N
      /\ snd (run (Analyze.handler fetch env ev)) = [])
  /\ (forall create env req,
      Api.method req <> lit "POST" ->
      status_of (run (Api.handler create env req)) = Some 405%N
      /\ snd (run (Api.handler create env req)) = []).
Proof.
  split.
  - intros fetch env ev H. now rewrite (analyze_not_post fetch env ev H).
  - intros create env req H. now rewrite (api_not_post create env req H).
Qed.
End Agreement.
(** ** The claims on sample inputs *)

Lemma analyze_sends_sample :
  analyze_sends with_key sample_event sample_fetch_request.
Proof.
  exists 115%N, (lit "k-sample"),
    (Obj [(lit "mode", Str (lit "text")); (lit "content", Str (lit "Water, Glycerin"))]),
    (Str (lit "text")), (Str (lit "Water, Glycerin")),
    (Str (Analyze.product_message (lit "Water, Glycerin"))).
  repeat split; vm_compute; reflexivity.
Qed.

Lemma api_sends_sample :
  api_sends api_with_key text_request sample_create_request.
Proof.
  exists 115%N, (lit "k-sample"),
    (Obj [(lit "mode", Str (lit "text")); (lit "content", Str (lit "Water, Glycerin"))]),
    (Str (lit "text")), (Str (lit "Water, Glycerin")),
    (Api.user (Str (Api.text_message (lit "Water, Glycerin")))).
  repeat split; vm_compute; reflexivity.
Qed.

(** C1, the claim as stated fails: when the reply is the object
    [{"ingredients":"none"}], both handlers answer 200 with that object,
    whose [ingredients] is not an array. *)
Lemma success_with_ingredients_not_an_array :
  run (Analyze.handler (as_fetch (replies (alit "{'ingredients':'none'}")))
         with_key sample_event)
  = (Normal {| status := 200; headers := Analyze.success_headers;
               body := alit "{'ingredients':'none'}" |},
     [sample_fetch_request])
  /\ run (Api.handler (as_create (replies (alit "{'ingredients':'none'}")))
            api_with_key text_request)
     = (Normal {| status := 200; headers := Api.json_headers;
                  body := alit "{'ingredients':'none'}" |},
        [sample_create_request])
  /\ top_level_shape (alit "{'ingredients':'none'}") = false.
Proof. repeat split; vm_compute; reflexivity. Qed.

Lemma success_body_is_the_serialised_parse_witness :
  (exists rq resp data raw parsed,
      [sample_fetch_request] = [rq]
      /\ as_fetch (replies (alit "{'ingredients':[]}")) rq = Normal resp
      /\ Analyze.ok resp = true
      /\ Analyze.json resp = Normal data
      /\ first_block_text data = Normal (Some (Str raw))
      /\ JSON_parse (Analyze.strip_fences (trim raw)) = Some parsed
      /\ alit "{'ingredients':[]}" = JSON_stringify parsed)
  /\ (exists rq reply rawText span parsed,
      [sample_create_request] = [rq]
      /\ as_create (replies (alit "{'ingredients':[]}")) rq = Normal reply
      /\ first_block_text reply = Normal (Some (Str rawText))
      /\ match_braces (Api.strip_fences rawText) = Some span
      /\ JSON_parse span = Some parsed
      /\ is_object parsed = true
      /\ alit "{'ingredients':[]}" = JSON_stringify parsed).
Proof.
  destruct (@success_body_is_the_serialised_parse literal_engine) as (A & B).
  split.
  - apply (A (as_fetch (replies (alit "{'ingredients':[]}"))) with_key sample_event
             {| status := 200; headers := Analyze.success_headers;
                body := alit "{'ingredients':[]}" |}
             [sample_fetch_request]).
    + vm_compute. reflexivity.
    + reflexivity.
  - apply (B (as_create (replies (alit "{'ingredients':[]}"))) api_with_key text_request
             {| status := 200; headers := Api.json_headers;
                body := alit "{'ingredients':[]}" |}
             [sample_create_request]).
    + vm_compute. reflexivity.
    + reflexivity.
Defined.

(** C4, the claim as stated fails: the reply [[]] is not an object, bare
    or between braces, yet analyze.js answers it with 200. *)
Lemma array_reply_is_answered_with_200 :
  run (Analyze.handler (as_fetch (replies (lit "[]"))) with_key sample_event)
  = (Normal {| status := 200; headers := Analyze.success_headers;
               body := lit "[]" |},
     [sample_fetch_request])
  /\ JSON_parse (Analyze.strip_fences (trim (lit "[]"))) = Some (Arr [])
  /\ match_braces (Api.strip_fences (lit "[]")) = None.
Proof. repeat split; vm_compute; reflexivity. Qed.

Lemma unparseable_reply_is_a_500_witness :
  run (Analyze.handler (as_fetch (replies (lit "I cannot read this label.")))
         with_key sample_event)
  = (Normal
       {| status := 500; headers := [];
          body := JSON_stringify
                    (Obj [(lit "error", Str (lit "Failed to parse AI response as JSON"));
                          (lit "raw",
                           Str (slice0 500
                                  (Analyze.strip_fences
                                     (trim (lit "I cannot read this label.")))))]) |},
     [sample_fetch_request])
  /\ exists details,
       run (Api.handler (as_create (replies (lit "I cannot read this label.")))
              api_with_key text_request)
       = (Normal
            {| status := 500; headers := Api.json_headers;
               body := JSON_stringify
                         (Obj [(lit "error", Str (lit "Analysis failed"));
                               (lit "details", Str details)]) |},
          [sample_create_request]).
Proof.
  destruct (@unparseable_reply_is_a_500 literal_engine) as (A & B).
  split.
  - apply (A _ with_key sample_event sample_fetch_request
             (fetched (lit "I cannot read this label."))
             (message_with (lit "I cannot read this label."))
             (lit "I cannot read this label.") analyze_sends_sample);
      vm_compute; reflexivity.
  - apply (B _ api_with_key text_request sample_create_request
             (message_with (lit "I cannot read this label."))
             (lit "I cannot read this label.") api_sends_sample);
      vm_compute; reflexivity.
Defined.
(** C5, the claim as stated fails.  An object in fences tagged
    [javascript] is answered with 500 by analyze.js.  The second handler
    takes the three backticks, and the white space after them, out of the
    strings of a fenced object; and it answers 500 when the tag holds an
    opening brace, which it takes for the start of the object. *)
Lemma fenced_object_is_not_always_returned :
  run (Analyze.handler
         (as_fetch (replies (fenced [] (lit "javascript") nl (braced []) nl [])))
         with_key sample_event)
  = (Normal
       {| status := 500; headers := [];
          body := alit "{'error':'Failed to parse AI response as JSON','raw':'javascript\n{}'}" |},
     [sample_fetch_request])
  /\ JSON_parse (braced []) = Some (Obj [])
  /\ run (Api.handler
            (as_create (replies (in_json_fences (alit "'note':'use ```code``` here'"))))
            api_with_key text_request)
     = (Normal {| status := 200; headers := Api.json_headers;
                  body := alit "{'note':'use codehere'}" |},
        [sample_create_request])
  /\ JSON_stringify (Obj [(lit "note", Str (lit "use ```code``` here"))])
     = alit "{'note':'use ```code``` here'}"
  /\ JSON_parse (braced (alit "'note':'use ```code``` here'"))
     = Some (Obj [(lit "note", Str (lit "use ```code``` here"))])
  /\ status_of (run (Api.handler
                       (as_create (replies (fenced [] (lit "{js") nl (braced []) nl [])))
                       api_with_key text_request)) = Some 500%N.
Proof. repeat split; vm_compute; reflexivity. Qed.

Lemma fenced_object_is_returned_witness :
  run (Analyze.handler (as_fetch (replies (in_json_fences (alit "'ingredients':[]"))))
         with_key sample_event)
  = (Normal {| status := 200; headers := Analyze.success_headers;
               body := JSON_stringify (Obj [(lit "ingredients", Arr [])]) |},
     [sample_fetch_request])
  /\ run (Api.handler
            (as_create (replies (fenced [] (lit "javascript") nl
                                   (braced (alit "'ingredients':[]")) nl [])))
            api_with_key text_request)
     = (Normal {| status := 200; headers := Api.json_headers;
                  body := JSON_stringify (Obj [(lit "ingredients", Arr [])]) |},
        [sample_create_request]).
Proof.
  split.
  - destruct (@fenced_object_is_returned literal_engine
                [] json_tag nl (alit "'ingredients':[]") nl []
                (Obj [(lit "ingredients", Arr [])])
                eq_refl eq_refl eq_refl eq_refl eq_refl) as (A & _).
    apply (A (or_intror eq_refl) _ with_key sample_event sample_fetch_request
             (fetched (in_json_fences (alit "'ingredients':[]")))
             (message_with (in_json_fences (alit "'ingredients':[]")))
             analyze_sends_sample);
      vm_compute; reflexivity.
  - destruct (@fenced_object_is_returned literal_engine
                [] (lit "javascript") nl (alit "'ingredients':[]") nl []
                (Obj [(lit "ingredients", Arr [])])
                eq_refl eq_refl eq_refl eq_refl eq_refl) as (_ & B).
    apply (B eq_refl eq_refl _ api_with_key text_request sample_create_request
             (message_with (fenced [] (lit "javascript") nl
                              (braced (alit "'ingredients':[]")) nl []))
             api_sends_sample);
      vm_compute; reflexivity.
Defined.

(** C3, the claim as stated fails.  A short name followed by three line
    feeds has four segments as it was sent, yet analyze.js, which trims
    first, words it as a product name; and the second handler words a
    short name in text mode otherwise than in product mode. *)
Lemma text_mode_is_not_the_stated_heuristic :
  short_product_name (lit "CeraVe Cream" ++ nl ++ nl ++ nl) = false
  /\ Analyze.build_userMessage (Str (lit "text"))
       (Str (lit "CeraVe Cream" ++ nl ++ nl ++ nl)) None
     = Normal (Str (Analyze.product_message (lit "CeraVe Cream" ++ nl ++ nl ++ nl)))
  /\ short_product_name (lit "CeraVe Moisturizing Cream") = true
  /\ Api.build_messages (Str (lit "text")) (Str (lit "CeraVe Moisturizing Cream")) None
     = Normal (Api.user (Str (Api.text_message (lit "CeraVe Moisturizing Cream"))))
  /\ Api.build_messages (Str (lit "product")) (Str (lit "CeraVe Moisturizing Cream")) None
     = Normal (Api.user (Str (Api.product_message (lit "CeraVe Moisturizing Cream"))))
  /\ str_eqb (Api.text_message (lit "CeraVe Moisturizing Cream"))
       (Api.product_message (lit "CeraVe Moisturizing Cream")) = false.
Proof. repeat split; vm_compute; reflexivity. Qed.

Lemma text_mode_wording_witness :
  snd (run (Analyze.handler no_fetch with_key sample_event))
  = [Analyze.completion_request sample_key
       (Str (if Nat.leb (count_separators (trim (lit "Water, Glycerin"))) 2
                && Nat.ltb (List.length (trim (lit "Water, Glycerin"))) 80
             then Analyze.product_message (lit "Water, Glycerin")
             else Analyze.ingredients_message (lit "Water, Glycerin")))]
  /\ snd (run (Api.handler silent api_with_key text_request))
     = [sample_create_request].
Proof.
  destruct (@text_mode_wording literal_engine) as (A & B).
  split.
  - apply (A no_fetch with_key sample_event 115%N (lit "k-sample")
             (Obj [(lit "mode", Str (lit "text"));
                   (lit "content", Str (lit "Water, Glycerin"))]));
      try (vm_compute; reflexivity). discriminate.
  - apply (B silent api_with_key text_request 115%N (lit "k-sample")
             (Obj [(lit "mode", Str (lit "text"));
                   (lit "content", Str (lit "Water, Glycerin"))]));
      try (vm_compute; reflexivity). discriminate.
Defined.

(** C9, the claim as stated fails: when the reply puts a sentence before
    the object, analyze.js answers 500 and the second handler 200; and
    when the body of the request starts with a byte order mark, which
    [req.json()] drops and [JSON.parse] does not, analyze.js answers 400
    and the second handler 200. *)
Lemma handlers_differ_outside_the_common_cases :
  (status_of (run (Analyze.handler
                     (as_fetch (replies (alit "Here is the analysis: {'ingredients':[]}")))
                     with_key sample_event)) = Some 500%N
   /\ status_of (run (Api.handler
                        (as_create (replies (alit "Here is the analysis: {'ingredients':[]}")))
                        api_with_key text_request)) = Some 200%N)
  /\ (bom_free (Api.request_text marked_text_request) = false
      /\ status_of (run (Analyze.handler
                           (as_fetch (replies (alit "{'ingredients':[]}")))
                           with_key (as_event marked_text_request))) = Some 400%N
      /\ status_of (run (Api.handler
                           (as_create (replies (alit "{'ingredients':[]}")))
                           api_with_key marked_text_request)) = Some 200%N).
Proof. repeat split; vm_compute; reflexivity. Qed.

Lemma handlers_agree_on_common_cases_witness :
  agree_on (Unreachable (Exn [])) with_key api_with_key
    {| Api.method := lit "GET"; Api.request_text := [] |} 405
  /\ agree_on (Unreachable (Exn [])) with_key api_with_key (post (lit "not json")) 400
  /\ agree_on (Unreachable (Exn [])) with_key api_with_key (post (lit "{}")) 400
  /\ agree_on (Unreachable (Exn (lit "network"))) with_key api_with_key text_request 500
  /\ agree_on (Refused (lit "overloaded") (Exn (lit "529"))) with_key api_with_key
       text_request 500
  /\ agree_on (replies (in_json_fences (alit "'ingredients':[]"))) with_key api_with_key
       text_request 200.
Proof.
  pose (v := Obj [(lit "mode", Str (lit "text"));
                  (lit "content", Str (lit "Water, Glycerin"))]).
  assert (Hne : lit "Water, Glycerin" <> []) by discriminate.
  split; [|split; [|split; [|split; [|split]]]].
  - destruct (@handlers_agree_on_common_cases literal_engine
                (Unreachable (Exn [])) with_key api_with_key 115%N (lit "k-sample")
                {| Api.method := lit "GET"; Api.request_text := [] |} eq_refl eq_refl)
      as (A & _).
    apply A. discriminate.
  - destruct (@handlers_agree_on_common_cases literal_engine
                (Unreachable (Exn [])) with_key api_with_key 115%N (lit "k-sample")
                (post (lit "not json")) eq_refl eq_refl) as (_ & A & _).
    apply A; reflexivity.
  - destruct (@handlers_agree_on_common_cases literal_engine
                (Unreachable (Exn [])) with_key api_with_key 115%N (lit "k-sample")
                (post (lit "{}")) eq_refl eq_refl) as (_ & _ & A & _).
    apply (A (Obj [])); try reflexivity. discriminate.
  - destruct (@handlers_agree_on_common_cases literal_engine
                (Unreachable (Exn (lit "network"))) with_key api_with_key
                115%N (lit "k-sample") text_request eq_refl eq_refl) as (_ & _ & _ & A).
    destruct (A v (Str (lit "text")) (lit "Water, Glycerin")
                eq_refl eq_refl eq_refl eq_refl eq_refl eq_refl Hne) as (B & _).
    apply (B (Exn (lit "network"))). reflexivity.
  - destruct (@handlers_agree_on_common_cases literal_engine
                (Refused (lit "overloaded") (Exn (lit "529"))) with_key api_with_key
                115%N (lit "k-sample") text_request eq_refl eq_refl) as (_ & _ & _ & A).
    destruct (A v (Str (lit "text")) (lit "Water, Glycerin")
                eq_refl eq_refl eq_refl eq_refl eq_refl eq_refl Hne) as (_ & B & _).
    apply (B (lit "overloaded") (Exn (lit "529"))). reflexivity.
  - destruct (@handlers_agree_on_common_cases literal_engine
                (replies (in_json_fences (alit "'ingredients':[]")))
                with_key api_with_key
                115%N (lit "k-sample") text_request eq_refl eq_refl) as (_ & _ & _ & A).
    destruct (A v (Str (lit "text")) (lit "Water, Glycerin")
                eq_refl eq_refl eq_refl eq_refl eq_refl eq_refl Hne) as (_ & _ & B).
    destruct (B (JSON_stringify (message_with (in_json_fences (alit "'ingredients':[]"))))
                (message_with (in_json_fences (alit "'ingredients':[]")))
                (in_json_fences (alit "'ingredients':[]"))
                (alit "'ingredients':[]")
                (Obj [(lit "ingredients", Arr [])])) as (C & _); try reflexivity.
    + apply (fenced_object (alit "'ingredients':[]") [] json_tag nl nl []);
        try reflexivity. now right.
    + exact C.
Defined.

Lemma errors_after_the_call_are_caught_witness :
  (exists r,
      run (Analyze.handler no_fetch with_key sample_event)
      = (Normal r, [sample_fetch_request])
      /\ (status r = 200%N \/ status r = 500%N))
  /\ (exists r,
      run (Api.handler silent api_with_key text_request)
      = (Normal r, [sample_create_request])
      /\ (status r = 200%N \/ status r = 500%N)).
Proof.
  destruct (@errors_after_the_call_are_caught literal_engine) as (A & B).
  split.
  - exact (A no_fetch with_key sample_event sample_fetch_request analyze_sends_sample).
  - exact (B silent api_with_key text_request sample_create_request api_sends_sample).
Defined.

Lemma not_post_is_a_405_witness :
  (status_of (run (Analyze.handler no_fetch with_key
                     {| Analyze.httpMethod := lit "GET"; Analyze.event_body := None |}))
   = Some 405%N
   /\ snd (run (Analyze.handler no_fetch with_key
                  {| Analyze.httpMethod := lit "GET"; Analyze.event_body := None |}))
      = [])
  /\ (status_of (run (Api.handler silent api_with_key
                        {| Api.method := lit "PUT"; Api.request_text := lit "{}" |}))
      = Some 405%N
      /\ snd (run (Api.handler silent api_with_key
                     {| Api.method := lit "PUT"; Api.request_text := lit "{}" |}))
         = []).
Proof.
  destruct (@not_post_is_a_405 literal_engine) as (A & B).
  split.
  - apply A. discriminate.
  - apply B. discriminate.
Defined.

(** ** Further properties of the two handlers *)

Section Shapes.
Context {E : Engine}.

Lemma ensures_ret {R} (P : response -> Prop) (r : response) :
  P r -> ensures P (@ret R response r).
Proof. intros H calls r' calls' [= <- _]. exact H. Qed.

Lemma ensures_throw {R} (P : response -> Prop) (e : exn) :
  ensures P (@throw R response e).
Proof. intros calls r calls'. discriminate. Qed.

Lemma ensures_bind {R A} (P : response -> Prop) (m : M R A) (f : A -> M R response) :
  (forall a, ensures P (f a)) -> ensures P (bind m f).
Proof.
  intros Hf calls r calls'. unfold bind.
  destruct (m calls) as [[a|e] c0]; [apply Hf | discriminate].
Qed.

Lemma ensures_try {R} (P : response -> Prop) (m : M R response) (h : exn -> M R response) :
  ensures P m -> (forall e, ensures P (h e)) -> ensures P (try_catch m h).
Proof.
  intros Hm Hh calls r calls'. unfold try_catch.
  destruct (m calls) as [[a|e] c0] eqn:Hmc.
  - intros [= <- _]. eapply Hm. eassumption.
  - apply Hh.
Qed.

End Shapes.

Ltac ensures_step :=
  first
    [ apply ensures_throw
    | apply ensures_ret
    | apply ensures_bind; intros ?
    | apply ensures_try; [|intros ?]
    | match goal with
      | |- ensures _ (if ?b then _ else _) => destruct b
      | |- ensures _ (match ?x with _ => _ end) => destruct x
      end ].

Section HandlerShapes.
Context {E : Engine}.

Lemma analyze_handler_shape fetch env ev :
  ensures analyze_shape (Analyze.handler fetch env ev).
Proof.
  unfold Analyze.handler, Analyze.call_service, Analyze.read_reply, analyze_shape.
  repeat ensures_step; simpl; auto 6.
Qed.

Lemma api_handler_shape create env req :
  ensures api_shape (Api.handler create env req).
Proof.
  unfold Api.handler, Api.call_service, Api.read_reply, api_shape.
  repeat ensures_step; simpl; auto 6.
Qed.
End HandlerShapes.

Section Answers.
Context {E : Engine}.

(** X3.  A POST request whose body is not JSON is answered with 400 and
    [{"error":"Invalid JSON body"}], without a call: by analyze.js when
    the key is configured, by the second handler whether it is or not.
    analyze.js parses the body as it stands; the second handler parses
    what [req.json()] reads, the body without a leading byte order
    mark. *)
Theorem invalid_json_body_is_a_400 :
  (forall fetch env ev c key,
      Analyze.httpMethod ev = lit "POST" ->
      Analyze.ANTHROPIC_API_KEY env = Some (c :: key) ->
      JSON_parse (Analyze.body_text ev) = None ->
      run (Analyze.handler fetch env ev)
      = (Normal {| status := 400; headers := [];
                   body := error_body (lit "Invalid JSON body") |}, []))
  /\ (forall create env req,
      Api.method req = lit "POST" ->
      JSON_parse (Api.body_text req) = None ->
      run (Api.handler create env req)
      = (Normal {| status := 400; headers := Api.json_headers;
                   body := error_body (lit "Invalid JSON body") |}, [])).
Proof.
  split.
  - intros. now apply (analyze_invalid_json fetch env ev c key).
  - intros. now apply api_invalid_json.
Qed.

(** X4.  Whatever the request, the configuration and the service: a
    handler calls the service at most once; when it throws it has made no
    call; the status of its answer is 200, 400, 405 or 500; and it
    answers 200 only after a call. *)
Theorem one_call_at_most_and_four_statuses :
  (forall fetch env ev,
      List.length (snd (run (Analyze.handler fetch env ev))) <= 1
      /\ (forall e, fst (run (Analyze.handler fetch env ev)) = Throw e ->
                    snd (run (Analyze.handler fetch env ev)) = [])
      /\ (forall r, fst (run (Analyze.handler fetch env ev)) = Normal r ->
                    In (status r) [200; 400; 405; 500]%N
                    /\ (status r = 200%N ->
                        List.length (snd (run (Analyze.handler fetch env ev))) = 1)))
  /\ (forall create env req,
      List.length (snd (run (Api.handler create env req))) <= 1
      /\ (forall e, fst (run (Api.handler create env req)) = Throw e ->
                    snd (run (Api.handler create env req)) = [])
      /\ (forall r, fst (run (Api.handler create env req)) = Normal r ->
                    In (status r) [200; 400; 405; 500]%N
                    /\ (status r = 200%N ->
                        List.length (snd (run (Api.handler create env req))) = 1))).
Proof.
  split.
  - intros fetch env ev.
    destruct (analyze_handler_cases fetch env ev)
      as [[Hc Hs]|(rq & r' & _ & Hr & Ho)].
    + rewrite Hc. split; [simpl; lia|]. split; [reflexivity|].
      intros r Hr. unfold status_of in Hs. rewrite Hr in Hs.
      destruct Hs as [H|[H|[H|H]]]; try discriminate;
        injection H as H; rewrite H; simpl; split; auto; discriminate.
    + rewrite Hr. simpl. split; [lia|]. split; [discriminate|].
      intros r [= <-]. split; [|reflexivity].
      destruct Ho; simpl; auto.
  - intros create env req.
    destruct (api_handler_cases create env req)
      as [[Hc Hs]|(rq & r' & _ & Hr & Ho)].
    + rewrite Hc. split; [simpl; lia|]. split; [reflexivity|].
      intros r Hr. unfold status_of in Hs. rewrite Hr in Hs.
      destruct Hs as [H|[H|[H|H]]]; try discriminate;
        injection H as H; rewrite H; simpl; split; auto; discriminate.
    + rewrite Hr. simpl. split; [lia|]. split; [discriminate|].
      intros r [= <-]. split; [|reflexivity].
      destruct Ho; simpl; auto.
Qed.

(** X5.  analyze.js sets its two headers, the JSON content type and the
    permission for any origin, on its answers with status 200 and on no
    other: every other answer has no header.  The second handler sets the
    JSON content type on every answer but the 405, which has no header,
    and never sets the permission. *)
Theorem headers_follow_the_status :
  (forall fetch env ev r calls,
      run (Analyze.handler fetch env ev) = (Normal r, calls) ->
      (status r = 200%N -> headers r = Analyze.success_headers)
      /\ (status r <> 200%N -> headers r = []))
  /\ (forall create env req r calls,
      run (Api.handler create env req) = (Normal r, calls) ->
      (status r = 405%N -> headers r = [])
      /\ (status r <> 405%N -> headers r = Api.json_headers)).
Proof.
  split.
  - intros fetch env ev r calls Hr.
    destruct (analyze_handler_shape fetch env ev [] r calls Hr)
      as [[Hs Hh]|[Hs Hh]]; split; intros H; try assumption.
    + contradiction.
    + destruct Hs as [Hs|[Hs|Hs]]; rewrite Hs in H; discriminate.
  - intros create env req r calls Hr.
    destruct (api_handler_shape create env req [] r calls Hr)
      as [[Hs Hh]|[Hs Hh]]; split; intros H; try assumption.
    + contradiction.
    + destruct Hs as [Hs|[Hs|Hs]]; rewrite Hs in H; discriminate.
Qed.
End Answers.
Section Outbound.
Context {E : Engine}.

(** X6.  Every call analyze.js makes is a POST to
    [https://api.anthropic.com/v1/messages] that carries the configured
    key, which is not empty, in [x-api-key], and a JSON body with the
    model [claude-opus-4-5], a limit of 8192 tokens, the fixed system
    prompt and one user message.  Every call the second handler makes
    hands the configured key to the client library, with the model
    [claude-sonnet-4-20250514], the same limit and its own fixed prompt. *)
Theorem every_call_carries_the_configured_key :
  (forall fetch env ev rq,
      In rq (snd (run (Analyze.handler fetch env ev))) ->
      exists key userMessage,
        Analyze.ANTHROPIC_API_KEY env = Some key /\ key <> []
        /\ Analyze.url rq = lit "https://api.anthropic.com/v1/messages"
        /\ Analyze.method rq = lit "POST"
        /\ Analyze.request_headers rq
           = [(lit "Content-Type", lit "application/json");
              (lit "x-api-key", key);
              (lit "anthropic-version", lit "2023-06-01")]
        /\ Analyze.request_body rq
           = JSON_stringify
               (Obj [(lit "model", Str (lit "claude-opus-4-5"));
                     (lit "max_tokens", Num (StringToNumber (lit "8192")));
                     (lit "system", Str Analyze.systemPrompt);
                     (lit "messages",
                      Arr [Obj [(lit "role", Str (lit "user"));
                                (lit "content", userMessage)]])]))
  /\ (forall create env req rq,
      In rq (snd (run (Api.handler create env req))) ->
      exists key content,
        Api.ANTHROPIC_API_KEY env = Some key /\ key <> []
        /\ Api.apiKey rq = key
        /\ Api.params rq
           = Obj [(lit "model", Str (lit "claude-sonnet-4-20250514"));
                  (lit "max_tokens", Num (StringToNumber (lit "8192")));
                  (lit "system", Str Api.SYSTEM_PROMPT);
                  (lit "messages",
                   Arr [Obj [(lit "role", Str (lit "user"));
                             (lit "content", content)]])]).
Proof.
  split.
  - intros fetch env ev rq Hin.
    destruct (analyze_handler_cases fetch env ev)
      as [[Hc _]|(rq' & r & Hs & Hr & _)].
    + rewrite Hc in Hin. destruct Hin.
    + rewrite Hr in Hin. destruct Hin as [<-|[]].
      destruct Hs as (c & key & v & mode & content & um & _ & Hk & _ & _ & _ & _ & _ & _ & ->).
      exists (c :: key), um. repeat split; try assumption. discriminate.
  - intros create env req rq Hin.
    destruct (api_handler_cases create env req)
      as [[Hc _]|(rq' & r & Hs & Hr & _)].
    + rewrite Hc in Hin. destruct Hin.
    + rewrite Hr in Hin. destruct Hin as [<-|[]].
      destruct Hs as (c & key & v & mode & content & ms & _ & Hk & _ & Hmode & _
                      & Hcontent & _ & Hms & ->).
      unfold Api.build_messages in Hms.
      destruct (is_string mode (lit "image")).
      * injection Hms as <-. eexists (c :: key), _.
        repeat split; try assumption. discriminate.
      * destruct (Api.ToString content) as [s|e]; [|discriminate].
        destruct (is_string mode (lit "product")); injection Hms as <-;
          eexists (c :: key), _; repeat split; try assumption; discriminate.
Qed.

(** X7.  A request in image mode that passes the checks, whatever the
    type of its content.  Both handlers send a user message of two
    blocks: the image, base64, with the content as its data and the given
    [mimeType] as its media type, or [image/jpeg] when [mimeType] is
    missing or falsy; then the fixed instruction.  The media type sent is
    never falsy, and nothing is thrown before the call. *)
Theorem image_mode_message :
  forall v content,
    own v "mode" = Some (Str (lit "image")) ->
    own v "content" = Some content -> truthy content = true ->
    truthy (or_default (own v "mimeType") (Str (lit "image/jpeg"))) = true
    /\ (forall fetch env ev c key,
          Analyze.httpMethod ev = lit "POST" ->
          Analyze.ANTHROPIC_API_KEY env = Some (c :: key) ->
          JSON_parse (Analyze.body_text ev) = Some v ->
          snd (run (Analyze.handler fetch env ev))
          = [Analyze.completion_request (c :: key)
               (Arr [Obj [(lit "type", Str (lit "image"));
                          (lit "source",
                           Obj [(lit "type", Str (lit "base64"));
                                (lit "media_type",
                                 or_default (own v "mimeType") (Str (lit "image/jpeg")));
                                (lit "data", content)])];
                     Obj [(lit "type", Str (lit "text"));
                          (lit "text", Str Analyze.image_instruction)]])])
    /\ (forall create env req c key,
          Api.method req = lit "POST" ->
          Api.ANTHROPIC_API_KEY env = Some (c :: key) ->
          JSON_parse (Api.body_text req) = Some v ->
          snd (run (Api.handler create env req))
          = [{| Api.apiKey := c :: key;
                Api.params :=
                  Api.create_params
                    (Api.user
                       (Arr [Obj [(lit "type", Str (lit "image"));
                                  (lit "source",
                                   Obj [(lit "type", Str (lit "base64"));
                                        (lit "media_type",
                                         or_default (own v "mimeType")
                                           (Str (lit "image/jpeg")));
                                        (lit "data", content)])];
                             Obj [(lit "type", Str (lit "text"));
                                  (lit "text", Str Api.image_instruction)]])) |}]).
Proof.
  intros v content Hmode Hcontent Tc. split; [|split].
  - unfold or_default. destruct (own v "mimeType") as [mt|]; [|reflexivity].
    destruct (truthy mt) eqn:Hmt; [assumption|reflexivity].
  - intros fetch env ev c key Hm Hk Hp.
    rewrite (analyze_reaches_call fetch env ev c key v _ _ Hm Hk Hp
               Hmode eq_refl Hcontent Tc).
    unfold run, bind at 1, lift at 1.
    change (Analyze.build_userMessage (Str (lit "image")) content (own v "mimeType"))
      with (Normal (A:=value)
              (Arr [Obj [(lit "type", Str (lit "image"));
                         (lit "source",
                          Obj [(lit "type", Str (lit "base64"));
                               (lit "media_type",
                                or_default (own v "mimeType") (Str (lit "image/jpeg")));
                               (lit "data", content)])];
                    Obj [(lit "type", Str (lit "text"));
                         (lit "text", Str Analyze.image_instruction)]])).
    set (um := Arr _).
    destruct (analyze_call_service fetch (c :: key) um []) as (r & Hr & _).
    now rewrite Hr.
  - intros create env req c key Hm Hk Hp.
    rewrite (api_reaches_call create env req c key v _ _ Hm Hk Hp
               Hmode eq_refl Hcontent Tc).
    unfold run, bind at 1, lift at 1.
    change (Api.build_messages (Str (lit "image")) content (own v "mimeType"))
      with (Normal (A:=value)
              (Api.user
                 (Arr [Obj [(lit "type", Str (lit "image"));
                            (lit "source",
                             Obj [(lit "type", Str (lit "base64"));
                                  (lit "media_type",
                                   or_default (own v "mimeType")
                                     (Str (lit "image/jpeg")));
                                  (lit "data", content)])];
                       Obj [(lit "type", Str (lit "text"));
                            (lit "text", Str Api.image_instruction)]]))).
    set (ms := Api.user _).
    destruct (api_call_service create (c :: key) ms []) as (r & Hr & _).
    now rewrite Hr.
Qed.
End Outbound.
Section Modes.
Context {E : Engine}.

(** X8.  analyze.js looks at the mode only to tell image from the rest:
    two requests that pass the checks with the same content and with
    modes other than [image], be they [product], [text] or anything else
    truthy, get the same run, whatever their [mimeType].  The second
    handler tells image, product and the rest: two such requests whose
    modes are neither [image] nor [product] get the same run. *)
Theorem modes_that_are_not_told_apart :
  (forall fetch env ev1 ev2 c key v1 v2 mode1 mode2 content,
      Analyze.httpMethod ev1 = lit "POST" -> Analyze.httpMethod ev2 = lit "POST" ->
      Analyze.ANTHROPIC_API_KEY env = Some (c :: key) ->
      JSON_parse (Analyze.body_text ev1) = Some v1 ->
      JSON_parse (Analyze.body_text ev2) = Some v2 ->
      own v1 "mode" = Some mode1 -> truthy mode1 = true ->
      own v2 "mode" = Some mode2 -> truthy mode2 = true ->
      is_string mode1 (lit "image") = false ->
      is_string mode2 (lit "image") = false ->
      own v1 "content" = Some content -> own v2 "content" = Some content ->
      truthy content = true ->
      run (Analyze.handler fetch env ev1) = run (Analyze.handler fetch env ev2))
  /\ (forall create env req1 req2 c key v1 v2 mode1 mode2 content,
      Api.method req1 = lit "POST" -> Api.method req2 = lit "POST" ->
      Api.ANTHROPIC_API_KEY env = Some (c :: key) ->
      JSON_parse (Api.body_text req1) = Some v1 ->
      JSON_parse (Api.body_text req2) = Some v2 ->
      own v1 "mode" = Some mode1 -> truthy mode1 = true ->
      own v2 "mode" = Some mode2 -> truthy mode2 = true ->
      is_string mode1 (lit "image") = false ->
      is_string mode2 (lit "image") = false ->
      is_string mode1 (lit "product") = false ->
      is_string mode2 (lit "product") = false ->
      own v1 "content" = Some content -> own v2 "content" = Some content ->
      truthy content = true ->
      run (Api.handler create env req1) = run (Api.handler create env req2)).
Proof.
  split.
  - intros fetch env ev1 ev2 c key v1 v2 mode1 mode2 content
      Hm1 Hm2 Hk Hp1 Hp2 Hmode1 T1 Hmode2 T2 I1 I2 Hc1 Hc2 Tc.
    rewrite (analyze_reaches_call fetch env ev1 c key v1 mode1 content
               Hm1 Hk Hp1 Hmode1 T1 Hc1 Tc).
    rewrite (analyze_reaches_call fetch env ev2 c key v2 mode2 content
               Hm2 Hk Hp2 Hmode2 T2 Hc2 Tc).
    unfold Analyze.build_userMessage. now rewrite I1, I2.
  - intros create env req1 req2 c key v1 v2 mode1 mode2 content
      Hm1 Hm2 Hk Hp1 Hp2 Hmode1 T1 Hmode2 T2 I1 I2 P1 P2 Hc1 Hc2 Tc.
    rewrite (api_reaches_call create env req1 c key v1 mode1 content
               Hm1 Hk Hp1 Hmode1 T1 Hc1 Tc).
    rewrite (api_reaches_call create env req2 c key v2 mode2 content
               Hm2 Hk Hp2 Hmode2 T2 Hc2 Tc).
    unfold Api.build_messages. now rewrite I1, I2, P1, P2.
Qed.

(** X10.  A request that passes the checks, and a service that fails.
    When [fetch] rejects, analyze.js answers 500 with the message of the
    error; when the service answers with an error status, it answers 500
    with the text of that answer after [Anthropic API error: ].  When the
    client library throws, the second handler answers 500 with
    [Analysis failed] and the message of the error as [details].  In each
    case the service was called once: no handler tries again. *)
Theorem service_failure_is_reported_once :
  (forall fetch env ev rq e,
      analyze_sends env ev rq -> fetch rq = Throw e ->
      run (Analyze.handler fetch env ev)
      = (Normal {| status := 500; headers := [];
                   body := JSON_stringify (Obj [(lit "error", Str (message e))]) |},
         [rq]))
  /\ (forall fetch env ev rq resp err,
      analyze_sends env ev rq ->
      fetch rq = Normal resp -> Analyze.ok resp = false ->
      Analyze.text resp = Normal err ->
      run (Analyze.handler fetch env ev)
      = (Normal {| status := 500; headers := [];
                   body := JSON_stringify
                             (Obj [(lit "error",
                                    Str (lit "Anthropic API error: " ++ err))]) |},
         [rq]))
  /\ (forall create env req rq e,
      api_sends env req rq -> create rq = Throw e ->
      run (Api.handler create env req)
      = (Normal {| status := 500; headers := Api.json_headers;
                   body := JSON_stringify
                             (Obj [(lit "error", Str (lit "Analysis failed"));
                                   (lit "details", Str (message e))]) |},
         [rq])).
Proof.
  split; [|split].
  - intros fetch env ev rq e Hs Hf.
    destruct (analyze_sends_handler fetch env ev rq Hs) as (key & um & -> & ->).
    apply (analyze_call_unreachable fetch key um [] e Hf).
  - intros fetch env ev rq resp err Hs Hf Hok Ht.
    destruct (analyze_sends_handler fetch env ev rq Hs) as (key & um & -> & ->).
    apply (analyze_call_refused fetch key um [] resp err Hf Hok Ht).
  - intros create env req rq e Hs Hc.
    destruct (api_sends_handler create env req rq Hs) as (key & ms & -> & ->).
    apply (api_call_failed create key ms [] e Hc).
Qed.
End Modes.
Section Throws.
Context {E : Engine}.

Lemma value_array_ind (P : value -> Prop) :
  P Null -> (forall b, P (Bool b)) -> (forall n, P (Num n)) ->
  (forall s, P (Str s)) ->
  (forall l, Forall P l -> P (Arr l)) ->
  (forall ps, P (Obj ps)) ->
  forall v, P v.
Proof.
  intros HNull HBool HNum HStr HArr HObj.
  fix IH 1. intros v. destruct v as [|b|n|s|l|ps].
  - exact HNull.
  - apply HBool.
  - apply HNum.
  - apply HStr.
  - apply HArr. induction l as [|x l IHl]; constructor; [apply IH | exact IHl].
  - apply HObj.
Qed.

(** [ToString] throws on the values that hide [toString], and on no
    other. *)
Lemma ToString_spec v :
  (hides_toString v = true -> Api.ToString v = Throw (TypeError "toString"))
  /\ (hides_toString v = false -> exists s, Api.ToString v = Normal s).
Proof.
  revert v. apply value_array_ind; [| intros b | intros n | intros s | intros l IH | intros ps];
    try (split; [discriminate | intros _; simpl; eauto]).
  - destruct b; eauto.
  - simpl.
    assert (H : (existsb hides_toString l = true ->
                 Api.sequence (map (fun e => match e with
                                             | Null => Normal []
                                             | _ => Api.ToString e
                                             end) l)
                 = Throw (TypeError "toString"))
                /\ (existsb hides_toString l = false ->
                    exists ss, Api.sequence (map (fun e => match e with
                                                           | Null => Normal []
                                                           | _ => Api.ToString e
                                                           end) l)
                               = Normal ss)).
    { induction IH as [|x l [Hx1 Hx2] _ [IH1 IH2]]; simpl.
      - split; [discriminate | eauto].
      - assert (Hg1 : hides_toString x = true ->
                      match x with Null => Normal [] | _ => Api.ToString x end
                      = Throw (TypeError "toString")).
        { intros H. destruct x; try discriminate; auto. }
        assert (Hg2 : hides_toString x = false ->
                      exists s, match x with Null => Normal [] | _ => Api.ToString x end
                                = Normal s).
        { intros H. destruct x; eauto. }
        split.
        + rewrite orb_true_iff. destruct (hides_toString x) eqn:Hx.
          * intros _. now rewrite Hg1.
          * intros [H|H]; [discriminate|].
            destruct (Hg2 eq_refl) as (s & ->). now rewrite IH1.
        + rewrite orb_false_iff. intros [Hx Hl].
          destruct (Hg2 Hx) as (s & ->). destruct (IH2 Hl) as (ss & ->). eauto. }
    destruct H as [H1 H2]. split.
    + intros H. now rewrite H1.
    + intros H. destruct (H2 H) as (ss & ->). eauto.
  - simpl. destruct (lookup (lit "toString") ps); split; try discriminate; eauto.
Qed.

Lemma is_str_spec v : is_str v = true <-> exists s, v = Str s.
Proof.
  destruct v; simpl; split; try discriminate; eauto; intros (s & H); discriminate.
Qed.

(** X9.  When a handler throws.  analyze.js throws on exactly these
    requests: a POST, with the key configured, whose body is the JSON
    [null], or has a truthy [mode] other than [image] and a truthy
    [content] that is not a string.  The second handler throws on exactly
    these: a POST whose body, read without a leading byte order mark, is
    the JSON [null], or, with the key configured, has a truthy [mode]
    other than [image] and a truthy [content] that is an object with a
    property of its own named [toString], or an array that holds one. *)
Theorem when_a_handler_throws :
  (forall fetch env ev,
      (exists e, fst (run (Analyze.handler fetch env ev)) = Throw e)
      <-> (Analyze.httpMethod ev = lit "POST"
           /\ (exists c key, Analyze.ANTHROPIC_API_KEY env = Some (c :: key))
           /\ exists v, JSON_parse (Analyze.body_text ev) = Some v
                /\ (v = Null
                    \/ exists mode content,
                         own v "mode" = Some mode /\ truthy mode = true
                         /\ own v "content" = Some content /\ truthy content = true
                         /\ is_string mode (lit "image") = false
                         /\ is_str content = false)))
  /\ (forall create env req,
      (exists e, fst (run (Api.handler create env req)) = Throw e)
      <-> (Api.method req = lit "POST"
           /\ exists v, JSON_parse (Api.body_text req) = Some v
                /\ (v = Null
                    \/ exists mode content,
                         own v "mode" = Some mode /\ truthy mode = true
                         /\ own v "content" = Some content /\ truthy content = true
                         /\ (exists c key, Api.ANTHROPIC_API_KEY env = Some (c :: key))
                         /\ is_string mode (lit "image") = false
                         /\ hides_toString content = true))).
Proof.
  split.
  - intros fetch env ev.
    destruct (str_eqb (Analyze.httpMethod ev) (lit "POST")) eqn:Hm.
    2:{ split.
        - unfold Analyze.handler. rewrite Hm. intros (e & H). discriminate.
        - intros (H & _). apply str_eqb_eq in H. congruence. }
    apply str_eqb_eq in Hm.
    destruct (Analyze.ANTHROPIC_API_KEY env) as [[|c key]|] eqn:Hk.
    1,3: split;
      [ unfold Analyze.handler; rewrite Hm, Hk; intros (e & H); discriminate
      | intros (_ & (c' & key' & H) & _); discriminate ].
    destruct (JSON_parse (Analyze.body_text ev)) as [v|] eqn:Hp.
    2:{ split.
        - rewrite (analyze_invalid_json fetch env ev c key Hm Hk Hp).
          intros (e & H). discriminate.
        - intros (_ & _ & v & H & _). discriminate. }
    destruct (null_or_not v) as [->|Hnn].
    { split.
      - intros _. split; [assumption|]. split; [eauto|]. exists Null. auto.
      - intros _. unfold Analyze.handler. rewrite Hm, Hk, Hp. simpl. eauto. }
    destruct (falsy (own v "mode") || falsy (own v "content")) eqn:Hf.
    { split.
      - rewrite (analyze_missing_fields fetch env ev c key v Hm Hk Hp Hnn Hf).
        intros (e & H). discriminate.
      - intros (_ & _ & v' & [= <-] & [->|(mode & content & Hmode & Tm & Hc & Tc & _)]).
        + contradiction.
        + rewrite Hmode, Hc in Hf. simpl in Hf. rewrite Tm, Tc in Hf. discriminate. }
    apply orb_false_iff in Hf. destruct Hf as [Hf1 Hf2].
    destruct (own v "mode") as [mode|] eqn:Hmode; [|discriminate].
    destruct (own v "content") as [content|] eqn:Hcontent; [|discriminate].
    simpl in Hf1, Hf2. apply negb_false_iff in Hf1, Hf2.
    rewrite (analyze_reaches_call fetch env ev c key v mode content Hm Hk Hp
               Hmode Hf1 Hcontent Hf2).
    unfold run, bind at 1, lift at 1. unfold Analyze.build_userMessage.
    destruct (is_string mode (lit "image")) eqn:Him.
    { split.
      - destruct (analyze_call_service fetch (c :: key)
                    (Arr [Obj [(lit "type", Str (lit "image"));
                               (lit "source",
                                Obj [(lit "type", Str (lit "base64"));
                                     (lit "media_type",
                                      or_default (own v "mimeType")
                                        (Str (lit "image/jpeg")));
                                     (lit "data", content)])];
                          Obj [(lit "type", Str (lit "text"));
                               (lit "text", Str Analyze.image_instruction)]]) [])
          as (r & -> & _).
        intros (e & H). discriminate.
      - intros (_ & _ & v' & [= <-] & [->|(m & c0 & Hm' & _ & _ & _ & Hi & _)]).
        + contradiction.
        + rewrite Hmode in Hm'. injection Hm' as <-. congruence. }
    destruct (is_str content) eqn:Hs.
    + apply is_str_spec in Hs. destruct Hs as (s & ->). split.
      * match goal with
        | |- (exists e, fst (Analyze.call_service ?f ?k ?um []) = _) -> _ =>
            destruct (analyze_call_service f k um []) as (r & -> & _)
        end.
        intros (e & H). discriminate.
      * intros (_ & _ & v' & [= <-] & [->|(m & c0 & _ & _ & Hc' & _ & _ & Hs)]).
        -- contradiction.
        -- rewrite Hcontent in Hc'. injection Hc' as <-. discriminate.
    + split.
      * intros _. split; [assumption|]. split; [eauto|]. exists v. split; [reflexivity|].
        right. exists mode, content. auto 10.
      * intros _. destruct content; try discriminate; simpl; eauto.
  - intros create env req.
    destruct (str_eqb (Api.method req) (lit "POST")) eqn:Hm.
    2:{ split.
        - unfold Api.handler. rewrite Hm. intros (e & H). discriminate.
        - intros (H & _). apply str_eqb_eq in H. congruence. }
    apply str_eqb_eq in Hm.
    destruct (JSON_parse (Api.body_text req)) as [v|] eqn:Hp.
    2:{ split.
        - rewrite (api_invalid_json create env req Hm Hp). intros (e & H). discriminate.
        - intros (_ & v & H & _). discriminate. }
    destruct (null_or_not v) as [->|Hnn].
    { split.
      - intros _. split; [assumption|]. exists Null. auto.
      - intros _. unfold Api.handler, Api.json. rewrite Hm, Hp. simpl. eauto. }
    destruct (falsy (own v "mode") || falsy (own v "content")) eqn:Hf.
    { split.
      - rewrite (api_missing_fields create env req v Hm Hp Hnn Hf).
        intros (e & H). discriminate.
      - intros (_ & v' & [= <-] & [->|(mode & content & Hmode & Tm & Hc & Tc & _)]).
        + contradiction.
        + rewrite Hmode, Hc in Hf. simpl in Hf. rewrite Tm, Tc in Hf. discriminate. }
    apply orb_false_iff in Hf. destruct Hf as [Hf1 Hf2].
    destruct (own v "mode") as [mode|] eqn:Hmode; [|discriminate].
    destruct (own v "content") as [content|] eqn:Hcontent; [|discriminate].
    simpl in Hf1, Hf2. apply negb_false_iff in Hf1, Hf2.
    destruct (Api.ANTHROPIC_API_KEY env) as [[|c key]|] eqn:Hk.
    1,3: split;
      [ unfold Api.handler, Api.json, run, bind, lift;
        rewrite Hm, Hp, (destructure_not_null _ Hnn), Hmode, Hcontent; simpl;
        rewrite Hf1, Hf2, Hk; simpl; intros (e & H); discriminate
      | intros (_ & v' & [= <-] & [->|(m & c0 & _ & _ & _ & _ & (c' & k' & H) & _)]);
        [contradiction | discriminate] ].
    rewrite (api_reaches_call create env req c key v mode content Hm Hk Hp
               Hmode Hf1 Hcontent Hf2).
    unfold run, bind at 1, lift at 1. unfold Api.build_messages.
    destruct (is_string mode (lit "image")) eqn:Him.
    { split.
      - match goal with
        | |- (exists e, fst (Api.call_service ?f ?k ?ms []) = _) -> _ =>
            destruct (api_call_service f k ms []) as (r & -> & _)
        end.
        intros (e & H). discriminate.
      - intros (_ & v' & [= <-] & [->|(m & c0 & Hm' & _ & _ & _ & _ & Hi & _)]).
        + contradiction.
        + rewrite Hmode in Hm'. injection Hm' as <-. congruence. }
    destruct (ToString_spec content) as [Hthrow Hok].
    destruct (hides_toString content) eqn:Hh.
    + rewrite (Hthrow eq_refl). split.
      * intros _. split; [assumption|]. exists v. split; [reflexivity|].
        right. exists mode, content. repeat split; eauto.
      * intros _. simpl. eauto.
    + destruct (Hok eq_refl) as (s & ->). split.
      * destruct (is_string mode (lit "product"));
          match goal with
          | |- (exists e, fst (Api.call_service ?f ?k ?ms []) = _) -> _ =>
              destruct (api_call_service f k ms []) as (r & -> & _)
          end;
          intros (e & H); discriminate.
      * intros (_ & v' & [= <-] & [->|(m & c0 & _ & _ & Hc' & _ & _ & _ & Hh')]).
        -- contradiction.
        -- rewrite Hcontent in Hc'. injection Hc' as <-. congruence.
Qed.
End Throws.

(** *** Replies without fences *)

Section Unfenced.
Context {E : Engine}.
Open Scope N_scope.

(** X11.  A reply text that holds no three backticks in a row goes through
    fence stripping unchanged but for the white space at its ends.
    analyze.js then answers 200 with the serialisation of what the trimmed
    text parses to, and otherwise 500 with the first 500 code units of the
    trimmed text under [raw]; the second handler searches the trimmed
    text for the span from the first opening brace to the last closing
    one. *)
Theorem unfenced_reply_is_read_as_trimmed :
  forall raw,
    fence_free raw = true ->
    (forall fetch env ev rq resp data,
        analyze_sends env ev rq ->
        fetch rq = Normal resp -> Analyze.ok resp = true ->
        Analyze.json resp = Normal data ->
        first_block_text data = Normal (Some (Str raw)) ->
        run (Analyze.handler fetch env ev)
        = (Normal
             match JSON_parse (trim raw) with
             | Some parsed =>
                 {| status := 200; headers := Analyze.success_headers;
                    body := JSON_stringify parsed |}
             | None =>
                 {| status := 500; headers := [];
                    body := JSON_stringify
                      (Obj [(lit "error", Str (lit "Failed to parse AI response as JSON"));
                            (lit "raw", Str (slice0 500 (trim raw)))]) |}
             end, [rq]))
    /\ (forall create env req rq reply,
          api_sends env req rq ->
          create rq = Normal reply ->
          first_block_text reply = Normal (Some (Str raw)) ->
          run (Api.handler create env req)
          = (Normal
               match match_braces (trim raw) with
               | None =>
                   api_failure (Exn (lit "Could not extract JSON from Claude response"))
               | Some span =>
                   match JSON_parse span with
                   | None => api_failure (Exn (SyntaxErrorMessage span))
                   | Some analysis =>
                       {| status := 200; headers := Api.json_headers;
                          body := JSON_stringify analysis |}
                   end
               end, [rq])).
Proof.
  intros raw Hfree. split.
  - intros fetch env ev rq resp data Hs Hf Hok Hj Hb.
    destruct (analyze_sends_handler fetch env ev rq Hs) as (key & um & -> & ->).
    unfold run. rewrite (analyze_call_answered fetch key um [] resp data _ Hf Hok Hj Hb).
    unfold analyze_answer.
    now rewrite (analyze_strip_fence_free raw Hfree).
  - intros create env req rq reply Hs Hc Hb.
    destruct (api_sends_handler create env req rq Hs) as (key & ms & -> & ->).
    unfold run. rewrite (api_call_answered create key ms [] reply _ Hc Hb).
    unfold api_answer.
    now rewrite (api_strip_fence_free raw Hfree).
Qed.

(** X12.  Prose around the object.  When the reply text is an object text
    with anything before it that holds no opening brace and anything after
    it that holds no closing brace, and the whole holds no three backticks
    in a row, the second handler answers 200 with the serialisation of the
    object: what surrounds the object is dropped. *)
Theorem prose_around_the_object_is_dropped :
  forall pre inner post parsed,
    fence_free (pre ++ braced inner ++ post) = true ->
    lacks 123 pre = true -> lacks 125 post = true ->
    JSON_parse (braced inner) = Some parsed ->
    forall create env req rq reply,
      api_sends env req rq ->
      create rq = Normal reply ->
      first_block_text reply = Normal (Some (Str (pre ++ braced inner ++ post))) ->
      run (Api.handler create env req)
      = (Normal {| status := 200; headers := Api.json_headers;
                   body := JSON_stringify parsed |}, [rq]).
Proof.
  intros pre inner post parsed Hfree H0 H1 Hp create env req rq reply Hs Hc Hb.
  destruct (api_sends_handler create env req rq Hs) as (key & ms & -> & ->).
  unfold run. rewrite (api_call_answered create key ms [] reply _ Hc Hb).
  unfold api_answer.
  rewrite (api_strip_fence_free _ Hfree), trim_prose.
  rewrite match_braces_prose by auto using lacks_drop_ws, lacks_trimEnd.
  now rewrite Hp.
Qed.
End Unfenced.

(** *** White space around a text *)

Section Around.
Context {E : Engine}.
Open Scope N_scope.

(** X13.  White space around a text is immaterial where the handlers read
    it: around the content of a request it does not change which wording
    analyze.js chooses, and around the reply text it changes the answer of
    neither handler. *)
Theorem surrounding_white_space_is_immaterial :
  forall w0 w1,
    all_ws w0 = true -> all_ws w1 = true ->
    (forall content,
        Analyze.isProductName (w0 ++ content ++ w1) = Analyze.isProductName content)
    /\ (forall raw fetch fetch' env ev rq resp resp' data data',
          analyze_sends env ev rq ->
          fetch rq = Normal resp -> Analyze.ok resp = true ->
          Analyze.json resp = Normal data ->
          first_block_text data = Normal (Some (Str raw)) ->
          fetch' rq = Normal resp' -> Analyze.ok resp' = true ->
          Analyze.json resp' = Normal data' ->
          first_block_text data' = Normal (Some (Str (w0 ++ raw ++ w1))) ->
          run (Analyze.handler fetch' env ev) = run (Analyze.handler fetch env ev))
    /\ (forall raw create create' env req rq reply reply',
          api_sends env req rq ->
          create rq = Normal reply ->
          first_block_text reply = Normal (Some (Str raw)) ->
          create' rq = Normal reply' ->
          first_block_text reply' = Normal (Some (Str (w0 ++ raw ++ w1))) ->
          run (Api.handler create' env req) = run (Api.handler create env req)).
Proof.
  intros w0 w1 H0 H1. split; [|split].
  - intros content. unfold Analyze.isProductName.
    now rewrite trim_ws_around.
  - intros raw fetch fetch' env ev rq resp resp' data data' Hs Hf Hok Hj Hb Hf' Hok' Hj' Hb'.
    destruct (analyze_sends_handler fetch env ev rq Hs) as (key & um & -> & ->).
    destruct (analyze_sends_handler fetch' env ev _ Hs) as (key' & um' & Hrq & ->).
    unfold run.
    rewrite (analyze_call_answered fetch key um [] resp data _ Hf Hok Hj Hb).
    rewrite Hrq in Hf'.
    rewrite (analyze_call_answered fetch' key' um' [] resp' data' _ Hf' Hok' Hj' Hb').
    rewrite <- Hrq. unfold analyze_answer. now rewrite trim_ws_around.
  - intros raw create create' env req rq reply reply' Hs Hc Hb Hc' Hb'.
    destruct (api_sends_handler create env req rq Hs) as (key & ms & -> & ->).
    destruct (api_sends_handler create' env req _ Hs) as (key' & ms' & Hrq & ->).
    unfold run.
    rewrite (api_call_answered create key ms [] reply _ Hc Hb).
    rewrite Hrq in Hc'.
    rewrite (api_call_answered create' key' ms' [] reply' _ Hc' Hb').
    rewrite <- Hrq. unfold api_answer. now rewrite api_strip_ws_around.
Qed.
End Around.

(** *** Error bodies *)

Section Bodies.
Context {E : Engine}.
Open Scope N_scope.

Lemma lex_cons st c ts st' s :
  lex_step st c = Some (ts, st') -> lex st (c :: s) = option_map (app ts) (lex st' s).
Proof. intros H. simpl. now rewrite H. Qed.

Lemma lex_silent st c st' s :
  lex_step st c = Some ([], st') -> lex st (c :: s) = lex st' s.
Proof. intros H. rewrite (lex_cons _ _ _ _ _ H). now destruct (lex st' s). Qed.

Lemma hex_value_digit d : d < 16 -> hex_value (hex_digit d) = Some d.
Proof.
  intros H. unfold hex_value, hex_digit, is_digit.
  destruct (N.ltb_spec d 10).
  - replace ((48 <=? 48 + d) && (48 + d <=? 57)) with true
      by (symmetry; apply andb_true_iff; split; apply N.leb_le; lia).
    f_equal. lia.
  - replace ((48 <=? 87 + d) && (87 + d <=? 57)) with false
      by (symmetry; apply andb_false_iff; right; apply N.leb_gt; lia).
    replace ((97 <=? 87 + d) && (87 + d <=? 102)) with true
      by (symmetry; apply andb_true_iff; split; apply N.leb_le; lia).
    f_equal. lia.
Qed.

Lemma lex_hex acc n v d s :
  d < 16 ->
  lex (LHex acc n v) (hex_digit d :: s)
  = match n with
    | 3%nat => lex (LString (16 * v + d :: acc)) s
    | _ => lex (LHex acc (S n) (16 * v + d)) s
    end.
Proof.
  intros H.
  destruct n as [|[|[|[|n]]]]; apply lex_silent; simpl;
    rewrite (hex_value_digit d H); reflexivity.
Qed.

Lemma hex_digits_value c :
  c < 65536 ->
  16 * (16 * (16 * (16 * 0 + c / 4096 mod 16) + c / 256 mod 16) + c / 16 mod 16)
  + c mod 16 = c.
Proof.
  intros H.
  assert (H1 := N.div_mod c 16 ltac:(lia)).
  assert (H2 := N.div_mod (c / 16) 16 ltac:(lia)).
  assert (H3 := N.div_mod (c / 16 / 16) 16 ltac:(lia)).
  assert (H4 : c / 16 / 16 / 16 < 16).
  { rewrite !N.Div0.div_div. apply N.Div0.div_lt_upper_bound. simpl. lia. }
  replace (c / 4096) with (c / 16 / 16 / 16) by (rewrite !N.Div0.div_div; reflexivity).
  replace (c / 256) with (c / 16 / 16) by (rewrite !N.Div0.div_div; reflexivity).
  rewrite (N.mod_small _ _ H4).
  lia.
Qed.

Lemma lex_unicode_escape c acc s :
  c < 65536 ->
  lex (LString acc) (unicode_escape c ++ s) = lex (LString (c :: acc)) s.
Proof.
  intros H. unfold unicode_escape. cbn [app].
  rewrite (lex_silent (LString acc) 92 (LEscape acc)) by reflexivity.
  rewrite (lex_silent (LEscape acc) 117 (LHex acc 0 0)) by reflexivity.
  rewrite !lex_hex by (apply N.mod_lt; lia).
  now rewrite (hex_digits_value c H).
Qed.

Lemma lex_plain c acc s :
  (c =? 34) = false -> (c =? 92) = false -> (c <? 32) = false ->
  lex (LString acc) (c :: s) = lex (LString (c :: acc)) s.
Proof.
  intros H1 H2 H3. apply lex_silent. simpl. now rewrite H1, H2, H3.
Qed.

Lemma lex_surrogate c acc s :
  is_lead c || is_trail c = true ->
  lex (LString acc) (c :: s) = lex (LString (c :: acc)) s.
Proof.
  unfold is_lead, is_trail. intros H.
  repeat rewrite ?orb_true_iff, ?andb_true_iff, ?N.leb_le in H.
  apply lex_plain; [apply N.eqb_neq | apply N.eqb_neq | apply N.ltb_ge]; lia.
Qed.

Ltac lex_escaped x :=
  match goal with
  | |- lex (LString ?acc) (?l ++ ?s) = _ => change (l ++ s) with (92 :: x :: s)
  end;
  erewrite (lex_silent (LString _) 92) by reflexivity;
  erewrite (lex_silent (LEscape _) x) by reflexivity;
  reflexivity.

(** The lexer reads back what [quote_unit] writes for one code unit. *)
Lemma lex_quote_unit c acc s :
  lex (LString acc) (quote_unit c ++ s) = lex (LString (c :: acc)) s.
Proof.
  unfold quote_unit.
  destruct (N.eqb_spec c 8) as [->|]; [lex_escaped 98|].
  destruct (N.eqb_spec c 9) as [->|]; [lex_escaped 116|].
  destruct (N.eqb_spec c 10) as [->|]; [lex_escaped 110|].
  destruct (N.eqb_spec c 12) as [->|]; [lex_escaped 102|].
  destruct (N.eqb_spec c 13) as [->|]; [lex_escaped 114|].
  destruct (N.eqb_spec c 34) as [->|]; [lex_escaped 34|].
  destruct (N.eqb_spec c 92) as [->|]; [lex_escaped 92|].
  destruct ((c <? 32) || is_lead c || is_trail c) eqn:Hc.
  - apply lex_unicode_escape.
    unfold is_lead, is_trail in Hc.
    repeat rewrite ?orb_true_iff, ?andb_true_iff, ?N.leb_le, ?N.ltb_lt in Hc. lia.
  - apply orb_false_iff in Hc. destruct Hc as [Hc _].
    apply orb_false_iff in Hc. destruct Hc as [Hc _].
    cbn [app]. apply lex_plain; [apply N.eqb_neq| apply N.eqb_neq|]; assumption.
Qed.

Lemma quote_units_pair c d s :
  quote_units (c :: d :: s)
  = if is_lead c && is_trail d then c :: d :: quote_units s
    else quote_unit c ++ quote_units (d :: s).
Proof. reflexivity. Qed.

Lemma lex_quote_units_bounded n : forall s acc rest,
  (List.length s <= n)%nat ->
  lex (LString acc) (quote_units s ++ rest) = lex (LString (rev s ++ acc)) rest.
Proof.
  induction n as [|n IH]; intros s acc rest Hl.
  - destruct s; [reflexivity | simpl in Hl; lia].
  - destruct s as [|c [|d s]]; [reflexivity| |].
    + cbn [quote_units]. apply lex_quote_unit.
    + rewrite quote_units_pair. cbn [List.length] in Hl.
      destruct (is_lead c && is_trail d) eqn:Hp.
      * apply andb_true_iff in Hp. destruct Hp as [Hc Hd].
        rewrite <- !app_comm_cons.
        rewrite lex_surrogate by (now rewrite Hc).
        rewrite lex_surrogate by (rewrite Hd; apply orb_true_r).
        rewrite IH by lia. cbn [rev]. now rewrite <- !app_assoc.
      * rewrite <- app_assoc, lex_quote_unit.
        rewrite IH by (cbn [List.length]; lia).
        cbn [rev]. now rewrite <- !app_assoc.
Qed.

(** The lexer reads a quoted string back as the string. *)
Lemma lex_quote s rest :
  lex LStart (quote s ++ rest) = option_map (cons (TString s)) (lex LStart rest).
Proof.
  unfold quote, dq. cbn [app].
  rewrite (lex_silent LStart 34 (LString [])) by reflexivity.
  rewrite <- app_assoc.
  rewrite (lex_quote_units_bounded (List.length s) s [] _ (le_n _)).
  rewrite app_nil_r. cbn [app].
  rewrite (lex_cons (LString (rev s)) 34 [TString (rev (rev s))] LStart) by reflexivity.
  now rewrite rev_involutive.
Qed.

Lemma parse_one_field msg :
  JSON_parse (JSON_stringify (Obj [(lit "error", Str msg)]))
  = Some (Obj [(lit "error", Str msg)]).
Proof.
  unfold JSON_parse.
  change (JSON_stringify (Obj [(lit "error", Str msg)]))
    with (123 :: quote (lit "error") ++ 58 :: quote msg ++ [125]).
  rewrite (lex_cons LStart 123 [TLBrace] LStart) by reflexivity.
  rewrite lex_quote.
  rewrite (lex_cons LStart 58 [TColon] LStart) by reflexivity.
  rewrite lex_quote. reflexivity.
Qed.

Lemma parse_two_fields k msg d :
  k = lit "raw" \/ k = lit "details" ->
  JSON_parse (JSON_stringify (Obj [(lit "error", Str msg); (k, Str d)]))
  = Some (Obj [(lit "error", Str msg); (k, Str d)]).
Proof.
  intros Hk. unfold JSON_parse.
  change (JSON_stringify (Obj [(lit "error", Str msg); (k, Str d)]))
    with (123 :: ((quote (lit "error") ++ 58 :: quote msg)
                  ++ 44 :: (quote k ++ 58 :: quote d)) ++ [125]).
  rewrite <- !app_assoc. cbn [app]. rewrite <- !app_assoc.
  rewrite (lex_cons LStart 123 [TLBrace] LStart) by reflexivity.
  rewrite lex_quote.
  rewrite (lex_cons LStart 58 [TColon] LStart) by reflexivity.
  rewrite lex_quote.
  rewrite (lex_cons LStart 44 [TComma] LStart) by reflexivity.
  rewrite lex_quote. cbn [app].
  rewrite (lex_cons LStart 58 [TColon] LStart) by reflexivity.
  rewrite lex_quote.
  destruct Hk as [-> | ->]; reflexivity.
Qed.

Lemma analyze_error_answers fetch env ev :
  ensures analyze_error_answer (Analyze.handler fetch env ev).
Proof.
  unfold Analyze.handler, Analyze.call_service, Analyze.read_reply.
  repeat ensures_step;
    first [ left; reflexivity
          | right; do 2 eexists; split; [reflexivity | eauto] ].
Qed.

Lemma api_error_answers create env req :
  ensures api_error_answer (Api.handler create env req).
Proof.
  unfold Api.handler, Api.call_service, Api.read_reply.
  repeat ensures_step;
    first [ left; reflexivity
          | right; left; split; reflexivity
          | right; right; do 2 eexists; split; [reflexivity | eauto] ].
Qed.

Lemma parse_error_object extra b :
  extra = lit "raw" \/ extra = lit "details" ->
  error_object extra b ->
  exists msg rest,
    JSON_parse b = Some (Obj ((lit "error", Str msg) :: rest))
    /\ (rest = [] \/ exists x, rest = [(extra, Str x)]).
Proof.
  intros He (msg & rest & -> & Hrest).
  exists msg, rest. split; [|exact Hrest].
  destruct Hrest as [->|(x & ->)];
    [apply parse_one_field | now apply parse_two_fields].
Qed.

(** X14.  Every answer of a handler with a status other than 200 carries
    a JSON text that parses to an object whose first property is [error],
    a string; analyze.js adds [raw], a string, and the second handler
    [details], a string, and nothing else.  The one exception is the 405
    of the second handler, whose body is a bare text. *)
Theorem error_answers_carry_an_error_object :
  (forall fetch env ev r calls,
      run (Analyze.handler fetch env ev) = (Normal r, calls) ->
      status r <> 200 ->
      exists msg rest,
        JSON_parse (body r) = Some (Obj ((lit "error", Str msg) :: rest))
        /\ (rest = [] \/ exists raw, rest = [(lit "raw", Str raw)]))
  /\ (forall create env req r calls,
      run (Api.handler create env req) = (Normal r, calls) ->
      status r <> 200 -> status r <> 405 ->
      exists msg rest,
        JSON_parse (body r) = Some (Obj ((lit "error", Str msg) :: rest))
        /\ (rest = [] \/ exists details, rest = [(lit "details", Str details)])).
Proof.
  split.
  - intros fetch env ev r calls Hr Hs.
    destruct (analyze_error_answers fetch env ev [] r calls Hr) as [H|H];
      [contradiction|].
    apply parse_error_object; [now left | exact H].
  - intros create env req r calls Hr Hs Hm.
    destruct (api_error_answers create env req [] r calls Hr) as [H|[[H _]|H]];
      try contradiction.
    apply parse_error_object; [now right | exact H].
Qed.
End Bodies.

(** *** A key that is the empty string *)

Section EmptyKey.
Context {E : Engine}.

(** X15.  A key configured as the empty string counts as no key: each
    handler runs as it does without a key, and calls nothing. *)
Theorem empty_key_is_no_key :
  (forall fetch env env' ev,
      Analyze.ANTHROPIC_API_KEY env = Some [] ->
      Analyze.ANTHROPIC_API_KEY env' = None ->
      run (Analyze.handler fetch env ev) = run (Analyze.handler fetch env' ev)
      /\ snd (run (Analyze.handler fetch env ev)) = [])
  /\ (forall create env env' req,
      Api.ANTHROPIC_API_KEY env = Some [] ->
      Api.ANTHROPIC_API_KEY env' = None ->
      run (Api.handler create env req) = run (Api.handler create env' req)
      /\ snd (run (Api.handler create env req)) = []).
Proof.
  split.
  - intros fetch env env' ev Hk Hk'. unfold Analyze.handler, run.
    rewrite Hk, Hk'. destruct (negb _); split; reflexivity.
  - intros create env env' req Hk Hk'. unfold Api.handler, run, bind, lift.
    destruct (negb _); [split; reflexivity|].
    destruct (Api.json req) as [v|e]; [|split; reflexivity].
    destruct (destructure v) as [[[[mode|] [content|]] mt]|e];
      try (split; reflexivity).
    destruct (negb (truthy mode) || negb (truthy content)); [split; reflexivity|].
    rewrite Hk, Hk'. split; reflexivity.
Qed.
End EmptyKey.

(** ** The further properties on sample inputs *)

Lemma invalid_json_body_is_a_400_witness :
  run (Analyze.handler no_fetch with_key (as_event (post (lit "not json"))))
  = (Normal {| status := 400; headers := [];
               body := error_body (lit "Invalid JSON body") |}, [])
  /\ run (Api.handler silent api_without_key (post (65279%N :: lit "not json")))
     = (Normal {| status := 400; headers := Api.json_headers;
                  body := error_body (lit "Invalid JSON body") |}, []).
Proof.
  destruct (@invalid_json_body_is_a_400 literal_engine) as (A & B). split.
  - apply (A no_fetch with_key (as_event (post (lit "not json"))) 115%N (lit "k-sample"));
      vm_compute; reflexivity.
  - apply B; vm_compute; reflexivity.
Defined.

Lemma headers_follow_the_status_witness :
  ((status {| status := 500; headers := []; body := error_body [] |} = 200%N ->
    headers {| status := 500; headers := []; body := error_body [] |}
    = Analyze.success_headers)
   /\ (status {| status := 500; headers := []; body := error_body [] |} <> 200%N ->
       headers {| status := 500; headers := []; body := error_body [] |} = []))
  /\ ((status (api_failure (Exn [])) = 405%N -> headers (api_failure (Exn [])) = [])
      /\ (status (api_failure (Exn [])) <> 405%N ->
          headers (api_failure (Exn [])) = Api.json_headers)).
Proof.
  destruct (@headers_follow_the_status literal_engine) as (A & B). split.
  - apply (A no_fetch with_key sample_event _ [sample_fetch_request]).
    vm_compute; reflexivity.
  - apply (B silent api_with_key text_request _ [sample_create_request]).
    vm_compute; reflexivity.
Defined.

Lemma every_call_carries_the_configured_key_witness :
  (exists key userMessage,
      Analyze.ANTHROPIC_API_KEY with_key = Some key /\ key <> []
      /\ Analyze.url sample_fetch_request = lit "https://api.anthropic.com/v1/messages"
      /\ Analyze.method sample_fetch_request = lit "POST"
      /\ Analyze.request_headers sample_fetch_request
         = [(lit "Content-Type", lit "application/json");
            (lit "x-api-key", key);
            (lit "anthropic-version", lit "2023-06-01")]
      /\ Analyze.request_body sample_fetch_request
         = JSON_stringify
             (Obj [(lit "model", Str (lit "claude-opus-4-5"));
                   (lit "max_tokens", Num (StringToNumber (lit "8192")));
                   (lit "system", Str Analyze.systemPrompt);
                   (lit "messages",
                    Arr [Obj [(lit "role", Str (lit "user"));
                              (lit "content", userMessage)]])]))
  /\ (exists key content,
      Api.ANTHROPIC_API_KEY api_with_key = Some key /\ key <> []
      /\ Api.apiKey sample_create_request = key
      /\ Api.params sample_create_request
         = Obj [(lit "model", Str (lit "claude-sonnet-4-20250514"));
                (lit "max_tokens", Num (StringToNumber (lit "8192")));
                (lit "system", Str Api.SYSTEM_PROMPT);
                (lit "messages",
                 Arr [Obj [(lit "role", Str (lit "user"));
                           (lit "content", content)]])]).
Proof.
  destruct (@every_call_carries_the_configured_key literal_engine) as (A & B). split.
  - apply (A no_fetch with_key sample_event sample_fetch_request).
    vm_compute. left. reflexivity.
  - apply (B silent api_with_key text_request sample_create_request).
    vm_compute. left. reflexivity.
Defined.

Lemma image_mode_message_witness :
  truthy (or_default
            (own (Obj [(lit "mode", Str (lit "image"));
                       (lit "content", Str (lit "aGVsbG8="))]) "mimeType")
            (Str (lit "image/jpeg"))) = true
  /\ snd (run (Analyze.handler no_fetch with_key (as_event image_request)))
     = [Analyze.completion_request sample_key
          (Arr [Obj [(lit "type", Str (lit "image"));
                     (lit "source",
                      Obj [(lit "type", Str (lit "base64"));
                           (lit "media_type", Str (lit "image/jpeg"));
                           (lit "data", Str (lit "aGVsbG8="))])];
                Obj [(lit "type", Str (lit "text"));
                     (lit "text", Str Analyze.image_instruction)]])]
  /\ snd (run (Api.handler silent api_with_key image_request))
     = [{| Api.apiKey := sample_key;
           Api.params :=
             Api.create_params
               (Api.user
                  (Arr [Obj [(lit "type", Str (lit "image"));
                             (lit "source",
                              Obj [(lit "type", Str (lit "base64"));
                                   (lit "media_type", Str (lit "image/jpeg"));
                                   (lit "data", Str (lit "aGVsbG8="))])];
                        Obj [(lit "type", Str (lit "text"));
                             (lit "text", Str Api.image_instruction)]])) |}].
Proof.
  destruct (@image_mode_message literal_engine
              (Obj [(lit "mode", Str (lit "image"));
                    (lit "content", Str (lit "aGVsbG8="))])
              (Str (lit "aGVsbG8=")) eq_refl eq_refl eq_refl) as (A & B & C).
  split; [exact A | split].
  - apply (B no_fetch with_key (as_event image_request) 115%N (lit "k-sample"));
      vm_compute; reflexivity.
  - apply (C silent api_with_key image_request 115%N (lit "k-sample"));
      vm_compute; reflexivity.
Defined.

Lemma modes_that_are_not_told_apart_witness :
  run (Analyze.handler no_fetch with_key sample_event)
  = run (Analyze.handler no_fetch with_key (as_event list_request))
  /\ run (Api.handler silent api_with_key text_request)
     = run (Api.handler silent api_with_key list_request).
Proof.
  destruct (@modes_that_are_not_told_apart literal_engine) as (A & B). split.
  - apply (A no_fetch with_key sample_event (as_event list_request) 115%N (lit "k-sample")
             (Obj [(lit "mode", Str (lit "text"));
                   (lit "content", Str (lit "Water, Glycerin"))])
             (Obj [(lit "mode", Str (lit "list"));
                   (lit "content", Str (lit "Water, Glycerin"))])
             (Str (lit "text")) (Str (lit "list")) (Str (lit "Water, Glycerin")));
      vm_compute; reflexivity.
  - apply (B silent api_with_key text_request list_request 115%N (lit "k-sample")
             (Obj [(lit "mode", Str (lit "text"));
                   (lit "content", Str (lit "Water, Glycerin"))])
             (Obj [(lit "mode", Str (lit "list"));
                   (lit "content", Str (lit "Water, Glycerin"))])
             (Str (lit "text")) (Str (lit "list")) (Str (lit "Water, Glycerin")));
      vm_compute; reflexivity.
Defined.

Lemma service_failure_is_reported_once_witness :
  run (Analyze.handler (as_fetch (Unreachable (Exn (lit "network")))) with_key sample_event)
  = (Normal {| status := 500; headers := [];
               body := JSON_stringify (Obj [(lit "error", Str (lit "network"))]) |},
     [sample_fetch_request])
  /\ run (Analyze.handler (as_fetch (Refused (lit "overloaded") (Exn (lit "529"))))
            with_key sample_event)
     = (Normal {| status := 500; headers := [];
                  body := JSON_stringify
                            (Obj [(lit "error",
                                   Str (lit "Anthropic API error: " ++ lit "overloaded"))]) |},
        [sample_fetch_request])
  /\ run (Api.handler (as_create (Unreachable (Exn (lit "network")))) api_with_key
            text_request)
     = (Normal {| status := 500; headers := Api.json_headers;
                  body := JSON_stringify
                            (Obj [(lit "error", Str (lit "Analysis failed"));
                                  (lit "details", Str (lit "network"))]) |},
        [sample_create_request]).
Proof.
  destruct (@service_failure_is_reported_once literal_engine) as (A & B & C).
  split; [|split].
  - apply (A _ with_key sample_event sample_fetch_request (Exn (lit "network"))
             analyze_sends_sample). reflexivity.
  - apply (B _ with_key sample_event sample_fetch_request
             {| Analyze.ok := false; Analyze.text := Normal (lit "overloaded") |}
             (lit "overloaded") analyze_sends_sample); reflexivity.
  - apply (C _ api_with_key text_request sample_create_request (Exn (lit "network"))
             api_sends_sample). reflexivity.
Defined.

Lemma unfenced_reply_is_read_as_trimmed_witness :
  run (Analyze.handler (as_fetch (replies (nl ++ alit "{'ingredients':[]}")))
         with_key sample_event)
  = (Normal {| status := 200; headers := Analyze.success_headers;
               body := alit "{'ingredients':[]}" |}, [sample_fetch_request])
  /\ run (Api.handler (as_create (replies (nl ++ alit "{'ingredients':[]}")))
            api_with_key text_request)
     = (Normal {| status := 200; headers := Api.json_headers;
                  body := alit "{'ingredients':[]}" |}, [sample_create_request]).
Proof.
  destruct (@unfenced_reply_is_read_as_trimmed literal_engine
              (nl ++ alit "{'ingredients':[]}") eq_refl) as (A & B).
  split.
  - apply (A _ with_key sample_event sample_fetch_request
             (fetched (nl ++ alit "{'ingredients':[]}"))
             (message_with (nl ++ alit "{'ingredients':[]}"))
             analyze_sends_sample); vm_compute; reflexivity.
  - apply (B _ api_with_key text_request sample_create_request
             (message_with (nl ++ alit "{'ingredients':[]}"))
             api_sends_sample); vm_compute; reflexivity.
Defined.

Lemma prose_around_the_object_is_dropped_witness :
  run (Api.handler (as_create (replies (in_prose (alit "'ingredients':[]"))))
         api_with_key text_request)
  = (Normal {| status := 200; headers := Api.json_headers;
               body := JSON_stringify (Obj [(lit "ingredients", Arr [])]) |},
     [sample_create_request]).
Proof.
  apply (@prose_around_the_object_is_dropped literal_engine
           (lit "Here is the analysis: ") (alit "'ingredients':[]") (lit " Let me know.")
           (Obj [(lit "ingredients", Arr [])]) eq_refl eq_refl eq_refl eq_refl
           _ api_with_key text_request sample_create_request
           (message_with (in_prose (alit "'ingredients':[]"))) api_sends_sample);
    vm_compute; reflexivity.
Defined.

Lemma surrounding_white_space_is_immaterial_witness :
  Analyze.isProductName (nl ++ lit "Water, Glycerin" ++ lit "  ")
  = Analyze.isProductName (lit "Water, Glycerin")
  /\ run (Analyze.handler
            (as_fetch (replies (nl ++ alit "{'ingredients':[]}" ++ lit "  ")))
            with_key sample_event)
     = run (Analyze.handler (as_fetch (replies (alit "{'ingredients':[]}")))
              with_key sample_event)
  /\ run (Api.handler
            (as_create (replies (nl ++ alit "{'ingredients':[]}" ++ lit "  ")))
            api_with_key text_request)
     = run (Api.handler (as_create (replies (alit "{'ingredients':[]}")))
              api_with_key text_request).
Proof.
  destruct (@surrounding_white_space_is_immaterial literal_engine nl (lit "  ")
              eq_refl eq_refl) as (A & B & C).
  split; [apply A | split].
  - apply (B (alit "{'ingredients':[]}") _ _ with_key sample_event sample_fetch_request
             (fetched (alit "{'ingredients':[]}"))
             (fetched (nl ++ alit "{'ingredients':[]}" ++ lit "  "))
             (message_with (alit "{'ingredients':[]}"))
             (message_with (nl ++ alit "{'ingredients':[]}" ++ lit "  "))
             analyze_sends_sample); vm_compute; reflexivity.
  - apply (C (alit "{'ingredients':[]}") _ _ api_with_key text_request
             sample_create_request
             (message_with (alit "{'ingredients':[]}"))
             (message_with (nl ++ alit "{'ingredients':[]}" ++ lit "  "))
             api_sends_sample); vm_compute; reflexivity.
Defined.

Lemma error_answers_carry_an_error_object_witness :
  (exists msg rest,
      JSON_parse (error_body (lit "Method not allowed"))
      = Some (Obj ((lit "error", Str msg) :: rest))
      /\ (rest = [] \/ exists raw, rest = [(lit "raw", Str raw)]))
  /\ (exists msg rest,
      JSON_parse (body (api_failure (Exn (lit "network"))))
      = Some (Obj ((lit "error", Str msg) :: rest))
      /\ (rest = [] \/ exists details, rest = [(lit "details", Str details)])).
Proof.
  destruct (@error_answers_carry_an_error_object literal_engine) as (A & B). split.
  - apply (A no_fetch with_key get_event
             {| status := 405; headers := [];
                body := error_body (lit "Method not allowed") |} []).
    + vm_compute; reflexivity.
    + discriminate.
  - apply (B (as_create (Unreachable (Exn (lit "network")))) api_with_key text_request
             (api_failure (Exn (lit "network"))) [sample_create_request]).
    + vm_compute; reflexivity.
    + discriminate.
    + discriminate.
Defined.

Lemma empty_key_is_no_key_witness :
  (run (Analyze.handler no_fetch with_empty_key sample_event)
   = run (Analyze.handler no_fetch without_key sample_event)
   /\ snd (run (Analyze.handler no_fetch with_empty_key sample_event)) = [])
  /\ (run (Api.handler silent api_with_empty_key text_request)
      = run (Api.handler silent api_without_key text_request)
      /\ snd (run (Api.handler silent api_with_empty_key text_request)) = []).
Proof.
  destruct (@empty_key_is_no_key literal_engine) as (A & B). split.
  - apply A; reflexivity.
  - apply B; reflexivity.
Defined.
